(** * bulldozer: canary rollout of an instance template over a managed
    instance group

    Shallow embedding of [internal/statemachine] (the Google Compute adapter
    [googleComputeAPI] and the rollout state machine [Runner]) and the
    properties of its scale step, stability waiter, health gate and
    termination check.

    Conventions of the embedding:
    - Go's [int64] is [Z] with the wrap-around of the machine operations
      written out ([Int64.mul], [Int64.sub]).
    - A Go [error] is a value of [error]; [errors.Wrap] keeps its cause.
    - A method returns an [outcome]: a value, an error, or the run-time panic
      of a nil pointer dereference.
    - Effects are explicit: a computation threads a world [W] (whatever lies
      behind the calls it makes) and records the calls it issues, the lines it
      logs and the sleeps it takes, in order, in a trace.
    - [context.Context] is only handed through by the source and is left out. *)

From Stdlib Require Import ZArith Lia.
From stdpp Require Import base strings list gmap.

Local Open Scope string_scope.
Local Open Scope list_scope.
Local Open Scope Z_scope.

(** ** Machine integers *)

Module Int64.

Definition min_signed : Z := - 2 ^ 63.
Definition max_signed : Z := 2 ^ 63 - 1.

Definition in_range (z : Z) : Prop := min_signed <= z <= max_signed.

(** Two's complement wrap-around to 64 bits. *)
Definition wrap (z : Z) : Z := (z + 2 ^ 63) mod 2 ^ 64 - 2 ^ 63.

Definition mul (a b : Z) : Z := wrap (a * b).
Definition sub (a b : Z) : Z := wrap (a - b).

End Int64.

(** ** Errors and outcomes *)

(** An argument of a format string ([%s] or [%d]). *)
Inductive fmtArg : Type :=
| ArgS (s : string)
| ArgD (n : Z).

(** [errors.New], [errors.Errorf] (format and arguments kept apart) and
    [errors.Wrap]. *)
Inductive error : Type :=
| New (msg : string)
| Errorf (format : string) (args : list fmtArg)
| Wrap (cause : error) (msg : string).

(** What a Go call yields: the value (with a nil error), a non-nil error, or
    a nil pointer dereference that aborts the program. *)
Inductive outcome (A : Type) : Type :=
| Ok (a : A)
| Err (e : error)
| Panic.

Arguments Ok {A} a.
Arguments Err {A} e.
Arguments Panic {A}.

(** ** Data model: the messages of [google.golang.org/api/compute/v1]

    The structs are declared by the API package, outside the repository.
    Each record keeps, under their Go names, the fields that the program
    reads or writes.  A nested message is a pointer in these structs
    ([TargetSize: &compute.FixedOrPercent{...}], [UpdatePolicy: &...] in
    [scale]) and an [option] here: reading a field through it when it is nil
    panics.  A field left out of a struct literal has its zero value.  The
    elements of a slice of messages are not nil. *)

Module FixedOrPercent.
Record t : Type := mk { Calculated : Z; Fixed : Z; Percent : Z }.
End FixedOrPercent.

Module InstanceGroupManagerVersion.
Record t : Type := mk {
  Name : string;
  InstanceTemplate : string;
  TargetSize : option FixedOrPercent.t
}.
End InstanceGroupManagerVersion.

Module DistributionPolicyZoneConfiguration.
Record t : Type := mk { Zone : string }.
End DistributionPolicyZoneConfiguration.

Module DistributionPolicy.
Record t : Type := mk { Zones : list DistributionPolicyZoneConfiguration.t }.
End DistributionPolicy.

Module InstanceGroupManagerUpdatePolicy.
Record t : Type := mk {
  Type_ : string;
  MaxSurge : option FixedOrPercent.t;
  MaxUnavailable : option FixedOrPercent.t
}.
End InstanceGroupManagerUpdatePolicy.

Module InstanceGroupManagerStatusVersionTarget.
Record t : Type := mk { IsReached : bool }.
End InstanceGroupManagerStatusVersionTarget.

Module InstanceGroupManagerStatus.
Record t : Type := mk {
  IsStable : bool;
  VersionTarget : option InstanceGroupManagerStatusVersionTarget.t
}.
End InstanceGroupManagerStatus.

Module InstanceGroupManager.
Record t : Type := mk {
  SelfLink : string;
  Versions : list InstanceGroupManagerVersion.t;
  TargetSize : Z;
  DistributionPolicy : option DistributionPolicy.t;
  Status : option InstanceGroupManagerStatus.t;
  UpdatePolicy : option InstanceGroupManagerUpdatePolicy.t
}.
End InstanceGroupManager.

Module InstanceTemplate.
Record t : Type := mk { SelfLink : string }.
End InstanceTemplate.

Module ManagedInstanceVersion.
Record t : Type := mk { InstanceTemplate : string }.
End ManagedInstanceVersion.

Module ManagedInstance.
Record t : Type := mk {
  Instance : string;
  Version : option ManagedInstanceVersion.t
}.
End ManagedInstance.

Module Backend.
Record t : Type := mk { Group : string }.
End Backend.

Module BackendService.
Record t : Type := mk {
  Name : string;
  Region : string;
  Backends : list Backend.t
}.
End BackendService.

Module BackendServicesScopedList.
Record t : Type := mk { BackendServices : list BackendService.t }.
End BackendServicesScopedList.

(** [Items] is a Go map from scope to scoped list; it is only ranged over,
    so it is kept as the association list of one iteration order. *)
Module BackendServiceAggregatedList.
Record t : Type := mk { Items : list (string * BackendServicesScopedList.t) }.
End BackendServiceAggregatedList.

Module HealthStatus.
Record t : Type := mk { HealthState : string; Instance : string }.
End HealthStatus.

Module BackendServiceGroupHealth.
Record t : Type := mk { HealthStatus : list HealthStatus.t }.
End BackendServiceGroupHealth.

Module ResourceGroupReference.
Record t : Type := mk { Group : string }.
End ResourceGroupReference.

(** The two list responses that [GetMIGInstances] pages through. *)
Module ListManagedInstancesResponse.
Record t : Type := mk { ManagedInstances : list ManagedInstance.t }.
End ListManagedInstancesResponse.

(** ** compute.go: locations *)

Module RegionOrZone.
Record t : Type := mk { Region : string; Zone : string }.
End RegionOrZone.

Definition Region (region : string) : RegionOrZone.t :=
  RegionOrZone.mk region "".

Definition Zone (zone : string) : RegionOrZone.t :=
  RegionOrZone.mk "" zone.

(** ** Effects *)

Section Effects.

Context {W E : Type}.

(** A computation over the world [W] that records events of type [E]. *)
Definition M (A : Type) : Type := W -> W * list E * outcome A.

Definition ret {A : Type} (a : A) : M A := fun w => (w, [], Ok a).

Definition bind {A B : Type} (m : M A) (f : A -> M B) : M B := fun w =>
  match m w with
  | (w1, t1, Ok a) => match f a w1 with (w2, t2, r) => (w2, t1 ++ t2, r) end
  | (w1, t1, Err e) => (w1, t1, Err e)
  | (w1, t1, Panic) => (w1, t1, Panic)
  end.

(** [return ..., err] *)
Definition throw {A : Type} (e : error) : M A := fun w => (w, [], Err e).

Definition panic {A : Type} : M A := fun w => (w, [], Panic).

Definition emit (ev : E) : M unit := fun w => (w, [ev], Ok tt).

(** [p.field] through a pointer [p]. *)
Definition deref {A : Type} (p : option A) : M A :=
  match p with
  | Some a => ret a
  | None => panic
  end.

(** A call across the boundary: the event is recorded, the callee moves the
    world and answers. *)
Definition invoke {A : Type} (ev : E) (op : W -> W * outcome A) : M A :=
  fun w => match op w with (w', r) => (w', [ev], r) end.

(** The same, handing the error back as a value ([x, err := ...]). *)
Definition attempt {A : Type} (ev : E) (op : W -> W * (A + error)) : M (A + error) :=
  fun w => match op w with (w', r) => (w', [ev], Ok r) end.

(** An error of [m] handed back as a value. *)
Definition try {A : Type} (m : M A) : M (A + error) := fun w =>
  match m w with
  | (w', t, Ok a) => (w', t, Ok (inl a))
  | (w', t, Err e) => (w', t, Ok (inr e))
  | (w', t, Panic) => (w', t, Panic)
  end.

Definition world_of {A : Type} (x : W * list E * outcome A) : W := fst (fst x).
Definition trace_of {A : Type} (x : W * list E * outcome A) : list E := snd (fst x).
Definition result_of {A : Type} (x : W * list E * outcome A) : outcome A := snd x.

End Effects.

Arguments M W E A : clear implicits.

Declare Scope go_scope.
Delimit Scope go_scope with go.

Notation "'let*' x ':=' m 'in' k" := (bind m (fun x => k))
  (at level 10, x name, m at level 100, k at level 200) : go_scope.
Notation "'let*' ' p ':=' m 'in' k" := (bind m (fun p => k))
  (at level 10, p pattern, m at level 100, k at level 200) : go_scope.
Notation "m ;; k" := (bind m (fun _ => k))
  (at level 100, k at level 200, right associativity) : go_scope.

Local Open Scope go_scope.

(** ** compute.go: the adapter over the Google Compute service *)

(** The requests the adapter sends.  A listing that is paged through counts
    as one request. *)
Module Net.
Inductive request : Type :=
| RegionInstanceGroupManagers_Get (project region name : string)
| InstanceGroupManagers_Get (project zone name : string)
| RegionInstanceGroupManagers_ListManagedInstances (project region name : string)
| InstanceGroupManagers_ListManagedInstances (project zone name : string)
| RegionInstanceGroupManagers_Patch (project region name : string)
    (patch : InstanceGroupManager.t)
| InstanceGroupManagers_Patch (project zone name : string)
    (patch : InstanceGroupManager.t)
| InstanceTemplates_Get (project name : string)
| BackendServices_AggregatedList (project : string)
| RegionBackendServices_GetHealth (project region name : string)
    (groupRef : ResourceGroupReference.t)
| BackendServices_GetHealth (project name : string)
    (groupRef : ResourceGroupReference.t).
End Net.

(** [*compute.Service]: what the remote service answers to each request,
    over the world [W] of the remote side.  A [...Do()] yields a message or an
    error; a [...Pages(ctx, f)] delivers the pages it could fetch and then,
    possibly, the error that stopped it. *)
Module Service.
Record t (W : Type) : Type := mk {
  RegionInstanceGroupManagers_Get :
    string -> string -> string -> W -> W * (InstanceGroupManager.t + error);
  InstanceGroupManagers_Get :
    string -> string -> string -> W -> W * (InstanceGroupManager.t + error);
  RegionInstanceGroupManagers_ListManagedInstances :
    string -> string -> string ->
    W -> W * (list ListManagedInstancesResponse.t * option error);
  InstanceGroupManagers_ListManagedInstances :
    string -> string -> string ->
    W -> W * (list ListManagedInstancesResponse.t * option error);
  RegionInstanceGroupManagers_Patch :
    string -> string -> string -> InstanceGroupManager.t -> W -> W * (unit + error);
  InstanceGroupManagers_Patch :
    string -> string -> string -> InstanceGroupManager.t -> W -> W * (unit + error);
  InstanceTemplates_Get :
    string -> string -> W -> W * (InstanceTemplate.t + error);
  BackendServices_AggregatedList :
    string -> W -> W * (list BackendServiceAggregatedList.t * option error);
  RegionBackendServices_GetHealth :
    string -> string -> string -> ResourceGroupReference.t ->
    W -> W * (BackendServiceGroupHealth.t + error);
  BackendServices_GetHealth :
    string -> string -> ResourceGroupReference.t ->
    W -> W * (BackendServiceGroupHealth.t + error)
}.
Arguments RegionInstanceGroupManagers_Get {W} _.
Arguments InstanceGroupManagers_Get {W} _.
Arguments RegionInstanceGroupManagers_ListManagedInstances {W} _.
Arguments InstanceGroupManagers_ListManagedInstances {W} _.
Arguments RegionInstanceGroupManagers_Patch {W} _.
Arguments InstanceGroupManagers_Patch {W} _.
Arguments InstanceTemplates_Get {W} _.
Arguments BackendServices_AggregatedList {W} _.
Arguments RegionBackendServices_GetHealth {W} _.
Arguments BackendServices_GetHealth {W} _.
End Service.

(** [x.Pages(ctx, f)]: [f] runs on each page in turn and stops the paging
    with its first error; the variables [f] captures and assigns are the
    state [S] it is handed and hands back. *)
Section Paging.

Context {W E P S : Type}.

Fixpoint eachPage (f : S -> P -> M W E S) (pages : list P) (s : S) : M W E S :=
  match pages with
  | [] => ret s
  | page :: rest => let* s' := f s page in eachPage f rest s'
  end.

Definition Pages (ev : E) (listing : W -> W * (list P * option error))
    (f : S -> P -> M W E S) (s : S) : M W E (S + error) :=
  fun w =>
    match listing w with
    | (w', (pages, failure)) =>
        (emit ev ;;
         let* r := try (eachPage f pages s) in
         match r, failure with
         | inr err, _ => ret (inr err)
         | inl s', None => ret (inl s')
         | inl _, Some err => ret (inr err)
         end) w'
    end.

End Paging.

Module googleComputeAPI.

Section Methods.

Context {W : Type}.

Record t : Type := mk { computeService : Service.t W }.

Definition GetMIG (g : t) (projectID : string) (location : RegionOrZone.t)
    (name : string) : M W Net.request InstanceGroupManager.t :=
  let* r :=
    if decide (RegionOrZone.Region location <> "") then
      attempt
        (Net.RegionInstanceGroupManagers_Get projectID (RegionOrZone.Region location) name)
        (Service.RegionInstanceGroupManagers_Get (computeService g)
           projectID (RegionOrZone.Region location) name)
    else if decide (RegionOrZone.Zone location <> "") then
      attempt
        (Net.InstanceGroupManagers_Get projectID (RegionOrZone.Zone location) name)
        (Service.InstanceGroupManagers_Get (computeService g)
           projectID (RegionOrZone.Zone location) name)
    else
      ret (inr (New "must specify either region or zone")) in
  match r with
  | inr err => throw (Wrap err "error retrieving instance group information")
  | inl mig => ret mig
  end.

(** The callback of both listings: [instances = append(instances, ...)]. *)
Definition appendInstances (instances : list ManagedInstance.t)
    (response : ListManagedInstancesResponse.t)
    : M W Net.request (list ManagedInstance.t) :=
  ret (instances ++ ListManagedInstancesResponse.ManagedInstances response).

Definition GetMIGInstances (g : t) (projectID : string) (location : RegionOrZone.t)
    (name : string) : M W Net.request (list ManagedInstance.t) :=
  let* r :=
    if decide (RegionOrZone.Region location <> "") then
      Pages
        (Net.RegionInstanceGroupManagers_ListManagedInstances
           projectID (RegionOrZone.Region location) name)
        (Service.RegionInstanceGroupManagers_ListManagedInstances (computeService g)
           projectID (RegionOrZone.Region location) name)
        appendInstances []
    else if decide (RegionOrZone.Zone location <> "") then
      Pages
        (Net.InstanceGroupManagers_ListManagedInstances
           projectID (RegionOrZone.Zone location) name)
        (Service.InstanceGroupManagers_ListManagedInstances (computeService g)
           projectID (RegionOrZone.Zone location) name)
        appendInstances []
    else
      ret (inr (New "must specify either region or zone")) in
  match r with
  | inr err => throw (Wrap err "error retrieving list of managed instances")
  | inl instances => ret instances
  end.

Definition PatchMIG (g : t) (projectID : string) (location : RegionOrZone.t)
    (name : string) (patch : InstanceGroupManager.t) : M W Net.request unit :=
  let* r :=
    if decide (RegionOrZone.Region location <> "") then
      attempt
        (Net.RegionInstanceGroupManagers_Patch
           projectID (RegionOrZone.Region location) name patch)
        (Service.RegionInstanceGroupManagers_Patch (computeService g)
           projectID (RegionOrZone.Region location) name patch)
    else if decide (RegionOrZone.Zone location <> "") then
      attempt
        (Net.InstanceGroupManagers_Patch
           projectID (RegionOrZone.Zone location) name patch)
        (Service.InstanceGroupManagers_Patch (computeService g)
           projectID (RegionOrZone.Zone location) name patch)
    else
      ret (inr (New "must specify either region or zone")) in
  match r with
  | inr err => throw (Wrap err "error retrieving instance group information")
  | inl _ => ret tt
  end.

(** [errors.Wrap] of a nil error is nil. *)
Definition GetInstanceTemplate (g : t) (projectID name : string)
    : M W Net.request InstanceTemplate.t :=
  let* r :=
    attempt (Net.InstanceTemplates_Get projectID name)
      (Service.InstanceTemplates_Get (computeService g) projectID name) in
  match r with
  | inr err => throw (Wrap err "error retrieving instance template information")
  | inl template => ret template
  end.

(** The innermost loop of [FindBackendServiceWithMIG], over the backends it
    is given: does one of them front the group? *)
Definition anyBackendOf (selfLink : string) (backends : list Backend.t) : bool :=
  existsb (fun backend => bool_decide (Backend.Group backend = selfLink)) backends.

(** How a loop nest inside the callback leaves: it runs to its end, or the
    callback returns from within it. *)
Inductive flow : Type :=
| Next
| Return (backendService : option BackendService.t).

(** [for _, candidateBackendService := range list.BackendServices]: the
    backends ranged over are those of [backendService], the variable of the
    enclosing function, not those of the candidate. *)
Fixpoint overBackendServices (selfLink : string)
    (backendService : option BackendService.t)
    (candidates : list BackendService.t) : M W Net.request flow :=
  match candidates with
  | [] => ret Next
  | candidateBackendService :: rest =>
      let* bs := deref backendService in
      if anyBackendOf selfLink (BackendService.Backends bs) then
        ret (Return (Some candidateBackendService))
      else
        overBackendServices selfLink backendService rest
  end.

(** [for _, list := range aggregate.Items] *)
Fixpoint overItems (selfLink : string) (backendService : option BackendService.t)
    (items : list (string * BackendServicesScopedList.t)) : M W Net.request flow :=
  match items with
  | [] => ret Next
  | (_, list) :: rest =>
      let* fl :=
        overBackendServices selfLink backendService
          (BackendServicesScopedList.BackendServices list) in
      match fl with
      | Return found => ret (Return found)
      | Next => overItems selfLink backendService rest
      end
  end.

(** The callback handed to [Pages]; it returns nil on every path. *)
Definition findInAggregate (mig : InstanceGroupManager.t)
    (backendService : option BackendService.t)
    (aggregate : BackendServiceAggregatedList.t)
    : M W Net.request (option BackendService.t) :=
  let* fl :=
    overItems (InstanceGroupManager.SelfLink mig) backendService
      (BackendServiceAggregatedList.Items aggregate) in
  match fl with
  | Return found => ret found
  | Next => ret backendService
  end.

Definition FindBackendServiceWithMIG (g : t) (projectID : string)
    (mig : InstanceGroupManager.t) : M W Net.request BackendService.t :=
  let* r :=
    Pages (Net.BackendServices_AggregatedList projectID)
      (Service.BackendServices_AggregatedList (computeService g) projectID)
      (findInAggregate mig) None in
  match r with
  | inr err => throw (Wrap err "error listing backend services in project")
  | inl None =>
      throw (New "could not find backend service containing the specified instance group")
  | inl (Some backendService) => ret backendService
  end.

Definition GetBackendServiceGroupHealth (g : t) (projectID : string)
    (backend : BackendService.t) (mig : InstanceGroupManager.t)
    : M W Net.request BackendServiceGroupHealth.t :=
  let groupRef := ResourceGroupReference.mk (InstanceGroupManager.SelfLink mig) in
  let* r :=
    if decide (BackendService.Region backend <> "") then
      attempt
        (Net.RegionBackendServices_GetHealth projectID
           (BackendService.Region backend) (BackendService.Name backend) groupRef)
        (Service.RegionBackendServices_GetHealth (computeService g) projectID
           (BackendService.Region backend) (BackendService.Name backend) groupRef)
    else
      attempt
        (Net.BackendServices_GetHealth projectID (BackendService.Name backend) groupRef)
        (Service.BackendServices_GetHealth (computeService g) projectID
           (BackendService.Name backend) groupRef) in
  match r with
  | inr err => throw (Wrap err "error getting health of backend service group")
  | inl groupHealth => ret groupHealth
  end.

End Methods.

Arguments t W : clear implicits.

End googleComputeAPI.

(** ** compute.go: the capability interface the state machine depends on *)

(** [computeAPI]: an implementation answers each method over its world. *)
Module computeAPI.
Record t (W : Type) : Type := mk {
  GetMIG :
    string -> RegionOrZone.t -> string -> W -> W * outcome InstanceGroupManager.t;
  GetMIGInstances :
    string -> RegionOrZone.t -> string -> W -> W * outcome (list ManagedInstance.t);
  PatchMIG :
    string -> RegionOrZone.t -> string -> InstanceGroupManager.t -> W -> W * outcome unit;
  GetInstanceTemplate :
    string -> string -> W -> W * outcome InstanceTemplate.t;
  FindBackendServiceWithMIG :
    string -> InstanceGroupManager.t -> W -> W * outcome BackendService.t;
  GetBackendServiceGroupHealth :
    string -> BackendService.t -> InstanceGroupManager.t ->
    W -> W * outcome BackendServiceGroupHealth.t
}.
Arguments GetMIG {W} _.
Arguments GetMIGInstances {W} _.
Arguments PatchMIG {W} _.
Arguments GetInstanceTemplate {W} _.
Arguments FindBackendServiceWithMIG {W} _.
Arguments GetBackendServiceGroupHealth {W} _.
End computeAPI.

(** A method of the adapter seen from outside: its requests are its own
    business. *)
Definition answer {W E A : Type} (m : M W E A) : W -> W * outcome A :=
  fun w => (world_of (m w), result_of (m w)).

(** The adapter implements the interface (the [var _ computeAPI] line). *)
Definition googleComputeAPI_computeAPI {W : Type} (g : googleComputeAPI.t W)
    : computeAPI.t W :=
  computeAPI.mk W
    (fun projectID location name =>
       answer (googleComputeAPI.GetMIG g projectID location name))
    (fun projectID location name =>
       answer (googleComputeAPI.GetMIGInstances g projectID location name))
    (fun projectID location name patch =>
       answer (googleComputeAPI.PatchMIG g projectID location name patch))
    (fun projectID name =>
       answer (googleComputeAPI.GetInstanceTemplate g projectID name))
    (fun projectID mig =>
       answer (googleComputeAPI.FindBackendServiceWithMIG g projectID mig))
    (fun projectID backend mig =>
       answer (googleComputeAPI.GetBackendServiceGroupHealth g projectID backend mig)).

(** ** The rollout state machine *)

(** What a run does that can be seen from outside, in order: the lines it
    logs, the adapter methods it calls, the sleeps it takes. *)
Module Run.
Inductive event : Type :=
| Log (format : string) (args : list fmtArg)
| GetMIG (projectID : string) (location : RegionOrZone.t) (name : string)
| GetMIGInstances (projectID : string) (location : RegionOrZone.t) (name : string)
| PatchMIG (projectID : string) (location : RegionOrZone.t) (name : string)
    (patch : InstanceGroupManager.t)
| GetInstanceTemplate (projectID name : string)
| FindBackendServiceWithMIG (projectID : string) (mig : InstanceGroupManager.t)
| GetBackendServiceGroupHealth (projectID : string) (backend : BackendService.t)
    (mig : InstanceGroupManager.t)
| Sleep (duration : Z).
End Run.

(** [60 * time.Second], in nanoseconds. *)
Definition tickInterval : Z := 60 * 1000000000.
Definition maxTicks : Z := 60.

Module Runner.
Record t (W : Type) : Type := mk {
  computeAPI : computeAPI.t W;
  sleepFunc : Z -> W -> W;
  projectID : string;
  location : RegionOrZone.t;
  migName : string;
  templateName : string
}.
Arguments computeAPI {W} _.
Arguments sleepFunc {W} _.
Arguments projectID {W} _.
Arguments location {W} _.
Arguments migName {W} _.
Arguments templateName {W} _.
End Runner.

(** The pointers of [clusterInfo] are those a successful adapter call
    returned; they are not nil. *)
Module clusterInfo.
Record t : Type := mk {
  group : InstanceGroupManager.t;
  template : InstanceTemplate.t;
  backend : BackendService.t
}.
End clusterInfo.

(** The errors of the state machine, under the names of the specification. *)
Definition LocationError : error := New "must specify either region or zone".

Definition AmbiguousPrimaryError (primaryTemplate found : string) : error :=
  Errorf
    "found two non-canary templates: '%s' and '%s', cannot determine primary template"
    [ArgS primaryTemplate; ArgS found].

Definition MissingPrimaryError : error :=
  New "could not find primary (non-canary) template".

Definition StabilityTimeoutError : error :=
  Errorf "cluster did not become stable within %d ticks" [ArgD maxTicks].

Definition UnhealthyCanaryError (instance : string) : error :=
  Errorf "found unhealthy canary instance in backend service: '%s'" [ArgS instance].

Section StateMachine.

Context {W : Type}.

Abbreviation Prog := (M W Run.event).

Definition logPrintf (format : string) (args : list fmtArg) : Prog unit :=
  emit (Run.Log format args).

(** The calls [r.computeAPI.X(ctx, ...)] and [r.sleepFunc(d)]. *)
Definition callGetMIG (r : Runner.t W) : Prog InstanceGroupManager.t :=
  invoke (Run.GetMIG (Runner.projectID r) (Runner.location r) (Runner.migName r))
    (computeAPI.GetMIG (Runner.computeAPI r)
       (Runner.projectID r) (Runner.location r) (Runner.migName r)).

Definition callGetMIGInstances (r : Runner.t W) : Prog (list ManagedInstance.t) :=
  invoke (Run.GetMIGInstances (Runner.projectID r) (Runner.location r) (Runner.migName r))
    (computeAPI.GetMIGInstances (Runner.computeAPI r)
       (Runner.projectID r) (Runner.location r) (Runner.migName r)).

Definition callPatchMIG (r : Runner.t W) (patch : InstanceGroupManager.t) : Prog unit :=
  invoke
    (Run.PatchMIG (Runner.projectID r) (Runner.location r) (Runner.migName r) patch)
    (computeAPI.PatchMIG (Runner.computeAPI r)
       (Runner.projectID r) (Runner.location r) (Runner.migName r) patch).

Definition callGetInstanceTemplate (r : Runner.t W) : Prog InstanceTemplate.t :=
  invoke (Run.GetInstanceTemplate (Runner.projectID r) (Runner.templateName r))
    (computeAPI.GetInstanceTemplate (Runner.computeAPI r)
       (Runner.projectID r) (Runner.templateName r)).

Definition callFindBackendServiceWithMIG (r : Runner.t W)
    (group : InstanceGroupManager.t) : Prog BackendService.t :=
  invoke (Run.FindBackendServiceWithMIG (Runner.projectID r) group)
    (computeAPI.FindBackendServiceWithMIG (Runner.computeAPI r)
       (Runner.projectID r) group).

Definition callGetBackendServiceGroupHealth (r : Runner.t W)
    (info : clusterInfo.t) : Prog BackendServiceGroupHealth.t :=
  invoke
    (Run.GetBackendServiceGroupHealth (Runner.projectID r)
       (clusterInfo.backend info) (clusterInfo.group info))
    (computeAPI.GetBackendServiceGroupHealth (Runner.computeAPI r)
       (Runner.projectID r) (clusterInfo.backend info) (clusterInfo.group info)).

Definition callSleep (r : Runner.t W) (duration : Z) : Prog unit :=
  invoke (Run.Sleep duration) (fun w => (Runner.sleepFunc r duration w, Ok tt)).

Definition getInfo (r : Runner.t W) : Prog clusterInfo.t :=
  let* group := callGetMIG r in
  let* template := callGetInstanceTemplate r in
  let* backend := callFindBackendServiceWithMIG r group in
  ret (clusterInfo.mk group template backend).

(** *** scale *)

(** The loop over [info.group.Versions], from the values that
    [primaryTemplate] and [oldCanarySize] have on entry to the values they
    have on leaving. *)
Fixpoint rangeVersions (selfLink : string)
    (versions : list InstanceGroupManagerVersion.t)
    (primaryTemplate : string) (oldCanarySize : Z) : Prog (string * Z) :=
  match versions with
  | [] => ret (primaryTemplate, oldCanarySize)
  | version :: rest =>
      if decide (InstanceGroupManagerVersion.InstanceTemplate version = selfLink) then
        let* targetSize := deref (InstanceGroupManagerVersion.TargetSize version) in
        if decide (FixedOrPercent.Fixed targetSize > 0) then
          let oldCanarySize := FixedOrPercent.Fixed targetSize in
          logPrintf "found existing canary deployment with %d instances"
            [ArgD oldCanarySize] ;;
          rangeVersions selfLink rest primaryTemplate oldCanarySize
        else
          rangeVersions selfLink rest primaryTemplate oldCanarySize
      else if decide (InstanceGroupManagerVersion.Name version <> "canary") then
        if decide (primaryTemplate <> "") then
          throw (AmbiguousPrimaryError primaryTemplate
                   (InstanceGroupManagerVersion.InstanceTemplate version))
        else
          rangeVersions selfLink rest
            (InstanceGroupManagerVersion.InstanceTemplate version) oldCanarySize
      else
        rangeVersions selfLink rest primaryTemplate oldCanarySize
  end.

(** [newCanarySize] as the doubling sets it. *)
Definition doubled (oldCanarySize : Z) : Z :=
  if decide (oldCanarySize = 0) then 1 else Int64.mul oldCanarySize 2.

(** The comparison with the size of the group: [newCanarySize] as it is
    from there on, and the [versions] of the patch. *)
Definition capped (info : clusterInfo.t) (primaryTemplate : string)
    (newCanarySize : Z) : Z * list InstanceGroupManagerVersion.t :=
  if decide (newCanarySize >= InstanceGroupManager.TargetSize (clusterInfo.group info))
  then
    (InstanceGroupManager.TargetSize (clusterInfo.group info),
     [ InstanceGroupManagerVersion.mk ""
         (InstanceTemplate.SelfLink (clusterInfo.template info)) None ])
  else
    (newCanarySize,
     [ InstanceGroupManagerVersion.mk "" primaryTemplate None;
       InstanceGroupManagerVersion.mk "canary"
         (InstanceTemplate.SelfLink (clusterInfo.template info))
         (Some (FixedOrPercent.mk 0 newCanarySize 0)) ]).

(** [maxSurge], raised to the number of zones where it is below it. *)
Definition raisedSurge (newCanarySize oldCanarySize : Z)
    (zones : list DistributionPolicyZoneConfiguration.t) : Z :=
  let maxSurge := Int64.sub newCanarySize oldCanarySize in
  if decide (maxSurge < Z.of_nat (length zones)) then Z.of_nat (length zones)
  else maxSurge.

(** The patch that [scale] builds. *)
Definition patchOf (versions : list InstanceGroupManagerVersion.t)
    (maxSurge maxUnavailable : Z) : InstanceGroupManager.t :=
  InstanceGroupManager.mk "" versions 0 None None
    (Some (InstanceGroupManagerUpdatePolicy.mk "PROACTIVE"
             (Some (FixedOrPercent.mk 0 maxSurge 0))
             (Some (FixedOrPercent.mk 0 maxUnavailable 0)))).

Definition scale (r : Runner.t W) (info : clusterInfo.t) : Prog unit :=
  let* '(primaryTemplate, oldCanarySize) :=
    rangeVersions (InstanceTemplate.SelfLink (clusterInfo.template info))
      (InstanceGroupManager.Versions (clusterInfo.group info)) "" 0 in
  if decide (primaryTemplate = "") then throw MissingPrimaryError
  else
    let '(newCanarySize, versions) :=
      capped info primaryTemplate (doubled oldCanarySize) in
    logPrintf "patching managed instance group with canary target of %d instances"
      [ArgD newCanarySize] ;;
    let maxUnavailable := 0 in
    let* distributionPolicy :=
      deref (InstanceGroupManager.DistributionPolicy (clusterInfo.group info)) in
    let maxSurge :=
      raisedSurge newCanarySize oldCanarySize
        (DistributionPolicy.Zones distributionPolicy) in
    let patch := patchOf versions maxSurge maxUnavailable in
    let* patched := try (callPatchMIG r patch) in
    match patched with
    | inr err => throw (Wrap err "error updating instance templates in instance group")
    | inl _ => ret tt
    end.

(** *** waitUntilStable *)

(** [g.Status.IsStable && g.Status.VersionTarget.IsReached] *)
Definition stableAndReached (refreshedGroup : InstanceGroupManager.t) : Prog bool :=
  let* status := deref (InstanceGroupManager.Status refreshedGroup) in
  if InstanceGroupManagerStatus.IsStable status then
    let* versionTarget := deref (InstanceGroupManagerStatus.VersionTarget status) in
    ret (InstanceGroupManagerStatusVersionTarget.IsReached versionTarget)
  else ret false.

(** The loop [for ticks := 0; ticks < maxTicks; ticks++], by the number of
    ticks it has left, and the return that follows it. *)
Fixpoint waitTicks (r : Runner.t W) (info : clusterInfo.t) (remaining : nat)
    : Prog clusterInfo.t :=
  match remaining with
  | O => throw StabilityTimeoutError
  | S remaining' =>
      let* refreshedGroup := callGetMIG r in
      let* stable := stableAndReached refreshedGroup in
      if stable then
        logPrintf "cluster is stable" [] ;;
        ret (clusterInfo.mk refreshedGroup
               (clusterInfo.template info) (clusterInfo.backend info))
      else
        logPrintf "cluster is still not stable, sleeping" [] ;;
        callSleep r tickInterval ;;
        waitTicks r info remaining'
  end.

Definition waitUntilStable (r : Runner.t W) (info : clusterInfo.t) : Prog clusterInfo.t :=
  logPrintf "beginning wait until stable loop" [] ;;
  waitTicks r info (Z.to_nat maxTicks).

(** *** checkBackendServiceHealth *)

(** [isUnhealthy], filled from the health statuses. *)
Definition markUnhealthy (isUnhealthy : gmap string bool)
    (healthStatus : HealthStatus.t) : gmap string bool :=
  if decide (HealthStatus.HealthState healthStatus = "UNHEALTHY") then
    <[HealthStatus.Instance healthStatus := true]> isUnhealthy
  else isUnhealthy.

Definition unhealthyInstances (healthResponse : BackendServiceGroupHealth.t)
    : gmap string bool :=
  fold_left markUnhealthy (BackendServiceGroupHealth.HealthStatus healthResponse) ∅.

(** [isUnhealthy[key]]: a missing key reads as false. *)
Definition isUnhealthyAt (isUnhealthy : gmap string bool) (key : string) : bool :=
  default false (isUnhealthy !! key).

(** The loop over the listed instances. *)
Fixpoint rangeInstances (info : clusterInfo.t) (isUnhealthy : gmap string bool)
    (instances : list ManagedInstance.t) : Prog unit :=
  match instances with
  | [] => ret tt
  | instance :: rest =>
      let* version := deref (ManagedInstance.Version instance) in
      if bool_decide (ManagedInstanceVersion.InstanceTemplate version
                      = InstanceTemplate.SelfLink (clusterInfo.template info))
         && isUnhealthyAt isUnhealthy (ManagedInstance.Instance instance)
      then throw (UnhealthyCanaryError (ManagedInstance.Instance instance))
      else rangeInstances info isUnhealthy rest
  end.

Definition checkBackendServiceHealth (r : Runner.t W) (info : clusterInfo.t)
    : Prog unit :=
  logPrintf "checking backend service health" [] ;;
  let* healthResponse := callGetBackendServiceGroupHealth r info in
  let isUnhealthy := unhealthyInstances healthResponse in
  logPrintf "found %d unhealthy instances" [ArgD (Z.of_nat (size isUnhealthy))] ;;
  let* instances := callGetMIGInstances r in
  rangeInstances info isUnhealthy instances.

(** *** isDone *)

(** [Versions[0]] is only evaluated when the length is 1, where it is in
    range. *)
Definition isDone (info : clusterInfo.t) : bool :=
  let versions := InstanceGroupManager.Versions (clusterInfo.group info) in
  bool_decide (length versions = 1%nat)
  && match versions !! 0%nat with
     | Some version =>
         bool_decide (InstanceGroupManagerVersion.InstanceTemplate version
                      = InstanceTemplate.SelfLink (clusterInfo.template info))
     | None => false
     end.

(** *** Start *)

(** One turn of the loop of [Start]: the refreshed snapshot and whether the
    loop breaks. *)
Definition iteration (r : Runner.t W) (info : clusterInfo.t) (loopIterations : Z)
    : Prog (clusterInfo.t * bool) :=
  logPrintf "beginning rollout loop iteration #%d" [ArgD loopIterations] ;;
  scale r info ;;
  let* info' := waitUntilStable r info in
  checkBackendServiceHealth r info' ;;
  ret (info', isDone info').

(** The loop has no bound of its own; [turns] bounds the turns that are
    followed: [None] when the loop is still going after them. *)
Fixpoint loop (r : Runner.t W) (turns : nat) (info : clusterInfo.t)
    (loopIterations : Z) : Prog (option unit) :=
  match turns with
  | O => ret None
  | S turns' =>
      let* '(info', done) := iteration r info loopIterations in
      if done then
        logPrintf "rollout complete" [] ;;
        ret (Some tt)
      else loop r turns' info' (loopIterations + 1)
  end.

Definition Start (r : Runner.t W) (turns : nat) : Prog (option unit) :=
  logPrintf "starting rollout of template '%s' to managed instance group '%s'"
    [ArgS (Runner.templateName r); ArgS (Runner.migName r)] ;;
  let* info := getInfo r in
  loop r turns info 0.

End StateMachine.

(** ** New and the start command *)

(** [compute.NewService] and [time.Sleep] lie outside the repository: what
    the first yields ([newService], a service or an error) and what the second
    does to the world ([timeSleep]) are parameters. *)
Module statemachine.

Section Construction.

Context {W : Type}.

Definition newGoogleComputeAPI (newService : Service.t W + error)
    : googleComputeAPI.t W + error :=
  match newService with
  | inr err => inr (Wrap err "error initializing Google Compute API client")
  | inl computeService => inl (googleComputeAPI.mk computeService)
  end.

Definition New (newService : Service.t W + error) (timeSleep : Z -> W -> W)
    (projectID : string) (location : RegionOrZone.t) (migName templateName : string)
    : Runner.t W + error :=
  match newGoogleComputeAPI newService with
  | inr err => inr err
  | inl computeAPI =>
      inl (Runner.mk W (googleComputeAPI_computeAPI computeAPI) timeSleep
             projectID location migName templateName)
  end.

End Construction.

End statemachine.

Module StartCmd.

(** [statemachine.Region], which the field [Region] hides from here on. *)
Local Abbreviation regionOf := Region.

Record t : Type := mk {
  ProjectID : string;
  Region : string;
  InstanceGroup : string;
  Template : string
}.

(** [Run]: the runner is built for the region of the command, and
    started. *)
Definition Run {W : Type} (c : t) (newService : Service.t W + error)
    (timeSleep : Z -> W -> W) (turns : nat) : M W Run.event (option unit) :=
  match statemachine.New newService timeSleep (ProjectID c) (regionOf (Region c))
          (InstanceGroup c) (Template c) with
  | inr err => throw err
  | inl runner => Start runner turns
  end.

End StartCmd.

(** ** Vocabulary of the properties *)

(** A slice runs the target template: the current canary. *)
Definition runsTemplate (selfLink : string) (version : InstanceGroupManagerVersion.t)
    : Prop :=
  InstanceGroupManagerVersion.InstanceTemplate version = selfLink.

(** A primary slice: it runs another template and is not tagged canary. *)
Definition isPrimary (selfLink : string) (version : InstanceGroupManagerVersion.t)
    : Prop :=
  InstanceGroupManagerVersion.InstanceTemplate version <> selfLink
  /\ InstanceGroupManagerVersion.Name version <> "canary".

(** A slice tagged canary that runs another template than the target. *)
Definition staleCanary (selfLink : string) (version : InstanceGroupManagerVersion.t)
    : Prop :=
  InstanceGroupManagerVersion.Name version = "canary"
  /\ InstanceGroupManagerVersion.InstanceTemplate version <> selfLink.

#[global] Instance runsTemplate_dec selfLink version :
  Decision (runsTemplate selfLink version).
Proof. unfold runsTemplate. apply _. Defined.

#[global] Instance isPrimary_dec selfLink version :
  Decision (isPrimary selfLink version).
Proof. unfold isPrimary. apply _. Defined.

#[global] Instance staleCanary_dec selfLink version :
  Decision (staleCanary selfLink version).
Proof. unfold staleCanary. apply _. Defined.

(** The fixed size a slice carries; none counts as 0. *)
Definition fixedSize (version : InstanceGroupManagerVersion.t) : Z :=
  match InstanceGroupManagerVersion.TargetSize version with
  | Some targetSize => FixedOrPercent.Fixed targetSize
  | None => 0
  end.

(** Every slice that runs the target template carries a target size, as
    the slices of a fetched group do. *)
Definition sized (selfLink : string) (versions : list InstanceGroupManagerVersion.t)
    : Prop :=
  Forall (fun version =>
            runsTemplate selfLink version ->
            is_Some (InstanceGroupManagerVersion.TargetSize version)) versions.

(** The snapshot with other versions in its group. *)
Definition withVersions (info : clusterInfo.t)
    (versions : list InstanceGroupManagerVersion.t) : clusterInfo.t :=
  let group := clusterInfo.group info in
  clusterInfo.mk
    (InstanceGroupManager.mk
       (InstanceGroupManager.SelfLink group)
       versions
       (InstanceGroupManager.TargetSize group)
       (InstanceGroupManager.DistributionPolicy group)
       (InstanceGroupManager.Status group)
       (InstanceGroupManager.UpdatePolicy group))
    (clusterInfo.template info) (clusterInfo.backend info).

(** The versions without the slices tagged canary that run another
    template than the target. *)
Definition dropStale (selfLink : string)
    (versions : list InstanceGroupManagerVersion.t)
    : list InstanceGroupManagerVersion.t :=
  filter (fun version => ~ staleCanary selfLink version) versions.

(** Following the specification: [oldCanarySize] is the fixed size of the
    current canary, 0 if there is none. *)
Definition currentCanarySize (selfLink : string)
    (versions : list InstanceGroupManagerVersion.t) : Z :=
  match filter (runsTemplate selfLink) versions with
  | canary :: _ => fixedSize canary
  | [] => 0
  end.

(** Following the specification: [newCanarySize] doubles, starting at 1. *)
Definition specNewCanarySize (oldCanarySize : Z) : Z :=
  if decide (oldCanarySize = 0) then 1 else oldCanarySize * 2.

(** What a fetched group reports of its stability. *)
Definition reportsUnstable (group : InstanceGroupManager.t) : Prop :=
  exists status,
    InstanceGroupManager.Status group = Some status
    /\ InstanceGroupManagerStatus.IsStable status = false.

Definition reportsStableReached (group : InstanceGroupManager.t) : Prop :=
  InstanceGroupManager.Status group
  = Some (InstanceGroupManagerStatus.mk true
            (Some (InstanceGroupManagerStatusVersionTarget.mk true))).

(** [unstableFetches r k w w']: from the world [w] on, the fleet answers [k]
    fetches in a row, each followed by a sleep of one tick, with a group that
    reports not stable; these lead to the world [w']. *)
Inductive unstableFetches {W : Type} (r : Runner.t W) : nat -> W -> W -> Prop :=
| unstable_none (w : W) : unstableFetches r 0 w w
| unstable_more (k : nat) (w w1 w' : W) (group : InstanceGroupManager.t) :
    computeAPI.GetMIG (Runner.computeAPI r) (Runner.projectID r)
      (Runner.location r) (Runner.migName r) w = (w1, Ok group) ->
    reportsUnstable group ->
    unstableFetches r k (Runner.sleepFunc r tickInterval w1) w' ->
    unstableFetches r (S k) w w'.

(** The health record marks an instance unhealthy. *)
Definition markedUnhealthy (healthResponse : BackendServiceGroupHealth.t)
    (instance : string) : Prop :=
  exists healthStatus,
    In healthStatus (BackendServiceGroupHealth.HealthStatus healthResponse)
    /\ HealthStatus.HealthState healthStatus = "UNHEALTHY"
    /\ HealthStatus.Instance healthStatus = instance.

(** An instance of the canary cohort that the health record marks
    unhealthy. *)
Definition unhealthyCanary (info : clusterInfo.t)
    (healthResponse : BackendServiceGroupHealth.t) (instance : ManagedInstance.t)
    : Prop :=
  (exists version,
     ManagedInstance.Version instance = Some version
     /\ ManagedInstanceVersion.InstanceTemplate version
        = InstanceTemplate.SelfLink (clusterInfo.template info))
  /\ markedUnhealthy healthResponse (ManagedInstance.Instance instance).

(** Following the specification: the canary size that the scale of turn
    [i] (counted from 0) of a rollout announces, 1, 2, 4, 8, ... capped at the
    size of the group, and the versions of its patch. *)
Definition specCanarySize (totalTargetSize : Z) (i : nat) : Z :=
  Z.min (2 ^ Z.of_nat i) totalTargetSize.

Definition specVersions (primaryTemplate selfLink : string) (totalTargetSize : Z)
    (i : nat) : list InstanceGroupManagerVersion.t :=
  if decide (2 ^ Z.of_nat i >= totalTargetSize) then
    [ InstanceGroupManagerVersion.mk "" selfLink None ]
  else
    [ InstanceGroupManagerVersion.mk "" primaryTemplate None;
      InstanceGroupManagerVersion.mk "canary" selfLink
        (Some (FixedOrPercent.mk 0 (2 ^ Z.of_nat i) 0)) ].

(** What a trace shows: the patches issued, the canary sizes announced, the
    fetches and the sleeps. *)
Definition patchesIn (trace : list Run.event) : list InstanceGroupManager.t :=
  flat_map (fun ev => match ev with
                      | Run.PatchMIG _ _ _ patch => [patch]
                      | _ => []
                      end) trace.

Definition canaryTargetsIn (trace : list Run.event) : list Z :=
  flat_map (fun ev => match ev with
                      | Run.Log format [ArgD n] =>
                          if decide (format =
                            "patching managed instance group with canary target of %d instances")
                          then [n] else []
                      | _ => []
                      end) trace.

Definition isCall (ev : Run.event) : bool :=
  match ev with
  | Run.Log _ _ => false
  | _ => true
  end.

Definition isFetch (ev : Run.event) : bool :=
  match ev with
  | Run.GetMIG _ _ _ => true
  | _ => false
  end.

Definition isSleep (ev : Run.event) : bool :=
  match ev with
  | Run.Sleep _ => true
  | _ => false
  end.

Definition fetchesIn (trace : list Run.event) : nat := length (List.filter isFetch trace).
Definition sleepsIn (trace : list Run.event) : nat := length (List.filter isSleep trace).
Definition callsIn (trace : list Run.event) : list Run.event := List.filter isCall trace.

(** The primary that the loop of [scale] settles on, given the templates of
    the primary slices in the order it meets them. *)
Fixpoint settle (primaryTemplate : string) (found : list string) : outcome string :=
  match found with
  | [] => Ok primaryTemplate
  | template :: rest =>
      if decide (primaryTemplate <> "") then
        Err (AmbiguousPrimaryError primaryTemplate template)
      else settle template rest
  end.

(** The canary size that the loop of [scale] ends with: the last positive
    fixed size among the slices that run the target template. *)
Definition lastCanarySize (selfLink : string) (oldCanarySize : Z)
    (versions : list InstanceGroupManagerVersion.t) : Z :=
  fold_left (fun old version =>
               if decide (runsTemplate selfLink version /\ fixedSize version > 0)
               then fixedSize version else old)
    versions oldCanarySize.

(** The only lines the loop of [scale] logs. *)
Definition foundCanaryLine (ev : Run.event) : Prop :=
  exists n, ev = Run.Log "found existing canary deployment with %d instances" [ArgD n].

(** The result of [scale] when its patch call has answered. *)
Definition patched (answer : outcome unit) : outcome unit :=
  match answer with
  | Ok _ => Ok tt
  | Err err => Err (Wrap err "error updating instance templates in instance group")
  | Panic => Panic
  end.

(** The line [scale] logs before it patches. *)
Definition patchLine (newCanarySize : Z) : Run.event :=
  Run.Log "patching managed instance group with canary target of %d instances"
    [ArgD newCanarySize].

(** ** Test doubles of the interface *)

(** A fleet on which every patch takes hold at once and which is stable
    and healthy ever after: the world is the group itself. *)
Module Simulated.

Definition stable : InstanceGroupManagerStatus.t :=
  InstanceGroupManagerStatus.mk true
    (Some (InstanceGroupManagerStatusVersionTarget.mk true)).

Definition applyPatch (patch group : InstanceGroupManager.t) : InstanceGroupManager.t :=
  InstanceGroupManager.mk
    (InstanceGroupManager.SelfLink group)
    (InstanceGroupManager.Versions patch)
    (InstanceGroupManager.TargetSize group)
    (InstanceGroupManager.DistributionPolicy group)
    (Some stable)
    (InstanceGroupManager.UpdatePolicy patch).

Definition api : computeAPI.t InstanceGroupManager.t :=
  computeAPI.mk InstanceGroupManager.t
    (fun _ _ _ group => (group, Ok group))
    (fun _ _ _ group => (group, Ok []))
    (fun _ _ _ patch group => (applyPatch patch group, Ok tt))
    (fun _ name group => (group, Ok (InstanceTemplate.mk name)))
    (fun _ mig group =>
       (group,
        Ok (BackendService.mk "backend" ""
              [Backend.mk (InstanceGroupManager.SelfLink mig)])))
    (fun _ _ _ group => (group, Ok (BackendServiceGroupHealth.mk []))).

Definition runner (templateName : string) : Runner.t InstanceGroupManager.t :=
  Runner.mk InstanceGroupManager.t api (fun _ group => group)
    "project" (Region "region") "group" templateName.

(** A regional group of [targetSize] instances over [zones] zones. *)
Definition fleet (versions : list InstanceGroupManagerVersion.t) (targetSize : Z)
    (zones : list string) : InstanceGroupManager.t :=
  InstanceGroupManager.mk "group-link" versions targetSize
    (Some (DistributionPolicy.mk (DistributionPolicyZoneConfiguration.mk <$> zones)))
    (Some stable) None.

(** The snapshot of a group, as [getInfo] builds it. *)
Definition snapshot (templateName : string) (backend : BackendService.t)
    (group : InstanceGroupManager.t) : clusterInfo.t :=
  clusterInfo.mk group (InstanceTemplate.mk templateName) backend.

Definition info (templateName : string) (group : InstanceGroupManager.t)
    : clusterInfo.t :=
  snapshot templateName
    (BackendService.mk "backend" ""
       [Backend.mk (InstanceGroupManager.SelfLink group)])
    group.

End Simulated.

(** A fleet that answers the fetches from a script (the answer to the
    n-th fetch, counted from 0) and the health check from fixed answers;
    the world counts the fetches served. *)
Module Scripted.

Definition api (script : nat -> outcome InstanceGroupManager.t)
    (health : outcome BackendServiceGroupHealth.t)
    (instances : outcome (list ManagedInstance.t)) : computeAPI.t nat :=
  computeAPI.mk nat
    (fun _ _ _ n => (S n, script n))
    (fun _ _ _ n => (n, instances))
    (fun _ _ _ _ n => (n, Ok tt))
    (fun _ name n => (n, Ok (InstanceTemplate.mk name)))
    (fun _ _ n => (n, Err (New "no backend service")))
    (fun _ _ _ n => (n, health)).

Definition runner (script : nat -> outcome InstanceGroupManager.t)
    (health : outcome BackendServiceGroupHealth.t)
    (instances : outcome (list ManagedInstance.t))
    (templateName : string) : Runner.t nat :=
  Runner.mk nat (api script health instances) (fun _ n => n)
    "project" (Region "region") "group" templateName.

End Scripted.

(** A remote service that answers every request from fixed answers and
    has no state. *)
Module Canned.

Definition service (group : InstanceGroupManager.t)
    (aggregates : list BackendServiceAggregatedList.t) : Service.t unit :=
  Service.mk unit
    (fun _ _ _ w => (w, inl group))
    (fun _ _ _ w => (w, inl group))
    (fun _ _ _ w => (w, ([], None)))
    (fun _ _ _ w => (w, ([], None)))
    (fun _ _ _ _ w => (w, inl tt))
    (fun _ _ _ _ w => (w, inl tt))
    (fun _ name w => (w, inl (InstanceTemplate.mk name)))
    (fun _ w => (w, (aggregates, None)))
    (fun _ _ _ _ w => (w, inl (BackendServiceGroupHealth.mk [])))
    (fun _ _ _ w => (w, inl (BackendServiceGroupHealth.mk []))).

Definition adapter (group : InstanceGroupManager.t)
    (aggregates : list BackendServiceAggregatedList.t) : googleComputeAPI.t unit :=
  googleComputeAPI.mk (service group aggregates).

End Canned.

(** Concrete fleets: a regional group over three zones that rolls from
    the template [templates/old] to the template [templates/new]. *)
Module Examples.

Definition zones : list string := ["us-a"; "us-b"; "us-c"].

Definition primary : InstanceGroupManagerVersion.t :=
  InstanceGroupManagerVersion.mk "" "templates/old" (Some (FixedOrPercent.mk 8 0 0)).

Definition otherPrimary : InstanceGroupManagerVersion.t :=
  InstanceGroupManagerVersion.mk "" "templates/other" (Some (FixedOrPercent.mk 2 0 0)).

Definition canaryOf (size : Z) : InstanceGroupManagerVersion.t :=
  InstanceGroupManagerVersion.mk "canary" "templates/new"
    (Some (FixedOrPercent.mk size size 0)).

(** A canary left over from the rollout of another template. *)
Definition leftover : InstanceGroupManagerVersion.t :=
  InstanceGroupManagerVersion.mk "canary" "templates/previous"
    (Some (FixedOrPercent.mk 0 0 0)).

(** Two versions under names of the operator's own, the second on the
    target template. *)
Definition blue : InstanceGroupManagerVersion.t :=
  InstanceGroupManagerVersion.mk "blue" "templates/old" (Some (FixedOrPercent.mk 8 0 0)).

Definition green : InstanceGroupManagerVersion.t :=
  InstanceGroupManagerVersion.mk "green" "templates/new" (Some (FixedOrPercent.mk 2 2 0)).

Definition runner : Runner.t InstanceGroupManager.t :=
  Simulated.runner "templates/new".

Definition fleet (versions : list InstanceGroupManagerVersion.t)
    : InstanceGroupManager.t :=
  Simulated.fleet versions 10 zones.

Definition snapshot (versions : list InstanceGroupManagerVersion.t) : clusterInfo.t :=
  Simulated.info "templates/new" (fleet versions).

(** The patch that doubles a canary of 2 in the group of 10. *)
Definition patch4 : InstanceGroupManager.t :=
  patchOf
    [ InstanceGroupManagerVersion.mk "" "templates/old" None;
      InstanceGroupManagerVersion.mk "canary" "templates/new"
        (Some (FixedOrPercent.mk 0 4 0)) ]
    3 0.

Definition unstableGroup : InstanceGroupManager.t :=
  InstanceGroupManager.mk "group-link" [primary; canaryOf 2] 10 None
    (Some (InstanceGroupManagerStatus.mk false None)) None.

Definition stableGroup : InstanceGroupManager.t :=
  InstanceGroupManager.mk "group-link" [primary; canaryOf 2] 10 None
    (Some Simulated.stable) None.

(** Not stable for the first two fetches, stable from the third on. *)
Definition stableAfterTwo (n : nat) : outcome InstanceGroupManager.t :=
  if (n <? 2)%nat then Ok unstableGroup else Ok stableGroup.

Definition neverStable (n : nat) : outcome InstanceGroupManager.t :=
  Ok unstableGroup.

Definition listing : list ManagedInstance.t :=
  [ ManagedInstance.mk "vm-a" (Some (ManagedInstanceVersion.mk "templates/new"));
    ManagedInstance.mk "vm-b" (Some (ManagedInstanceVersion.mk "templates/old")) ].

Definition unhealthy (instance : string) : BackendServiceGroupHealth.t :=
  BackendServiceGroupHealth.mk [HealthStatus.mk "UNHEALTHY" instance].

Definition scripted (script : nat -> outcome InstanceGroupManager.t)
    (instance : string) : Runner.t nat :=
  Scripted.runner script (Ok (unhealthy instance)) (Ok listing) "templates/new".

End Examples.

(** ** Vocabulary of the further properties *)

(** What a [...Do()] answer becomes once the adapter has wrapped its
    error. *)
Definition wrapped {A : Type} (answer : A + error) (msg : string) : outcome A :=
  match answer with
  | inl a => Ok a
  | inr err => Err (Wrap err msg)
  end.

(** No page of the aggregated list holds a backend service. *)
Definition noBackendService (aggregates : list BackendServiceAggregatedList.t) : bool :=
  forallb (fun aggregate =>
             forallb (fun item => bool_decide
                        (BackendServicesScopedList.BackendServices item.2 = []))
               (BackendServiceAggregatedList.Items aggregate)) aggregates.

(** A call of the state machine goes to the group the runner was built
    for; log lines and sleeps go nowhere. *)
Definition ownCall {W : Type} (r : Runner.t W) (ev : Run.event) : Prop :=
  match ev with
  | Run.Log _ _ => True
  | Run.Sleep _ => True
  | Run.GetMIG projectID location name
  | Run.GetMIGInstances projectID location name
  | Run.PatchMIG projectID location name _ =>
      projectID = Runner.projectID r
      /\ location = Runner.location r
      /\ name = Runner.migName r
  | Run.GetInstanceTemplate projectID name =>
      projectID = Runner.projectID r /\ name = Runner.templateName r
  | Run.FindBackendServiceWithMIG projectID _ => projectID = Runner.projectID r
  | Run.GetBackendServiceGroupHealth projectID _ _ => projectID = Runner.projectID r
  end.

(** The durations slept, in order. *)
Definition sleepsOf (trace : list Run.event) : list Z :=
  flat_map (fun ev => match ev with
                      | Run.Sleep duration => [duration]
                      | _ => []
                      end) trace.

(** The instances of the statuses in state UNHEALTHY, in order, with
    repetitions. *)
Definition unhealthyIds (healthResponse : BackendServiceGroupHealth.t) : list string :=
  HealthStatus.Instance
    <$> filter (fun healthStatus =>
                  HealthStatus.HealthState healthStatus = "UNHEALTHY")
          (BackendServiceGroupHealth.HealthStatus healthResponse).

(** A version as [scale] reads it: the name of a version on the target
    template and the target size of a version on another template are not
    looked at. *)
Definition asRead (selfLink : string) (version : InstanceGroupManagerVersion.t)
    : InstanceGroupManagerVersion.t :=
  if decide (runsTemplate selfLink version) then
    InstanceGroupManagerVersion.mk ""
      (InstanceGroupManagerVersion.InstanceTemplate version)
      (InstanceGroupManagerVersion.TargetSize version)
  else
    InstanceGroupManagerVersion.mk
      (InstanceGroupManagerVersion.Name version)
      (InstanceGroupManagerVersion.InstanceTemplate version)
      None.

(** A run of [scale] from the world [w]: at most one patch, no fetch, no
    sleep; without a patch the world is as before and the result is not nil;
    with one, the patch call is the only call and decides world and result. *)
Definition patchesOnce {W : Type} (r : Runner.t W) (w : W)
    (run : W * list Run.event * outcome unit) : Prop :=
  ((length (patchesIn (trace_of run)) <= 1)%nat
   /\ fetchesIn (trace_of run) = 0%nat
   /\ sleepsOf (trace_of run) = [])
  /\ (patchesIn (trace_of run) = [] ->
      world_of run = w /\ result_of run <> Ok tt /\ callsIn (trace_of run) = [])
  /\ (forall patch,
        patchesIn (trace_of run) = [patch] ->
        let answered :=
          computeAPI.PatchMIG (Runner.computeAPI r) (Runner.projectID r)
            (Runner.location r) (Runner.migName r) patch w in
        world_of run = answered.1
        /\ callsIn (trace_of run)
           = [Run.PatchMIG (Runner.projectID r) (Runner.location r)
                (Runner.migName r) patch]
        /\ result_of run
           = match answered.2 with
             | Ok _ => Ok tt
             | Err err =>
                 Err (Wrap err "error updating instance templates in instance group")
             | Panic => Panic
             end).

(** A fleet without state that gives each method one fixed answer. *)
Module Fixed.

Definition api (group : outcome InstanceGroupManager.t)
    (instances : outcome (list ManagedInstance.t)) (patched : outcome unit)
    (template : outcome InstanceTemplate.t) (backend : outcome BackendService.t)
    (health : outcome BackendServiceGroupHealth.t) : computeAPI.t unit :=
  computeAPI.mk unit
    (fun _ _ _ w => (w, group))
    (fun _ _ _ w => (w, instances))
    (fun _ _ _ _ w => (w, patched))
    (fun _ _ w => (w, template))
    (fun _ _ w => (w, backend))
    (fun _ _ _ w => (w, health)).

Definition runner (group : outcome InstanceGroupManager.t)
    (instances : outcome (list ManagedInstance.t)) (patched : outcome unit)
    (template : outcome InstanceTemplate.t) (backend : outcome BackendService.t)
    (health : outcome BackendServiceGroupHealth.t) : Runner.t unit :=
  Runner.mk unit (api group instances patched template backend health)
    (fun _ w => w) "project" (Region "region") "group" "templates/new".

(** A remote service whose listings deliver the given pages and then,
    possibly, fail. *)
Definition paging (pages : list ListManagedInstancesResponse.t)
    (failure : option error) : googleComputeAPI.t unit :=
  googleComputeAPI.mk
    (Service.mk unit
       (fun _ _ _ w => (w, inr (New "not served")))
       (fun _ _ _ w => (w, inr (New "not served")))
       (fun _ _ _ w => (w, (pages, failure)))
       (fun _ _ _ w => (w, (pages, failure)))
       (fun _ _ _ _ w => (w, inr (New "not served")))
       (fun _ _ _ _ w => (w, inr (New "not served")))
       (fun _ _ w => (w, inr (New "not served")))
       (fun _ w => (w, ([], None)))
       (fun _ _ _ _ w => (w, inr (New "not served")))
       (fun _ _ _ w => (w, inr (New "not served")))).

Definition unavailable : error := New "backend unavailable".

Definition template : InstanceTemplate.t := InstanceTemplate.mk "templates/new".

Definition backend : BackendService.t :=
  BackendService.mk "backend" "" [Backend.mk "group-link"].

Definition regionalBackend : BackendService.t :=
  BackendService.mk "backend" "us" [Backend.mk "group-link"].

Definition vmA : ManagedInstance.t :=
  ManagedInstance.mk "vm-a" (Some (ManagedInstanceVersion.mk "templates/new")).

Definition vmB : ManagedInstance.t :=
  ManagedInstance.mk "vm-b" (Some (ManagedInstanceVersion.mk "templates/old")).

(** Two statuses for [vm-a], one of another state for [vm-b], one for
    [vm-c]. *)
Definition health : BackendServiceGroupHealth.t :=
  BackendServiceGroupHealth.mk
    [ HealthStatus.mk "UNHEALTHY" "vm-a";
      HealthStatus.mk "HEALTHY" "vm-b";
      HealthStatus.mk "UNHEALTHY" "vm-a";
      HealthStatus.mk "UNHEALTHY" "vm-c" ].

(** Not stable for the first two fetches, failing at the third. *)
Definition failsAfterTwo (n : nat) : outcome InstanceGroupManager.t :=
  if (n <? 2)%nat then Ok Examples.unstableGroup else Err unavailable.

(** A group whose rollout to [templates/new] is complete. *)
Definition completed : InstanceGroupManagerVersion.t :=
  InstanceGroupManagerVersion.mk "" "templates/new" (Some (FixedOrPercent.mk 10 0 0)).

Definition command (region : string) : StartCmd.t :=
  StartCmd.mk "project" region "group" "templates/new".

End Fixed.

(** * Properties *)

(** ** Machine integers *)

Lemma wrap_in_range (z : Z) : Int64.in_range z -> Int64.wrap z = z.
Proof.
  unfold Int64.in_range, Int64.min_signed, Int64.max_signed, Int64.wrap.
  intros H. rewrite Z.mod_small; lia.
Qed.

(** ** Traces *)

Lemma patchesIn_app t1 t2 : patchesIn (t1 ++ t2) = patchesIn t1 ++ patchesIn t2.
Proof. unfold patchesIn. apply flat_map_app. Qed.

Lemma canaryTargetsIn_app t1 t2 :
  canaryTargetsIn (t1 ++ t2) = canaryTargetsIn t1 ++ canaryTargetsIn t2.
Proof. unfold canaryTargetsIn. apply flat_map_app. Qed.

Lemma patchesIn_cons ev t : patchesIn (ev :: t) = patchesIn [ev] ++ patchesIn t.
Proof. exact (patchesIn_app [ev] t). Qed.

Lemma canaryTargetsIn_cons ev t :
  canaryTargetsIn (ev :: t) = canaryTargetsIn [ev] ++ canaryTargetsIn t.
Proof. exact (canaryTargetsIn_app [ev] t). Qed.

Lemma fetchesIn_app t1 t2 : (fetchesIn (t1 ++ t2) = fetchesIn t1 + fetchesIn t2)%nat.
Proof. unfold fetchesIn. rewrite List.filter_app, length_app. reflexivity. Qed.

Lemma sleepsIn_app t1 t2 : (sleepsIn (t1 ++ t2) = sleepsIn t1 + sleepsIn t2)%nat.
Proof. unfold sleepsIn. rewrite List.filter_app, length_app. reflexivity. Qed.

Lemma foundCanaryLines_silent (logs : list Run.event) :
  Forall foundCanaryLine logs ->
  callsIn logs = [] /\ patchesIn logs = [] /\ canaryTargetsIn logs = [].
Proof.
  induction 1 as [| ev logs [n ->] _ (IH1 & IH2 & IH3)]; [done |].
  repeat split; cbn; [exact IH1 | exact IH2 |].
  rewrite decide_False by discriminate. exact IH3.
Qed.

(** ** Computations *)

Section EffectLaws.

Context {W E : Type}.

Lemma result_bind {A B} (m : M W E A) (f : A -> M W E B) (w : W) :
  result_of (bind m f w) =
  match result_of (m w) with
  | Ok a => result_of (f a (world_of (m w)))
  | Err e => Err e
  | Panic => Panic
  end.
Proof.
  unfold bind, result_of, world_of.
  destruct (m w) as [[w1 t1] [a | e |]]; cbn; [| reflexivity ..].
  destruct (f a w1) as [[w2 t2] r]; reflexivity.
Qed.

Lemma trace_bind {A B} (m : M W E A) (f : A -> M W E B) (w : W) :
  trace_of (bind m f w) =
  trace_of (m w) ++
  match result_of (m w) with
  | Ok a => trace_of (f a (world_of (m w)))
  | _ => []
  end.
Proof.
  unfold bind, result_of, trace_of, world_of.
  destruct (m w) as [[w1 t1] [a | e |]]; cbn; [| by rewrite app_nil_r ..].
  destruct (f a w1) as [[w2 t2] r]; reflexivity.
Qed.

Lemma world_bind {A B} (m : M W E A) (f : A -> M W E B) (w : W) :
  world_of (bind m f w) =
  match result_of (m w) with
  | Ok a => world_of (f a (world_of (m w)))
  | _ => world_of (m w)
  end.
Proof.
  unfold bind, result_of, world_of.
  destruct (m w) as [[w1 t1] [a | e |]]; cbn; [| reflexivity ..].
  destruct (f a w1) as [[w2 t2] r]; reflexivity.
Qed.

Lemma bind_ret {A B} (a : A) (f : A -> M W E B) (w : W) :
  bind (ret a) f w = f a w.
Proof. unfold bind, ret. destruct (f a w) as [[w2 t2] r]; reflexivity. Qed.

Lemma bind_panic {A B} (f : A -> M W E B) (w : W) :
  bind panic f w = (w, [], Panic).
Proof. reflexivity. Qed.

Lemma bind_emit {B} (ev : E) (f : unit -> M W E B) (w : W) :
  bind (emit ev) f w =
  (world_of (f tt w), ev :: trace_of (f tt w), result_of (f tt w)).
Proof. unfold bind, emit. destruct (f tt w) as [[w2 t2] r]; reflexivity. Qed.

(** A triple is its three projections. *)
Lemma run_eta {A} (x : W * list E * outcome A) :
  x = (world_of x, trace_of x, result_of x).
Proof. destruct x as [[w t] r]; reflexivity. Qed.

End EffectLaws.

(** ** The loop of scale *)

Section ScaleLoop.

Context {W : Type}.

(** The loop calls nothing: the world is as before, and the trace holds
    only its own log lines. *)
Lemma rangeVersions_quiet selfLink versions :
  forall primaryTemplate oldCanarySize (w : W),
    world_of (rangeVersions selfLink versions primaryTemplate oldCanarySize w) = w
    /\ Forall foundCanaryLine
         (trace_of (rangeVersions selfLink versions primaryTemplate oldCanarySize w)).
Proof.
  induction versions as [| version rest IH]; intros p old w;
    cbn [rangeVersions].
  - split; [reflexivity | constructor].
  - destruct (decide _) as [Hrun | Hrun].
    + destruct (InstanceGroupManagerVersion.TargetSize version) as [ts |];
        cbn [deref]; [| split; [reflexivity | constructor]].
      rewrite bind_ret.
      destruct (decide _) as [Hpos | Hpos]; [| apply IH].
      unfold logPrintf. rewrite bind_emit. cbn.
      destruct (IH p (FixedOrPercent.Fixed ts) w) as [-> Hlines].
      split; [reflexivity |].
      constructor; [eexists; reflexivity | exact Hlines].
    + destruct (decide _) as [Hname | Hname]; [| apply IH].
      destruct (decide _) as [Hp | Hp]; [| apply IH].
      split; [reflexivity | constructor].
Qed.

(** Where the canary slices carry their sizes, the loop ends with the
    primary that [settle] finds and the last positive canary size. *)
Lemma rangeVersions_result selfLink versions :
  sized selfLink versions ->
  forall primaryTemplate oldCanarySize (w : W),
    result_of (rangeVersions selfLink versions primaryTemplate oldCanarySize w) =
    match settle primaryTemplate
            (InstanceGroupManagerVersion.InstanceTemplate
               <$> filter (isPrimary selfLink) versions) with
    | Ok primary => Ok (primary, lastCanarySize selfLink oldCanarySize versions)
    | Err e => Err e
    | Panic => Panic
    end.
Proof.
  induction 1 as [| version rest Hsize _ IH]; intros p old w; [reflexivity |].
  cbn [rangeVersions lastCanarySize fold_left].
  destruct (decide (InstanceGroupManagerVersion.InstanceTemplate version = selfLink))
    as [Hrun | Hrun].
  - rewrite filter_cons_False by (intros [Hne _]; exact (Hne Hrun)).
    destruct (Hsize Hrun) as [ts Hts].
    assert (Hfs : fixedSize version = FixedOrPercent.Fixed ts)
      by (unfold fixedSize; rewrite Hts; reflexivity).
    rewrite Hts, ?Hfs. cbn [deref]. rewrite bind_ret.
    destruct (decide (FixedOrPercent.Fixed ts > 0)) as [Hpos | Hpos].
    + rewrite decide_True by (split; [exact Hrun | exact Hpos]).
      unfold logPrintf. rewrite bind_emit. apply IH.
    + rewrite decide_False by (intros [_ H']; exact (Hpos H')).
      apply IH.
  - rewrite (decide_False (P := runsTemplate selfLink version /\ _))
      by (intros [H' _]; exact (Hrun H')).
    destruct (decide (InstanceGroupManagerVersion.Name version <> "canary"))
      as [Hname | Hname].
    + rewrite filter_cons_True by (split; assumption).
      cbn [fmap list_fmap settle].
      destruct (decide (p <> "")) as [Hp | Hp]; [reflexivity |].
      apply IH.
    + rewrite filter_cons_False by (intros [_ H']; exact (Hname H')).
      apply IH.
Qed.

End ScaleLoop.

(** ** scale *)

Section Scale.

Context {W : Type}.

Implicit Types (r : Runner.t W) (info : clusterInfo.t) (w : W).

(** [scale], path by path. *)
Lemma scale_paths r info w :
  let selfLink := InstanceTemplate.SelfLink (clusterInfo.template info) in
  let group := clusterInfo.group info in
  let found := rangeVersions selfLink (InstanceGroupManager.Versions group) "" 0 w in
  scale r info w =
  match result_of found with
  | Err e => (w, trace_of found, Err e)
  | Panic => (w, trace_of found, Panic)
  | Ok (primaryTemplate, oldCanarySize) =>
      if decide (primaryTemplate = "") then (w, trace_of found, Err MissingPrimaryError)
      else
        let sv := capped info primaryTemplate (doubled oldCanarySize) in
        match InstanceGroupManager.DistributionPolicy group with
        | None => (w, trace_of found ++ [patchLine sv.1], Panic)
        | Some distributionPolicy =>
            let patch :=
              patchOf sv.2
                (raisedSurge sv.1 oldCanarySize
                   (DistributionPolicy.Zones distributionPolicy)) 0 in
            let answered :=
              computeAPI.PatchMIG (Runner.computeAPI r) (Runner.projectID r)
                (Runner.location r) (Runner.migName r) patch w in
            (answered.1,
             trace_of found
               ++ [patchLine sv.1;
                   Run.PatchMIG (Runner.projectID r) (Runner.location r)
                     (Runner.migName r) patch],
             patched answered.2)
        end
  end.
Proof.
  intros selfLink group found. unfold scale.
  fold selfLink. fold group.
  destruct (rangeVersions_quiet selfLink (InstanceGroupManager.Versions group) "" 0 w)
    as [Hw _].
  fold found in Hw.
  unfold bind at 1. fold found.
  rewrite (run_eta found), Hw. cbn [result_of trace_of world_of fst snd].
  destruct (result_of found) as [[p old] | e |]; [| reflexivity ..].
  destruct (decide (p = "")) as [Hp | Hp].
  { cbn. by rewrite app_nil_r. }
  destruct (capped info p (doubled old)) as [new versions] eqn:Hsv.
  cbn [fst snd].
  unfold logPrintf. rewrite bind_emit.
  destruct (InstanceGroupManager.DistributionPolicy group) as [dp |]; cbn [deref].
  - rewrite bind_ret.
    unfold try, callPatchMIG, invoke, bind, ret, throw, patched.
    destruct (computeAPI.PatchMIG _ _ _ _ _ w) as [w' [[] | e |]]; reflexivity.
  - rewrite bind_panic. reflexivity.
Qed.

End Scale.

Section ScaleProperties.

Context {W : Type}.

Implicit Types (r : Runner.t W) (info : clusterInfo.t) (w : W).

Lemma raisedSurge_max newCanarySize oldCanarySize zones :
  raisedSurge newCanarySize oldCanarySize zones =
  Z.max (Int64.sub newCanarySize oldCanarySize) (Z.of_nat (length zones)).
Proof. unfold raisedSurge. cbn zeta. case_decide; lia. Qed.

(** C2: whenever [scale] issues a patch, the update policy of that patch
    is proactive with [maxUnavailable] fixed at 0 and [maxSurge] fixed at the
    larger of [newCanarySize - oldCanarySize] (the int64 difference of the
    sizes the run computed) and the number of zones of the distribution
    policy of the group. *)
Theorem scale_update_policy r info w (patch : InstanceGroupManager.t) :
  In patch (patchesIn (trace_of (scale r info w))) ->
  exists primaryTemplate oldCanarySize distributionPolicy,
    result_of
      (rangeVersions (InstanceTemplate.SelfLink (clusterInfo.template info))
         (InstanceGroupManager.Versions (clusterInfo.group info)) "" 0 w)
    = Ok (primaryTemplate, oldCanarySize)
    /\ InstanceGroupManager.DistributionPolicy (clusterInfo.group info)
       = Some distributionPolicy
    /\ let newCanarySize := (capped info primaryTemplate (doubled oldCanarySize)).1 in
       let zoneCount := Z.of_nat (length (DistributionPolicy.Zones distributionPolicy)) in
       InstanceGroupManager.UpdatePolicy patch =
       Some (InstanceGroupManagerUpdatePolicy.mk "PROACTIVE"
               (Some (FixedOrPercent.mk 0
                        (Z.max (Int64.sub newCanarySize oldCanarySize) zoneCount) 0))
               (Some (FixedOrPercent.mk 0 0 0)))
       /\ (Int64.in_range (newCanarySize - oldCanarySize) ->
           Int64.sub newCanarySize oldCanarySize = newCanarySize - oldCanarySize).
Proof.
  rewrite scale_paths. cbn zeta.
  destruct (rangeVersions_quiet (InstanceTemplate.SelfLink (clusterInfo.template info))
              (InstanceGroupManager.Versions (clusterInfo.group info)) "" 0 w)
    as [_ Hlines].
  apply foundCanaryLines_silent in Hlines as (_ & Hnone & _).
  destruct (result_of _) as [[p old] | e |] eqn:Hfound; cbn [trace_of fst snd];
    try (rewrite Hnone; intros []).
  destruct (decide (p = "")); cbn [trace_of fst snd];
    [rewrite Hnone; intros [] |].
  destruct (InstanceGroupManager.DistributionPolicy (clusterInfo.group info))
    as [dp |] eqn:Hdp; cbn [trace_of fst snd];
    rewrite patchesIn_app, Hnone; cbn; [| intros []].
  intros [<- | []].
  exists p, old, dp. repeat split.
  - cbn. rewrite raisedSurge_max. reflexivity.
  - intros Hrange. unfold Int64.sub. by apply wrap_in_range.
Qed.

(** C9: when [scale] returns the ambiguous-primary or the missing-primary
    error it has called nothing: no patch was issued and the world behind
    the interface is as it was. *)
Theorem scale_primary_error_patches_nothing r info w (e : error) :
  result_of (scale r info w) = Err e ->
  (e = MissingPrimaryError
   \/ exists primaryTemplate found, e = AmbiguousPrimaryError primaryTemplate found) ->
  world_of (scale r info w) = w
  /\ patchesIn (trace_of (scale r info w)) = []
  /\ callsIn (trace_of (scale r info w)) = [].
Proof.
  rewrite scale_paths. cbn zeta.
  destruct (rangeVersions_quiet (InstanceTemplate.SelfLink (clusterInfo.template info))
              (InstanceGroupManager.Versions (clusterInfo.group info)) "" 0 w)
    as [_ Hlines].
  apply foundCanaryLines_silent in Hlines as (Hcalls & Hnone & _).
  destruct (result_of (rangeVersions _ _ _ _ _)) as [[p old] | e' |];
    cbn [trace_of world_of result_of fst snd];
    [| intros _ _; by rewrite Hnone, Hcalls | discriminate].
  destruct (decide (p = "")); cbn [trace_of world_of result_of fst snd];
    [intros _ _; by rewrite Hnone, Hcalls |].
  destruct (InstanceGroupManager.DistributionPolicy _); [| discriminate].
  cbn zeta.
  destruct (computeAPI.PatchMIG _ _ _ _ _ w) as [w' [[] | e' |]];
    cbn [result_of snd patched]; try discriminate.
  intros [= <-] [Hmissing | (p' & q & Hambiguous)]; discriminate.
Qed.

End ScaleProperties.

(** C5: the done-check answers true exactly for a group with a single
    version whose template is the self-link of the target template, and
    false for every other group. *)
Theorem isDone_iff (info : clusterInfo.t) :
  let shape :=
    exists version,
      InstanceGroupManager.Versions (clusterInfo.group info) = [version]
      /\ InstanceGroupManagerVersion.InstanceTemplate version
         = InstanceTemplate.SelfLink (clusterInfo.template info) in
  (isDone info = true <-> shape) /\ (isDone info = false <-> ~ shape).
Proof.
  cbn zeta.
  assert (Htrue : isDone info = true <->
                  exists version,
                    InstanceGroupManager.Versions (clusterInfo.group info) = [version]
                    /\ InstanceGroupManagerVersion.InstanceTemplate version
                       = InstanceTemplate.SelfLink (clusterInfo.template info)).
  { unfold isDone. cbn zeta. rewrite andb_true_iff, bool_decide_eq_true. split.
    - intros [Hlen H].
      destruct (InstanceGroupManager.Versions (clusterInfo.group info))
        as [| version [| other rest]]; try discriminate.
      cbn in H. apply bool_decide_eq_true in H. by exists version.
    - intros (version & -> & H). cbn. split; [done | by apply bool_decide_eq_true]. }
  split; [exact Htrue |].
  rewrite <- Htrue. destruct (isDone info); split; congruence.
Qed.

Section PrimaryDetermination.

Context {W : Type}.

Implicit Types (r : Runner.t W) (info : clusterInfo.t) (w : W).

(** A slice tagged canary that runs another template is passed over. *)
Lemma rangeVersions_dropStale selfLink versions :
  forall primaryTemplate oldCanarySize (w : W),
    rangeVersions selfLink (dropStale selfLink versions) primaryTemplate oldCanarySize w
    = rangeVersions selfLink versions primaryTemplate oldCanarySize w.
Proof.
  unfold dropStale.
  induction versions as [| version rest IH]; intros p old w; [reflexivity |].
  destruct (decide (staleCanary selfLink version)) as [[Hname Hrun] | Hfresh].
  - rewrite filter_cons_False by (intros H; apply H; by split).
    rewrite IH. cbn [rangeVersions].
    rewrite decide_False by exact Hrun.
    rewrite (decide_False (P := _ <> "canary")) by (intros H; by apply H).
    reflexivity.
  - rewrite filter_cons_True by exact Hfresh.
    cbn [rangeVersions].
    destruct (decide _) as [Hrun | Hrun].
    + destruct (InstanceGroupManagerVersion.TargetSize version) as [ts |];
        cbn [deref]; [| reflexivity].
      rewrite !bind_ret. destruct (decide _); [| apply IH].
      unfold logPrintf. rewrite !bind_emit. by rewrite IH.
    + destruct (decide _); [| apply IH].
      destruct (decide _); [reflexivity | apply IH].
Qed.

Lemma scale_dropStale r info w :
  scale r
    (withVersions info
       (dropStale (InstanceTemplate.SelfLink (clusterInfo.template info))
          (InstanceGroupManager.Versions (clusterInfo.group info)))) w
  = scale r info w.
Proof.
  unfold scale, bind. cbn [withVersions clusterInfo.group clusterInfo.template
    InstanceGroupManager.Versions].
  rewrite rangeVersions_dropStale. reflexivity.
Qed.

(** The result of [scale] where the loop fails or finds no primary. *)
Lemma scale_result_settled r info w :
  let selfLink := InstanceTemplate.SelfLink (clusterInfo.template info) in
  let versions := InstanceGroupManager.Versions (clusterInfo.group info) in
  sized selfLink versions ->
  forall e,
    settle "" (InstanceGroupManagerVersion.InstanceTemplate
                 <$> filter (isPrimary selfLink) versions)
    = match e with
      | Some ambiguous => Err ambiguous
      | None => Ok ""
      end ->
    result_of (scale r info w) = Err (default MissingPrimaryError e).
Proof.
  intros selfLink versions Hsized e Hsettle.
  rewrite scale_paths. cbn zeta. fold selfLink versions.
  rewrite (rangeVersions_result _ _ Hsized), Hsettle.
  destruct e as [ambiguous |]; reflexivity.
Qed.

(** C6 (as amended): in a snapshot whose canary slices carry their sizes,
    when exactly two versions neither run the target template nor are
    tagged canary, and the first of them names its template, [scale] fails
    with the ambiguous-primary error on their two templates; when no
    version is such, [scale] fails with the missing-primary error. *)
Theorem scale_primary_determination r info w :
  let selfLink := InstanceTemplate.SelfLink (clusterInfo.template info) in
  let versions := InstanceGroupManager.Versions (clusterInfo.group info) in
  sized selfLink versions ->
  (forall first second,
     filter (isPrimary selfLink) versions = [first; second] ->
     InstanceGroupManagerVersion.InstanceTemplate first <> "" ->
     result_of (scale r info w)
     = Err (AmbiguousPrimaryError
              (InstanceGroupManagerVersion.InstanceTemplate first)
              (InstanceGroupManagerVersion.InstanceTemplate second)))
  /\ (filter (isPrimary selfLink) versions = [] ->
      result_of (scale r info w) = Err MissingPrimaryError).
Proof.
  intros selfLink versions Hsized. split.
  - intros first second Hprimaries Hnamed.
    apply (scale_result_settled r info w Hsized (Some _)).
    fold selfLink versions. rewrite Hprimaries. cbn.
    rewrite decide_False by (intros H; by apply H).
    rewrite decide_True by exact Hnamed. reflexivity.
  - intros Hprimaries.
    apply (scale_result_settled r info w Hsized None).
    fold selfLink versions. rewrite Hprimaries. reflexivity.
Qed.

End PrimaryDetermination.

Section CanarySize.

Context {W : Type}.

Implicit Types (r : Runner.t W) (info : clusterInfo.t) (w : W).

(** Slices that do not raise the canary size leave it as it was. *)
Lemma lastCanarySize_unchanged selfLink oldCanarySize versions :
  Forall (fun version => runsTemplate selfLink version -> fixedSize version <= 0)
    versions ->
  lastCanarySize selfLink oldCanarySize versions = oldCanarySize.
Proof.
  unfold lastCanarySize.
  induction 1 as [| version rest Hsmall _ IH]; [reflexivity |].
  cbn [fold_left].
  rewrite decide_False by (intros [Hrun Hpos]; specialize (Hsmall Hrun); lia).
  exact IH.
Qed.

Lemma lastCanarySize_no_canary selfLink oldCanarySize versions :
  filter (runsTemplate selfLink) versions = [] ->
  lastCanarySize selfLink oldCanarySize versions = oldCanarySize.
Proof.
  intros Hnone. apply lastCanarySize_unchanged.
  apply Forall_forall. intros version Hin Hrun.
  assert (Hmember : version ∈ filter (runsTemplate selfLink) versions)
    by (apply list_elem_of_filter; split; [exact Hrun | exact Hin]).
  rewrite Hnone in Hmember. by apply not_elem_of_nil in Hmember.
Qed.

(** With at most one canary slice, of a size that is not negative, the
    loop ends with the size the specification calls [oldCanarySize]. *)
Lemma lastCanarySize_current selfLink versions :
  (length (filter (runsTemplate selfLink) versions) <= 1)%nat ->
  0 <= currentCanarySize selfLink versions ->
  lastCanarySize selfLink 0 versions = currentCanarySize selfLink versions.
Proof.
  unfold currentCanarySize.
  induction versions as [| version rest IH]; [reflexivity |].
  destruct (decide (runsTemplate selfLink version)) as [Hrun | Hrun].
  - rewrite filter_cons_True by exact Hrun. cbn [length].
    intros Hone Hsize.
    assert (Hrest : filter (runsTemplate selfLink) rest = [])
      by (apply length_zero_iff_nil; lia).
    unfold lastCanarySize. cbn [fold_left].
    fold (lastCanarySize selfLink
            (if decide (runsTemplate selfLink version /\ fixedSize version > 0)
             then fixedSize version else 0) rest).
    rewrite (lastCanarySize_no_canary _ _ _ Hrest).
    case_decide; [reflexivity | ].
    assert (fixedSize version <= 0) by (destruct (decide (fixedSize version > 0)); [tauto | lia]).
    lia.
  - rewrite filter_cons_False by exact Hrun.
    intros Hone Hsize.
    unfold lastCanarySize. cbn [fold_left].
    rewrite decide_False by tauto.
    by apply IH.
Qed.

Lemma canaryTargetsIn_patchLine (n : Z) (rest : list Run.event) :
  canaryTargetsIn (patchLine n :: rest) = n :: canaryTargetsIn rest.
Proof.
  unfold canaryTargetsIn, patchLine. cbn [flat_map].
  rewrite decide_True by reflexivity. reflexivity.
Qed.

(** [scale] on a snapshot with one primary slice: the size it announces,
    and the patch it issues where the group has a distribution policy. *)
Lemma scale_single_primary r info w primary :
  let selfLink := InstanceTemplate.SelfLink (clusterInfo.template info) in
  let group := clusterInfo.group info in
  let versions := InstanceGroupManager.Versions group in
  sized selfLink versions ->
  filter (isPrimary selfLink) versions = [primary] ->
  InstanceGroupManagerVersion.InstanceTemplate primary <> "" ->
  let oldCanarySize := lastCanarySize selfLink 0 versions in
  let sv :=
    capped info (InstanceGroupManagerVersion.InstanceTemplate primary)
      (doubled oldCanarySize) in
  canaryTargetsIn (trace_of (scale r info w)) = [sv.1]
  /\ forall distributionPolicy,
       InstanceGroupManager.DistributionPolicy group = Some distributionPolicy ->
       let patch :=
         patchOf sv.2
           (raisedSurge sv.1 oldCanarySize
              (DistributionPolicy.Zones distributionPolicy)) 0 in
       let answered :=
         computeAPI.PatchMIG (Runner.computeAPI r) (Runner.projectID r)
           (Runner.location r) (Runner.migName r) patch w in
       patchesIn (trace_of (scale r info w)) = [patch]
       /\ result_of (scale r info w) = patched answered.2
       /\ world_of (scale r info w) = answered.1.
Proof.
  intros selfLink group versions Hsized Hprimaries Hnamed old sv.
  rewrite scale_paths. cbn zeta. fold selfLink group versions.
  destruct (rangeVersions_quiet selfLink versions "" 0 w) as [_ Hlines].
  apply foundCanaryLines_silent in Hlines as (_ & Hnone & Hsilent).
  rewrite (rangeVersions_result _ _ Hsized), Hprimaries. cbn [fmap list_fmap settle].
  rewrite (decide_False (P := "" <> "")) by (intros H; by apply H).
  rewrite (decide_False (P := _ = "")) by exact Hnamed.
  fold old. fold sv.
  destruct (InstanceGroupManager.DistributionPolicy group) as [dp |];
    cbn [trace_of world_of result_of fst snd];
    rewrite canaryTargetsIn_app, Hsilent, canaryTargetsIn_patchLine;
    (split; [reflexivity |]).
  - intros dp' [= <-]. cbn zeta.
    rewrite patchesIn_app, Hnone. repeat split; reflexivity.
  - intros dp' [=].
Qed.

(** C10: in a snapshot that holds a version tagged canary on another
    template than the target, where no version on the target template has
    a positive fixed size (and each of those carries its size), the loop of
    [scale] passes primary determination exactly as the versions that are
    neither on the target nor tagged canary decide it, and ends with
    [oldCanarySize] 0, so that the doubling gives [newCanarySize] 1: with one
    primary version the size announced is 1 (the size of the group if that is
    at most 1).  The run of [scale] is the same without the mismatched
    version. *)
Theorem scale_stale_canary_ignored r info w
    (stale : InstanceGroupManagerVersion.t) :
  let selfLink := InstanceTemplate.SelfLink (clusterInfo.template info) in
  let group := clusterInfo.group info in
  let versions := InstanceGroupManager.Versions group in
  In stale versions ->
  staleCanary selfLink stale ->
  sized selfLink versions ->
  Forall (fun version => runsTemplate selfLink version -> fixedSize version <= 0)
    versions ->
  result_of (rangeVersions selfLink versions "" 0 w)
  = match settle "" (InstanceGroupManagerVersion.InstanceTemplate
                       <$> filter (isPrimary selfLink) versions) with
    | Ok primaryTemplate => Ok (primaryTemplate, 0)
    | Err e => Err e
    | Panic => Panic
    end
  /\ doubled 0 = 1
  /\ ~ In stale (filter (isPrimary selfLink) versions)
  /\ (forall primary,
        filter (isPrimary selfLink) versions = [primary] ->
        InstanceGroupManagerVersion.InstanceTemplate primary <> "" ->
        canaryTargetsIn (trace_of (scale r info w))
        = [if decide (1 >= InstanceGroupManager.TargetSize group)
           then InstanceGroupManager.TargetSize group else 1])
  /\ scale r (withVersions info (dropStale selfLink versions)) w = scale r info w.
Proof.
  intros selfLink group versions Hin [Hname Hrun] Hsized Hsmall.
  repeat split.
  - rewrite (rangeVersions_result _ _ Hsized).
    by rewrite (lastCanarySize_unchanged _ _ _ Hsmall).
  - intros Hprimary. apply list_elem_of_In, list_elem_of_filter in Hprimary.
    destruct Hprimary as [[_ Hother] _]. by apply Hother.
  - intros primary Hprimaries Hnamed.
    destruct (scale_single_primary r info w primary Hsized Hprimaries Hnamed)
      as [-> _].
    fold selfLink versions. rewrite (lastCanarySize_unchanged _ _ _ Hsmall).
    unfold capped. fold group. change (doubled 0) with 1.
    by case_decide.
  - apply scale_dropStale.
Qed.

End CanarySize.

(** ** waitUntilStable *)

Section StabilityWaiter.

Context {W : Type}.

Implicit Types (r : Runner.t W) (info : clusterInfo.t) (w : W).

Lemma stableAndReached_unstable group w :
  reportsUnstable group ->
  stableAndReached group w = (w, @nil Run.event, Ok false).
Proof.
  intros (status & Hstatus & Hunstable). unfold stableAndReached.
  rewrite Hstatus. cbn [deref]. rewrite bind_ret. by rewrite Hunstable.
Qed.

Lemma stableAndReached_stable group w :
  reportsStableReached group ->
  stableAndReached group w = (w, @nil Run.event, Ok true).
Proof.
  unfold reportsStableReached, stableAndReached. intros ->. reflexivity.
Qed.

(** One turn of the loop on a fetch that reports not stable. *)
Lemma waitTicks_unstable r info remaining w w1 group :
  computeAPI.GetMIG (Runner.computeAPI r) (Runner.projectID r)
    (Runner.location r) (Runner.migName r) w = (w1, Ok group) ->
  reportsUnstable group ->
  let rest := waitTicks r info remaining (Runner.sleepFunc r tickInterval w1) in
  waitTicks r info (S remaining) w =
  (world_of rest,
   [Run.GetMIG (Runner.projectID r) (Runner.location r) (Runner.migName r);
    Run.Log "cluster is still not stable, sleeping" [];
    Run.Sleep tickInterval] ++ trace_of rest,
   result_of rest).
Proof.
  intros Hfetch Hunstable rest. cbn [waitTicks].
  unfold bind at 1. unfold callGetMIG, invoke. rewrite Hfetch.
  unfold bind at 1. rewrite (stableAndReached_unstable _ _ Hunstable).
  unfold logPrintf. rewrite bind_emit.
  unfold bind at 1 2 3. unfold callSleep, invoke. fold rest.
  rewrite (run_eta rest). reflexivity.
Qed.

(** One turn of the loop on a fetch that reports stable. *)
Lemma waitTicks_stable r info remaining w w1 group :
  computeAPI.GetMIG (Runner.computeAPI r) (Runner.projectID r)
    (Runner.location r) (Runner.migName r) w = (w1, Ok group) ->
  reportsStableReached group ->
  waitTicks r info (S remaining) w =
  (w1,
   [Run.GetMIG (Runner.projectID r) (Runner.location r) (Runner.migName r);
    Run.Log "cluster is stable" []],
   Ok (clusterInfo.mk group (clusterInfo.template info) (clusterInfo.backend info))).
Proof.
  intros Hfetch Hstable. cbn [waitTicks].
  unfold bind at 1. unfold callGetMIG, invoke. rewrite Hfetch.
  unfold bind at 1. rewrite (stableAndReached_stable _ _ Hstable).
  reflexivity.
Qed.

(** After [k] fetches that report not stable the loop is [k] ticks further,
    having fetched and slept [k] times. *)
Lemma waitTicks_after_unstable r info (k : nat) w w' :
  unstableFetches r k w w' ->
  forall remaining,
    let whole := waitTicks r info (k + remaining) w in
    let rest := waitTicks r info remaining w' in
    world_of whole = world_of rest
    /\ result_of whole = result_of rest
    /\ fetchesIn (trace_of whole) = (k + fetchesIn (trace_of rest))%nat
    /\ sleepsIn (trace_of whole) = (k + sleepsIn (trace_of rest))%nat.
Proof.
  induction 1 as [w | k w w1 w' group Hfetch Hunstable _ IH]; intros remaining.
  - cbn. done.
  - cbn zeta. change (S k + remaining)%nat with (S (k + remaining)).
    rewrite (waitTicks_unstable r info _ w w1 group Hfetch Hunstable).
    destruct (IH remaining) as (Hw & Hr & Hf & Hs).
    cbn [world_of trace_of result_of fst snd].
    rewrite fetchesIn_app, sleepsIn_app, Hf, Hs.
    repeat split; [exact Hw | exact Hr | ..]; cbn; lia.
Qed.

(** C4: when the fleet answers the first [k < 60] fetches with a group that
    reports not stable and the next one with a group that reports stable with
    its version target reached, the waiter returns the snapshot refreshed
    with that group after exactly [k + 1] fetches and [k] sleeps; when it
    answers 60 fetches in a row with a group that reports not stable, the
    waiter fails with the stability-timeout error after exactly 60 fetches. *)
Theorem waitUntilStable_bounded r info :
  (forall (k : nat) w w' w'' group,
     (k < 60)%nat ->
     unstableFetches r k w w' ->
     computeAPI.GetMIG (Runner.computeAPI r) (Runner.projectID r)
       (Runner.location r) (Runner.migName r) w' = (w'', Ok group) ->
     reportsStableReached group ->
     result_of (waitUntilStable r info w)
     = Ok (clusterInfo.mk group (clusterInfo.template info) (clusterInfo.backend info))
     /\ world_of (waitUntilStable r info w) = w''
     /\ fetchesIn (trace_of (waitUntilStable r info w)) = (k + 1)%nat
     /\ sleepsIn (trace_of (waitUntilStable r info w)) = k)
  /\ (forall w w',
        unstableFetches r 60 w w' ->
        result_of (waitUntilStable r info w) = Err StabilityTimeoutError
        /\ world_of (waitUntilStable r info w) = w'
        /\ fetchesIn (trace_of (waitUntilStable r info w)) = 60%nat
        /\ sleepsIn (trace_of (waitUntilStable r info w)) = 60%nat).
Proof.
  assert (Hticks : Z.to_nat maxTicks = 60%nat) by reflexivity.
  split.
  - intros k w w' w'' group Hk Hunstable Hfetch Hstable.
    unfold waitUntilStable, logPrintf. rewrite bind_emit, Hticks.
    cbn [world_of trace_of result_of fst snd].
    destruct (waitTicks_after_unstable r info k w w' Hunstable (S (59 - k)))
      as (Hw & Hr & Hf & Hs).
    replace (k + S (59 - k))%nat with 60%nat in * by lia.
    rewrite (waitTicks_stable r info _ w' w'' group Hfetch Hstable) in *.
    change (fetchesIn (?ev :: ?t)) with (fetchesIn t).
    change (sleepsIn (?ev :: ?t)) with (sleepsIn t).
    rewrite Hw, Hr, Hf, Hs. cbn. repeat split; lia.
  - intros w w' Hunstable.
    unfold waitUntilStable, logPrintf. rewrite bind_emit, Hticks.
    cbn [world_of trace_of result_of fst snd].
    destruct (waitTicks_after_unstable r info 60 w w' Hunstable 0)
      as (Hw & Hr & Hf & Hs).
    change (60 + 0)%nat with 60%nat in *.
    change (fetchesIn (?ev :: ?t)) with (fetchesIn t).
    change (sleepsIn (?ev :: ?t)) with (sleepsIn t).
    rewrite Hw, Hr, Hf, Hs. cbn. repeat split; lia.
Qed.

End StabilityWaiter.

(** ** checkBackendServiceHealth *)

Section HealthGate.

Context {W : Type}.

Implicit Types (r : Runner.t W) (info : clusterInfo.t) (w : W).

(** The keys that read as true are those of the statuses in state
    UNHEALTHY. *)
Lemma isUnhealthyAt_fold (statuses : list HealthStatus.t) :
  forall (isUnhealthy : gmap string bool) (instance : string),
    isUnhealthyAt (fold_left markUnhealthy statuses isUnhealthy) instance = true
    <-> isUnhealthyAt isUnhealthy instance = true
        \/ exists healthStatus,
             In healthStatus statuses
             /\ HealthStatus.HealthState healthStatus = "UNHEALTHY"
             /\ HealthStatus.Instance healthStatus = instance.
Proof.
  induction statuses as [| healthStatus rest IH]; intros isUnhealthy instance;
    cbn [fold_left].
  - split; [by left | intros [H | (hs & [] & _)]; exact H].
  - rewrite IH. unfold markUnhealthy.
    destruct (decide (HealthStatus.HealthState healthStatus = "UNHEALTHY"))
      as [Hstate | Hstate].
    + unfold isUnhealthyAt at 1. rewrite lookup_insert.
      destruct (decide (HealthStatus.Instance healthStatus = instance))
        as [Hkey | Hkey]; cbn.
      * split; [| by left].
        intros _. right. exists healthStatus. by repeat split; [left | ..].
      * split.
        -- intros [H | (hs & Hin & H)]; [by left |].
           right. exists hs. by split; [right |].
        -- intros [H | (hs & [<- | Hin] & Hs & Hk)]; [by left | done |].
           right. by exists hs.
    + split.
      * intros [H | (hs & Hin & H)]; [by left |].
        right. exists hs. by split; [right |].
      * intros [H | (hs & [<- | Hin] & Hs & Hk)]; [by left | done |].
        right. by exists hs.
Qed.

Lemma isUnhealthyAt_marked healthResponse instance :
  isUnhealthyAt (unhealthyInstances healthResponse) instance = true
  <-> markedUnhealthy healthResponse instance.
Proof.
  unfold unhealthyInstances, markedUnhealthy. rewrite isUnhealthyAt_fold.
  split; [intros [H | H]; [discriminate | exact H] | by right].
Qed.

(** The loop over the instances fails on the first unhealthy instance of the
    canary cohort, and only on such a one. *)
Lemma rangeInstances_verdict info healthResponse instances w :
  Forall (fun instance => is_Some (ManagedInstance.Version instance)) instances ->
  (rangeInstances info (unhealthyInstances healthResponse) instances w
   = (w, @nil Run.event, Ok tt)
   /\ forall instance,
        In instance instances -> ~ unhealthyCanary info healthResponse instance)
  \/ exists instance,
       In instance instances
       /\ unhealthyCanary info healthResponse instance
       /\ rangeInstances info (unhealthyInstances healthResponse) instances w
          = (w, @nil Run.event,
             Err (UnhealthyCanaryError (ManagedInstance.Instance instance))).
Proof.
  induction 1 as [| instance rest [version Hversion] _ IH].
  - left. split; [reflexivity | intros _ []].
  - cbn [rangeInstances]. rewrite Hversion. cbn [deref]. rewrite bind_ret.
    destruct (bool_decide _ && isUnhealthyAt _ _) eqn:Htest.
    + right. exists instance. split; [by left |]. split; [| reflexivity].
      apply andb_true_iff in Htest as [Htemplate Hmarked].
      apply bool_decide_eq_true in Htemplate.
      apply isUnhealthyAt_marked in Hmarked.
      split; [by exists version | exact Hmarked].
    + destruct IH as [[Hrun Hnone] | (bad & Hin & Hbad & Hrun)].
      * left. split; [exact Hrun |].
        intros other [<- | Hin]; [| by apply Hnone].
        intros [(v & Hv & Htemplate) Hmarked].
        rewrite Hversion in Hv. injection Hv as <-.
        apply isUnhealthyAt_marked in Hmarked.
        rewrite (bool_decide_eq_true_2 _ Htemplate), Hmarked in Htest.
        discriminate.
      * right. exists bad. by split; [right |].
Qed.

(** C3: when both adapter calls succeed (and every listed instance carries
    its version), the health gate fails if and only if the listing holds an
    instance whose template is the self-link of the target template and which
    the health record marks unhealthy; the error then names such an instance,
    and otherwise the gate passes, whatever the health of the instances on
    other templates. *)
Theorem checkBackendServiceHealth_gate r info w w1 w2
    (healthResponse : BackendServiceGroupHealth.t)
    (instances : list ManagedInstance.t) :
  computeAPI.GetBackendServiceGroupHealth (Runner.computeAPI r) (Runner.projectID r)
    (clusterInfo.backend info) (clusterInfo.group info) w = (w1, Ok healthResponse) ->
  computeAPI.GetMIGInstances (Runner.computeAPI r) (Runner.projectID r)
    (Runner.location r) (Runner.migName r) w1 = (w2, Ok instances) ->
  Forall (fun instance => is_Some (ManagedInstance.Version instance)) instances ->
  let verdict := result_of (checkBackendServiceHealth r info w) in
  ((exists e, verdict = Err e)
   <-> exists instance,
         In instance instances /\ unhealthyCanary info healthResponse instance)
  /\ (forall e,
        verdict = Err e ->
        exists instance,
          In instance instances
          /\ unhealthyCanary info healthResponse instance
          /\ e = UnhealthyCanaryError (ManagedInstance.Instance instance))
  /\ ((forall instance,
         In instance instances -> ~ unhealthyCanary info healthResponse instance) ->
      verdict = Ok tt).
Proof.
  intros Hhealth Hlisting Hversions verdict.
  assert (Hverdict :
    verdict = result_of (rangeInstances info (unhealthyInstances healthResponse)
                           instances w2)).
  { unfold verdict, checkBackendServiceHealth, logPrintf.
    rewrite bind_emit. cbn [result_of snd].
    rewrite result_bind.
    unfold callGetBackendServiceGroupHealth, invoke at 1 2. rewrite Hhealth.
    cbn [result_of world_of fst snd].
    rewrite bind_emit. cbn [result_of snd].
    rewrite result_bind.
    unfold callGetMIGInstances, invoke. rewrite Hlisting. reflexivity. }
  rewrite Hverdict. clear Hverdict verdict.
  destruct (rangeInstances_verdict info healthResponse instances w2 Hversions)
    as [[-> Hnone] | (bad & Hin & Hbad & ->)]; cbn [result_of snd].
  - repeat split.
    + intros [e [=]].
    + intros (instance & Hin & Hbad). by destruct (Hnone instance Hin).
    + intros e [=].
  - repeat split.
    + intros _. by exists bad.
    + intros _. by eexists.
    + intros e [= <-]. by exists bad.
    + intros Hnone. by destruct (Hnone bad Hin).
Qed.

End HealthGate.

(** ** The adapter *)

Section AdapterProperties.

Context {W : Type}.

Implicit Types (g : googleComputeAPI.t W) (w : W).

Lemma eachPage_appendInstances (pages : list ListManagedInstancesResponse.t) :
  forall (instances : list ManagedInstance.t) w,
    eachPage googleComputeAPI.appendInstances pages instances w
    = (w, @nil Net.request,
       Ok (instances
           ++ concat (ListManagedInstancesResponse.ManagedInstances <$> pages))).
Proof.
  induction pages as [| page rest IH]; intros instances w; cbn [eachPage].
  - cbn. by rewrite app_nil_r.
  - unfold googleComputeAPI.appendInstances. rewrite bind_ret, IH.
    cbn. by rewrite app_assoc.
Qed.

(** C7 (as amended): with neither region nor zone set, fetching the group,
    listing its instances and patching it each fail with the location error
    (wrapped by the operation) and send no request; with both set they do not
    fail so: the region is taken and the regional request is sent. *)
Theorem location_validation g (projectID name : string)
    (patch : InstanceGroupManager.t) w :
  (googleComputeAPI.GetMIG g projectID (RegionOrZone.mk "" "") name w
   = (w, [], Err (Wrap LocationError "error retrieving instance group information"))
   /\ googleComputeAPI.GetMIGInstances g projectID (RegionOrZone.mk "" "") name w
      = (w, [], Err (Wrap LocationError "error retrieving list of managed instances"))
   /\ googleComputeAPI.PatchMIG g projectID (RegionOrZone.mk "" "") name patch w
      = (w, [], Err (Wrap LocationError "error retrieving instance group information")))
  /\ (forall region zone : string,
        region <> "" ->
        zone <> "" ->
        trace_of (googleComputeAPI.GetMIG g projectID (RegionOrZone.mk region zone) name w)
        = [Net.RegionInstanceGroupManagers_Get projectID region name]
        /\ trace_of (googleComputeAPI.GetMIGInstances g projectID
                       (RegionOrZone.mk region zone) name w)
           = [Net.RegionInstanceGroupManagers_ListManagedInstances projectID region name]
        /\ trace_of (googleComputeAPI.PatchMIG g projectID
                       (RegionOrZone.mk region zone) name patch w)
           = [Net.RegionInstanceGroupManagers_Patch projectID region name patch]).
Proof.
  split; [repeat split |].
  intros region zone Hregion _.
  unfold googleComputeAPI.GetMIG, googleComputeAPI.GetMIGInstances,
    googleComputeAPI.PatchMIG.
  cbn [RegionOrZone.Region RegionOrZone.Zone].
  rewrite !(decide_True (P := region <> "")) by exact Hregion.
  rewrite !trace_bind. unfold attempt, Pages.
  destruct (Service.RegionInstanceGroupManagers_Get _ _ _ _ w) as [w1 [mig | err1]];
    destruct (Service.RegionInstanceGroupManagers_Patch _ _ _ _ _ w)
      as [w2 [[] | err2]];
    destruct (Service.RegionInstanceGroupManagers_ListManagedInstances _ _ _ _ w)
      as [w3 [pages failure]];
    rewrite bind_emit; unfold try, bind; rewrite eachPage_appendInstances;
    destruct failure; repeat split; reflexivity.
Qed.

(** With no backend service found so far, the scan of a scoped list ends at
    once on an empty list and panics on any other. *)
Lemma overBackendServices_nil_pointer selfLink candidates w :
  googleComputeAPI.overBackendServices selfLink None candidates w
  = (w, @nil Net.request,
     match candidates with
     | [] => Ok googleComputeAPI.Next
     | _ :: _ => Panic
     end).
Proof. destruct candidates; reflexivity. Qed.

Lemma overItems_nil_pointer selfLink items w :
  googleComputeAPI.overItems selfLink None items w
  = (w, @nil Net.request,
     if forallb (fun item => bool_decide
                   (BackendServicesScopedList.BackendServices item.2 = [])) items
     then Ok googleComputeAPI.Next else Panic).
Proof.
  induction items as [| [scope list] rest IH]; [reflexivity |].
  cbn [googleComputeAPI.overItems forallb snd].
  unfold bind. rewrite overBackendServices_nil_pointer.
  destruct (BackendServicesScopedList.BackendServices list); cbn; [| reflexivity].
  rewrite IH. by destruct (forallb _ rest).
Qed.

Lemma eachPage_findInAggregate mig aggregates w :
  eachPage (googleComputeAPI.findInAggregate mig) aggregates None w
  = (w, @nil Net.request,
     if forallb (fun aggregate =>
                   forallb (fun item => bool_decide
                              (BackendServicesScopedList.BackendServices item.2 = []))
                     (BackendServiceAggregatedList.Items aggregate)) aggregates
     then Ok None else Panic).
Proof.
  induction aggregates as [| aggregate rest IH]; [reflexivity |].
  cbn [eachPage forallb].
  assert (Hhead :
    googleComputeAPI.findInAggregate mig None aggregate w
    = (w, @nil Net.request,
       if forallb (fun item => bool_decide
                     (BackendServicesScopedList.BackendServices item.2 = []))
            (BackendServiceAggregatedList.Items aggregate)
       then Ok None else Panic)).
  { unfold googleComputeAPI.findInAggregate, bind.
    rewrite overItems_nil_pointer.
    destruct (forallb _ (BackendServiceAggregatedList.Items aggregate));
      reflexivity. }
  unfold bind. rewrite Hhead.
  destruct (forallb _ (BackendServiceAggregatedList.Items aggregate)); cbn;
    [| reflexivity].
  rewrite IH. by destruct (forallb _ rest).
Qed.

(** The search never returns a backend service: it fails, or panics as
    soon as the project has a backend service to look at. *)
Lemma FindBackendServiceWithMIG_never_finds g projectID mig w :
  forall backendService,
    result_of (googleComputeAPI.FindBackendServiceWithMIG g projectID mig w)
    <> Ok backendService.
Proof.
  intros backendService.
  unfold googleComputeAPI.FindBackendServiceWithMIG.
  rewrite result_bind. unfold Pages.
  destruct (Service.BackendServices_AggregatedList _ _ w) as [w' [aggregates failure]].
  rewrite bind_emit. cbn [result_of world_of fst snd].
  unfold try, bind. rewrite eachPage_findInAggregate.
  destruct (forallb _ aggregates); [| discriminate].
  destruct failure; discriminate.
Qed.

End AdapterProperties.

(** C8: on a project with one backend service, whose one backend fronts the
    group, [FindBackendServiceWithMIG] does not return that backend service:
    it reads the backends of the nil [backendService] and panics.  On no
    project at all does it return a backend service. *)
Theorem FindBackendServiceWithMIG_panics_on_match :
  (let group :=
     InstanceGroupManager.mk "group-link" [] 4 None None None in
   let backendService :=
     BackendService.mk "backend" "" [Backend.mk "group-link"] in
   let aggregates :=
     [BackendServiceAggregatedList.mk
        [("global", BackendServicesScopedList.mk [backendService])]] in
   googleComputeAPI.FindBackendServiceWithMIG
     (Canned.adapter group aggregates) "project" group tt
   = (tt, [Net.BackendServices_AggregatedList "project"], Panic))
  /\ (forall (W : Type) (g : googleComputeAPI.t W) (projectID : string)
             (mig : InstanceGroupManager.t) (w : W)
             (backendService : BackendService.t),
        result_of (googleComputeAPI.FindBackendServiceWithMIG g projectID mig w)
        <> Ok backendService).
Proof.
  split.
  - reflexivity.
  - intros W g projectID mig w. apply FindBackendServiceWithMIG_never_finds.
Qed.

(** ** The doubling of the canary *)

Section Doubling.

Context {W : Type}.

Implicit Types (r : Runner.t W) (info : clusterInfo.t) (w : W).

Lemma doubled_spec (oldCanarySize : Z) :
  0 <= oldCanarySize ->
  oldCanarySize * 2 <= Int64.max_signed ->
  doubled oldCanarySize = specNewCanarySize oldCanarySize.
Proof.
  intros Hlow Hhigh. unfold doubled, specNewCanarySize.
  case_decide; [reflexivity |].
  unfold Int64.mul. apply wrap_in_range.
  unfold Int64.in_range, Int64.min_signed. lia.
Qed.

(** The postcondition of [scale] on a snapshot with one primary slice and
    at most one canary slice. *)
Lemma scale_postcondition r info w primary distributionPolicy :
  let selfLink := InstanceTemplate.SelfLink (clusterInfo.template info) in
  let group := clusterInfo.group info in
  let versions := InstanceGroupManager.Versions group in
  let totalTargetSize := InstanceGroupManager.TargetSize group in
  filter (isPrimary selfLink) versions = [primary] ->
  InstanceGroupManagerVersion.InstanceTemplate primary <> "" ->
  sized selfLink versions ->
  (length (filter (runsTemplate selfLink) versions) <= 1)%nat ->
  0 <= currentCanarySize selfLink versions ->
  currentCanarySize selfLink versions * 2 <= Int64.max_signed ->
  InstanceGroupManager.DistributionPolicy group = Some distributionPolicy ->
  let oldCanarySize := currentCanarySize selfLink versions in
  let newCanarySize := specNewCanarySize oldCanarySize in
  canaryTargetsIn (trace_of (scale r info w))
  = [if decide (newCanarySize >= totalTargetSize) then totalTargetSize
     else newCanarySize]
  /\ exists patch,
       patchesIn (trace_of (scale r info w)) = [patch]
       /\ InstanceGroupManager.Versions patch
          = (if decide (newCanarySize >= totalTargetSize) then
               [ InstanceGroupManagerVersion.mk "" selfLink None ]
             else
               [ InstanceGroupManagerVersion.mk ""
                   (InstanceGroupManagerVersion.InstanceTemplate primary) None;
                 InstanceGroupManagerVersion.mk "canary" selfLink
                   (Some (FixedOrPercent.mk 0 newCanarySize 0)) ])
       /\ result_of (scale r info w)
          = patched (computeAPI.PatchMIG (Runner.computeAPI r) (Runner.projectID r)
                       (Runner.location r) (Runner.migName r) patch w).2
       /\ world_of (scale r info w)
          = (computeAPI.PatchMIG (Runner.computeAPI r) (Runner.projectID r)
               (Runner.location r) (Runner.migName r) patch w).1.
Proof.
  intros selfLink group versions total Hprimaries Hnamed Hsized Hone Hlow Hhigh
    Hpolicy old new.
  destruct (scale_single_primary r info w primary Hsized Hprimaries Hnamed)
    as [Htargets Hpatch].
  destruct (Hpatch distributionPolicy Hpolicy) as (Hpatches & Hresult & Hworld).
  clear Hpatch. cbn zeta in *.
  fold selfLink group versions in Htargets, Hpatches, Hresult, Hworld.
  rewrite (lastCanarySize_current _ _ Hone Hlow) in *.
  rewrite (doubled_spec _ Hlow Hhigh) in *.
  fold old new in Htargets, Hpatches, Hresult, Hworld.
  split.
  - rewrite Htargets. unfold capped. fold group total. by case_decide.
  - eexists. split; [exact Hpatches |]. split; [| split; [exact Hresult | exact Hworld]].
    unfold patchOf, capped. fold group total selfLink.
    cbn [InstanceGroupManager.Versions]. by case_decide.
Qed.

End Doubling.

(** ** The rollout on the simulated fleet *)

Section SimulatedRollout.

Variable templateName : string.
Variable backend : BackendService.t.

Local Abbreviation r := (Simulated.runner templateName).
Local Abbreviation snapshot := (Simulated.snapshot templateName backend).

(** The patched fleet is stable at the first fetch. *)
Lemma waitUntilStable_simulated info (patch group : InstanceGroupManager.t) :
  let group' := Simulated.applyPatch patch group in
  waitUntilStable r info group'
  = (group',
     [Run.Log "beginning wait until stable loop" [];
      Run.GetMIG "project" (Region "region") "group";
      Run.Log "cluster is stable" []],
     Ok (clusterInfo.mk group' (clusterInfo.template info) (clusterInfo.backend info))).
Proof.
  intros group'. unfold waitUntilStable, logPrintf. rewrite bind_emit.
  change (Z.to_nat maxTicks) with 60%nat.
  by rewrite (waitTicks_stable r info 59 group' group' group').
Qed.

(** The simulated fleet has no unhealthy instance. *)
Lemma checkBackendServiceHealth_simulated info (group : InstanceGroupManager.t) :
  world_of (checkBackendServiceHealth r info group) = group
  /\ result_of (checkBackendServiceHealth r info group) = Ok tt
  /\ canaryTargetsIn (trace_of (checkBackendServiceHealth r info group)) = []
  /\ patchesIn (trace_of (checkBackendServiceHealth r info group)) = [].
Proof. repeat split. Qed.

(** One turn of the loop of [Start] on the simulated fleet. *)
Lemma iteration_simulated (group : InstanceGroupManager.t) primary
    distributionPolicy (loopIterations : Z) :
  let versions := InstanceGroupManager.Versions group in
  sized templateName versions ->
  filter (isPrimary templateName) versions = [primary] ->
  InstanceGroupManagerVersion.InstanceTemplate primary <> "" ->
  InstanceGroupManager.DistributionPolicy group = Some distributionPolicy ->
  let oldCanarySize := lastCanarySize templateName 0 versions in
  let sv :=
    capped (snapshot group) (InstanceGroupManagerVersion.InstanceTemplate primary)
      (doubled oldCanarySize) in
  let patch :=
    patchOf sv.2
      (raisedSurge sv.1 oldCanarySize (DistributionPolicy.Zones distributionPolicy)) 0 in
  let group' := Simulated.applyPatch patch group in
  let run := iteration r (snapshot group) loopIterations group in
  result_of run = Ok (snapshot group', isDone (snapshot group'))
  /\ world_of run = group'
  /\ canaryTargetsIn (trace_of run) = [sv.1]
  /\ patchesIn (trace_of run) = [patch].
Proof.
  intros versions Hsized Hprimaries Hnamed Hpolicy old sv patch group' run.
  destruct (scale_single_primary r (snapshot group) group primary
              Hsized Hprimaries Hnamed) as [Htargets Hpatch].
  destruct (Hpatch distributionPolicy Hpolicy) as (Hpatches & Hresult & Hworld).
  clear Hpatch. cbn zeta in *.
  fold versions old sv patch in Htargets, Hpatches, Hresult, Hworld.
  change (result_of (scale r (snapshot group) group) = Ok tt) in Hresult.
  change (world_of (scale r (snapshot group) group) = group') in Hworld.
  pose proof (waitUntilStable_simulated (snapshot group) patch group) as Hwait.
  cbn zeta in Hwait. fold group' in Hwait.
  change (clusterInfo.mk group' _ _) with (snapshot group') in Hwait.
  destruct (checkBackendServiceHealth_simulated (snapshot group') group')
    as (Hcw & Hcr & Hct & Hcp).
  unfold run, iteration, logPrintf. rewrite bind_emit.
  cbn [result_of world_of trace_of fst snd].
  rewrite ?result_bind, ?world_bind, ?trace_bind, ?Hresult, ?Hworld, ?Hwait.
  cbn [result_of world_of trace_of fst snd].
  rewrite ?result_bind, ?world_bind, ?trace_bind, ?Hcr, ?Hcw.
  repeat split.
  - rewrite canaryTargetsIn_cons, !canaryTargetsIn_app, Htargets, Hct.
    reflexivity.
  - rewrite patchesIn_cons, !patchesIn_app, Hpatches, Hcp.
    reflexivity.
Qed.

Lemma doubled_power (i : nat) :
  (i <= 62)%nat ->
  doubled (match i with O => 0 | S j => 2 ^ Z.of_nat j end) = 2 ^ Z.of_nat i.
Proof.
  intros Hi. destruct i as [| j]; [reflexivity |].
  assert (Hpos : 0 < 2 ^ Z.of_nat j) by (apply Z.pow_pos_nonneg; lia).
  assert (Hle : 2 ^ Z.of_nat j <= 2 ^ 61) by (apply Z.pow_le_mono_r; lia).
  unfold doubled. rewrite decide_False by lia.
  unfold Int64.mul. rewrite wrap_in_range.
  - rewrite Nat2Z.inj_succ, Z.pow_succ_r by lia. lia.
  - unfold Int64.in_range, Int64.min_signed, Int64.max_signed. lia.
Qed.

(** A turn of the loop of [Start], from the outcome of its iteration. *)
Lemma loop_turn {W : Type} (runner : Runner.t W) (turns : nat) info
    (loopIterations : Z) (w : W) info' (done : bool) :
  result_of (iteration runner info loopIterations w) = Ok (info', done) ->
  let turn := iteration runner info loopIterations w in
  let rest := loop runner turns info' (loopIterations + 1) (world_of turn) in
  loop runner (S turns) info loopIterations w =
  if done then
    (world_of turn, trace_of turn ++ [Run.Log "rollout complete" []], Ok (Some tt))
  else
    (world_of rest, trace_of turn ++ trace_of rest, result_of rest).
Proof.
  intros Hturn turn rest. cbn [loop]. unfold bind at 1. fold turn.
  rewrite (run_eta turn). fold turn in Hturn. rewrite Hturn.
  cbn [world_of trace_of result_of fst snd].
  destruct done; [reflexivity |].
  fold rest. by rewrite (run_eta rest).
Qed.

(** The loop of [Start] on the simulated fleet, from the turn [i] on, when
    [n] more doublings stay below the size of the group. *)
Lemma loop_simulated (primaryTemplate : string) (n : nat) :
  primaryTemplate <> "" ->
  primaryTemplate <> templateName ->
  forall (i : nat) (group : InstanceGroupManager.t) primary distributionPolicy
         (loopIterations : Z),
    let versions := InstanceGroupManager.Versions group in
    let totalTargetSize := InstanceGroupManager.TargetSize group in
    sized templateName versions ->
    filter (isPrimary templateName) versions = [primary] ->
    InstanceGroupManagerVersion.InstanceTemplate primary = primaryTemplate ->
    InstanceGroupManager.DistributionPolicy group = Some distributionPolicy ->
    lastCanarySize templateName 0 versions
    = match i with O => 0 | S j => 2 ^ Z.of_nat j end ->
    (i + n <= 62)%nat ->
    (n = 0%nat \/ 2 ^ Z.of_nat (i + n - 1) < totalTargetSize) ->
    totalTargetSize <= 2 ^ Z.of_nat (i + n) ->
    let run := loop r (S n) (snapshot group) loopIterations group in
    result_of run = Ok (Some tt)
    /\ canaryTargetsIn (trace_of run) = specCanarySize totalTargetSize <$> seq i (S n)
    /\ InstanceGroupManager.Versions <$> patchesIn (trace_of run)
       = specVersions primaryTemplate templateName totalTargetSize <$> seq i (S n)
    /\ InstanceGroupManager.Versions (world_of run)
       = [InstanceGroupManagerVersion.mk "" templateName None].
Proof.
  intros Hnamed Hother.
  induction n as [| n IH];
    intros i group primary dp it versions total Hsized Hprimaries Hprimary
      Hpolicy Hold Hbound Hbelow Hreach run.
  - (* the capping turn *)
    rewrite Nat.add_0_r in Hbound, Hreach.
    assert (Hnamed' : InstanceGroupManagerVersion.InstanceTemplate primary <> "")
      by (by rewrite Hprimary).
    destruct (iteration_simulated group primary dp it
                Hsized Hprimaries Hnamed' Hpolicy) as (Hres & Hworld & Htargets & Hpatches).
    cbn zeta in *. fold versions in Hres, Hworld, Htargets, Hpatches.
    rewrite Hold, (doubled_power i Hbound) in Hres, Hworld, Htargets, Hpatches.
    unfold capped in Hres, Hworld, Htargets, Hpatches.
    cbn [Simulated.snapshot clusterInfo.group clusterInfo.template InstanceTemplate.SelfLink]
      in Hres, Hworld, Htargets, Hpatches.
    fold total in Hres, Hworld, Htargets, Hpatches.
    rewrite decide_True in Hres, Hworld, Htargets, Hpatches by lia.
    cbn [fst snd] in Hres, Hworld, Htargets, Hpatches.
    assert (Hdone : isDone (snapshot
              (Simulated.applyPatch
                 (patchOf [InstanceGroupManagerVersion.mk "" templateName None]
                    (raisedSurge total
                       match i with O => 0 | S j => 2 ^ Z.of_nat j end
                       (DistributionPolicy.Zones dp)) 0) group)) = true).
    { unfold isDone. cbn. by rewrite !bool_decide_eq_true_2. }
    rewrite Hdone in Hres.
    unfold run. rewrite (loop_turn r 0 _ _ _ _ _ Hres).
    cbn [world_of trace_of result_of fst snd].
    rewrite canaryTargetsIn_app, patchesIn_app, Htargets, Hpatches, Hworld.
    cbn [seq fmap list_fmap]. unfold specCanarySize, specVersions.
    rewrite decide_True by lia.
    repeat split. cbn. f_equal. lia.
  - (* a doubling turn *)
    assert (Hnamed' : InstanceGroupManagerVersion.InstanceTemplate primary <> "")
      by (by rewrite Hprimary).
    assert (Hi : (i <= 62)%nat) by lia.
    assert (Hsmall : 2 ^ Z.of_nat i < total).
    { destruct Hbelow as [Hbelow | Hbelow]; [discriminate |].
      eapply Z.le_lt_trans; [| exact Hbelow]. apply Z.pow_le_mono_r; lia. }
    assert (Hpos : 0 < 2 ^ Z.of_nat i) by (apply Z.pow_pos_nonneg; lia).
    destruct (iteration_simulated group primary dp it
                Hsized Hprimaries Hnamed' Hpolicy) as (Hres & Hworld & Htargets & Hpatches).
    cbn zeta in *. fold versions in Hres, Hworld, Htargets, Hpatches.
    rewrite Hold, (doubled_power i Hi) in Hres, Hworld, Htargets, Hpatches.
    unfold capped in Hres, Hworld, Htargets, Hpatches.
    cbn [Simulated.snapshot clusterInfo.group clusterInfo.template InstanceTemplate.SelfLink]
      in Hres, Hworld, Htargets, Hpatches.
    fold total in Hres, Hworld, Htargets, Hpatches.
    rewrite decide_False in Hres, Hworld, Htargets, Hpatches by lia.
    cbn [fst snd] in Hres, Hworld, Htargets, Hpatches.
    set (patch := patchOf _ _ _) in Hres, Hworld, Htargets, Hpatches.
    set (group' := Simulated.applyPatch patch group) in Hres, Hworld.
    assert (Hdone : isDone (snapshot group') = false) by reflexivity.
    rewrite Hdone in Hres.
    unfold run. rewrite (loop_turn r (S n) _ _ _ _ _ Hres).
    cbn [world_of trace_of result_of fst snd]. rewrite Hworld.
    destruct (IH (S i) group'
                (InstanceGroupManagerVersion.mk ""
                   (InstanceGroupManagerVersion.InstanceTemplate primary) None)
                dp (it + 1)) as (IHres & IHtargets & IHpatches & IHworld).
    + constructor; [| constructor; [| constructor]].
      * intros Hrun. destruct Hother. by rewrite <- Hprimary.
      * intros _. by eexists.
    + cbn [group' Simulated.applyPatch patch patchOf InstanceGroupManager.Versions].
      rewrite filter_cons_True
        by (split; cbn; [by rewrite Hprimary | discriminate]).
      rewrite filter_cons_False by (intros [H _]; by apply H).
      reflexivity.
    + exact Hprimary.
    + exact Hpolicy.
    + cbn [group' Simulated.applyPatch patch patchOf InstanceGroupManager.Versions].
      unfold lastCanarySize. cbn [fold_left].
      rewrite (decide_False (P := runsTemplate _ (InstanceGroupManagerVersion.mk "" _ _) /\ _))
        by (intros [H _]; destruct Hother; by rewrite <- Hprimary).
      rewrite decide_True by (split; [reflexivity | cbn; lia]).
      reflexivity.
    + lia.
    + right. replace (S i + n - 1)%nat with (i + S n - 1)%nat by lia.
      destruct Hbelow as [Hbelow | Hbelow]; [discriminate | exact Hbelow].
    + replace (S i + n)%nat with (i + S n)%nat by lia. exact Hreach.
    + change (InstanceGroupManager.TargetSize group') with total in *.
      rewrite IHres, IHworld.
      rewrite canaryTargetsIn_app, patchesIn_app, Htargets, Hpatches.
      rewrite fmap_app, IHtargets, IHpatches.
      change (seq i (S (S n))) with (i :: seq (S i) (S n)).
      cbn [fmap list_fmap]. unfold specCanarySize at 2, specVersions at 2.
      rewrite decide_False by lia.
      repeat split; cbn; rewrite ?Hprimary; f_equal; lia.
Qed.

End SimulatedRollout.

(** C1: on a snapshot with exactly one primary version (and at most one
    canary slice, of a size that is not negative and that doubles within
    int64), [scale] announces the canary size 1 when the current canary size
    is 0 (or no version runs the target template) and twice the current size
    otherwise, capped at the size of the group; its patch holds the single
    version on the target template when that size reaches the size of the
    group, and otherwise the primary (same template, no size) and the canary
    (target template, the new fixed size).  Hence a rollout of the simulated
    fleet from a group with one primary version and no canary announces the
    sizes 1, 2, 4, 8, ... capped at the size of the group, the capping turn
    patching the group to the single version on the target template, where
    the rollout ends. *)
Theorem scale_doubles_until_collapse :
  (forall (W : Type) (r : Runner.t W) (info : clusterInfo.t) (w : W)
          (primary : InstanceGroupManagerVersion.t)
          (distributionPolicy : DistributionPolicy.t),
     let selfLink := InstanceTemplate.SelfLink (clusterInfo.template info) in
     let group := clusterInfo.group info in
     let versions := InstanceGroupManager.Versions group in
     let totalTargetSize := InstanceGroupManager.TargetSize group in
     filter (isPrimary selfLink) versions = [primary] ->
     InstanceGroupManagerVersion.InstanceTemplate primary <> "" ->
     sized selfLink versions ->
     (length (filter (runsTemplate selfLink) versions) <= 1)%nat ->
     0 <= currentCanarySize selfLink versions ->
     currentCanarySize selfLink versions * 2 <= Int64.max_signed ->
     InstanceGroupManager.DistributionPolicy group = Some distributionPolicy ->
     let oldCanarySize := currentCanarySize selfLink versions in
     let newCanarySize := specNewCanarySize oldCanarySize in
     canaryTargetsIn (trace_of (scale r info w))
     = [if decide (newCanarySize >= totalTargetSize) then totalTargetSize
        else newCanarySize]
     /\ exists patch,
          patchesIn (trace_of (scale r info w)) = [patch]
          /\ InstanceGroupManager.Versions patch
             = (if decide (newCanarySize >= totalTargetSize) then
                  [ InstanceGroupManagerVersion.mk "" selfLink None ]
                else
                  [ InstanceGroupManagerVersion.mk ""
                      (InstanceGroupManagerVersion.InstanceTemplate primary) None;
                    InstanceGroupManagerVersion.mk "canary" selfLink
                      (Some (FixedOrPercent.mk 0 newCanarySize 0)) ])
          /\ result_of (scale r info w)
             = patched (computeAPI.PatchMIG (Runner.computeAPI r) (Runner.projectID r)
                          (Runner.location r) (Runner.migName r) patch w).2
          /\ world_of (scale r info w)
             = (computeAPI.PatchMIG (Runner.computeAPI r) (Runner.projectID r)
                  (Runner.location r) (Runner.migName r) patch w).1)
  /\ (forall (templateName : string) (group : InstanceGroupManager.t)
             (primary : InstanceGroupManagerVersion.t)
             (distributionPolicy : DistributionPolicy.t) (turns : nat),
        let totalTargetSize := InstanceGroupManager.TargetSize group in
        let primaryTemplate := InstanceGroupManagerVersion.InstanceTemplate primary in
        InstanceGroupManager.Versions group = [primary] ->
        isPrimary templateName primary ->
        primaryTemplate <> "" ->
        InstanceGroupManager.DistributionPolicy group = Some distributionPolicy ->
        (turns <= 62)%nat ->
        (turns = 0%nat \/ 2 ^ Z.of_nat (turns - 1) < totalTargetSize) ->
        totalTargetSize <= 2 ^ Z.of_nat turns ->
        let run := Start (Simulated.runner templateName) (S turns) group in
        result_of run = Ok (Some tt)
        /\ canaryTargetsIn (trace_of run)
           = specCanarySize totalTargetSize <$> seq 0 (S turns)
        /\ InstanceGroupManager.Versions <$> patchesIn (trace_of run)
           = specVersions primaryTemplate templateName totalTargetSize
               <$> seq 0 (S turns)
        /\ InstanceGroupManager.Versions (world_of run)
           = [InstanceGroupManagerVersion.mk "" templateName None]).
Proof.
  split.
  - intros W r info w primary dp. apply scale_postcondition.
  - intros T group primary dp turns total P Hversions [Hother Htag] Hnamed Hpolicy
      Hbound Hbelow Hreach run.
    set (backend :=
           BackendService.mk "backend" ""
             [Backend.mk (InstanceGroupManager.SelfLink group)]).
    assert (Hstart :
      run =
      let rest :=
        loop (Simulated.runner T) (S turns)
          (clusterInfo.mk group (InstanceTemplate.mk T) backend) 0 group in
      (world_of rest,
       [Run.Log "starting rollout of template '%s' to managed instance group '%s'"
          [ArgS T; ArgS "group"];
        Run.GetMIG "project" (Region "region") "group";
        Run.GetInstanceTemplate "project" T;
        Run.FindBackendServiceWithMIG "project" group] ++ trace_of rest,
       result_of rest)).
    { unfold run, Start, logPrintf. rewrite bind_emit.
      unfold bind at 1. cbn -[loop]. unfold backend.
      destruct (loop _ _ _ _ _) as [[w2 t2] res]. reflexivity. }
    rewrite Hstart. cbn zeta. cbn [world_of trace_of result_of fst snd].
    rewrite canaryTargetsIn_app, patchesIn_app.
    apply (loop_simulated T backend P turns Hnamed Hother 0 group primary dp 0).
    + rewrite Hversions. constructor; [| constructor].
      intros Hrun. by destruct Hother.
    + rewrite Hversions. by rewrite filter_cons_True, filter_nil.
    + reflexivity.
    + exact Hpolicy.
    + rewrite Hversions. unfold lastCanarySize. cbn [fold_left].
      rewrite decide_False by (intros [Hrun _]; by destruct Hother). reflexivity.
    + exact Hbound.
    + exact Hbelow.
    + exact Hreach.
Qed.

(** ** The properties at concrete fleets *)

(** Closes [sized] and the like on a concrete list of versions or
    instances: each element carries what it has to. *)
Ltac each_carried := repeat constructor; cbn; intros; by eexists.

(** The first step of a rollout over a group of size 4 in three zones, with
    one primary version and no canary: the patch splits the group into the
    primary and a canary of 1, with a surge of 3 and nothing unavailable. *)
Example scale_first_step :
  let group := Simulated.fleet [Examples.primary] 4 Examples.zones in
  scale Examples.runner (Simulated.info "templates/new" group) group
  = (Simulated.applyPatch
       (patchOf
          [ InstanceGroupManagerVersion.mk "" "templates/old" None;
            InstanceGroupManagerVersion.mk "canary" "templates/new"
              (Some (FixedOrPercent.mk 0 1 0)) ]
          3 0) group,
     [ patchLine 1;
       Run.PatchMIG "project" (Region "region") "group"
         (patchOf
            [ InstanceGroupManagerVersion.mk "" "templates/old" None;
              InstanceGroupManagerVersion.mk "canary" "templates/new"
                (Some (FixedOrPercent.mk 0 1 0)) ]
            3 0) ],
     Ok tt).
Proof. reflexivity. Qed.

(** The hypotheses of C1 hold of a group of 10 with a canary of 2, which
    [scale] doubles to 4, and of a fresh group of 10, whose rollout announces
    1, 2, 4, 8, 10. *)
Lemma scale_doubles_until_collapse_witness :
  canaryTargetsIn
    (trace_of
       (scale Examples.runner
          (Examples.snapshot [Examples.primary; Examples.canaryOf 2])
          (Examples.fleet [Examples.primary; Examples.canaryOf 2])))
  = [4]
  /\ canaryTargetsIn
       (trace_of (Start Examples.runner 5 (Examples.fleet [Examples.primary])))
     = [1; 2; 4; 8; 10].
Proof.
  split.
  - refine (proj1 (proj1 scale_doubles_until_collapse _ Examples.runner
                     (Examples.snapshot [Examples.primary; Examples.canaryOf 2])
                     (Examples.fleet [Examples.primary; Examples.canaryOf 2])
                     Examples.primary
                     (DistributionPolicy.mk
                        (DistributionPolicyZoneConfiguration.mk <$> Examples.zones))
                     _ _ _ _ _ _ _)).
    + reflexivity.
    + discriminate.
    + each_carried.
    + vm_compute. lia.
    + vm_compute. discriminate.
    + vm_compute. discriminate.
    + reflexivity.
  - refine (proj1 (proj2 (proj2 scale_doubles_until_collapse "templates/new"
                            (Examples.fleet [Examples.primary]) Examples.primary
                            (DistributionPolicy.mk
                               (DistributionPolicyZoneConfiguration.mk <$> Examples.zones))
                            4%nat _ _ _ _ _ _ _))).
    + reflexivity.
    + split; discriminate.
    + discriminate.
    + reflexivity.
    + lia.
    + right. vm_compute. reflexivity.
    + vm_compute. discriminate.
Defined.

(** The hypothesis of C2 holds of the patch that doubles a canary of 2 in a
    group of 10 over three zones: the surge is max (4 - 2) 3. *)
Lemma scale_update_policy_witness :
  In Examples.patch4
    (patchesIn
       (trace_of
          (scale Examples.runner
             (Examples.snapshot [Examples.primary; Examples.canaryOf 2])
             (Examples.fleet [Examples.primary; Examples.canaryOf 2]))))
  /\ exists primaryTemplate oldCanarySize newCanarySize zoneCount,
       InstanceGroupManager.UpdatePolicy Examples.patch4
       = Some (InstanceGroupManagerUpdatePolicy.mk "PROACTIVE"
                 (Some (FixedOrPercent.mk 0
                          (Z.max (Int64.sub newCanarySize oldCanarySize) zoneCount) 0))
                 (Some (FixedOrPercent.mk 0 0 0)))
       /\ (primaryTemplate, oldCanarySize, newCanarySize, zoneCount)
          = ("templates/old", 2, 4, 3).
Proof.
  assert (Hin : In Examples.patch4
                  (patchesIn
                     (trace_of
                        (scale Examples.runner
                           (Examples.snapshot [Examples.primary; Examples.canaryOf 2])
                           (Examples.fleet [Examples.primary; Examples.canaryOf 2])))))
    by (left; reflexivity).
  split; [exact Hin |].
  destruct (scale_update_policy Examples.runner _ _ _ Hin)
    as (p & old & dp & Hloop & Hdp & Hpolicy & _).
  injection Hloop as <- <-. injection Hdp as <-.
  eexists _, _, _, _. split; [exact Hpolicy | reflexivity].
Defined.

(** The hypotheses of C3 hold of the listing of a canary instance [vm-a]
    and a primary instance [vm-b]: the gate fails when the health record marks
    [vm-a] unhealthy and passes when it marks [vm-b] unhealthy. *)
Lemma checkBackendServiceHealth_gate_witness :
  (exists e,
     result_of
       (checkBackendServiceHealth (Examples.scripted Examples.neverStable "vm-a")
          (Examples.snapshot [Examples.primary; Examples.canaryOf 2]) 0%nat)
     = Err e)
  /\ result_of
       (checkBackendServiceHealth (Examples.scripted Examples.neverStable "vm-b")
          (Examples.snapshot [Examples.primary; Examples.canaryOf 2]) 0%nat)
     = Ok tt.
Proof.
  split.
  - apply (proj1 (checkBackendServiceHealth_gate
                    (Examples.scripted Examples.neverStable "vm-a")
                    (Examples.snapshot [Examples.primary; Examples.canaryOf 2])
                    0%nat 0%nat 0%nat (Examples.unhealthy "vm-a") Examples.listing
                    eq_refl eq_refl
                    ltac:(each_carried))).
    exists (ManagedInstance.mk "vm-a" (Some (ManagedInstanceVersion.mk "templates/new"))).
    split; [by left |].
    split; [by eexists | eexists; split; [by left | done]].
  - apply (proj2 (proj2 (checkBackendServiceHealth_gate
                           (Examples.scripted Examples.neverStable "vm-b")
                           (Examples.snapshot [Examples.primary; Examples.canaryOf 2])
                           0%nat 0%nat 0%nat (Examples.unhealthy "vm-b") Examples.listing
                           eq_refl eq_refl
                           ltac:(each_carried)))).
    intros instance [<- | [<- | []]] [(version & Hversion & Htemplate) Hmarked].
    + destruct Hmarked as (status & [<- | []] & _ & Hname). discriminate.
    + injection Hversion as <-. discriminate.
Defined.

(** The hypotheses of C4 hold of a fleet that reports not stable twice and
    then stable (three fetches, two sleeps), and of a fleet that never reports
    stable (the timeout after 60 fetches). *)
Lemma waitUntilStable_bounded_witness :
  (fetchesIn
     (trace_of
        (waitUntilStable (Examples.scripted Examples.stableAfterTwo "vm-b")
           (Examples.snapshot [Examples.primary]) 0%nat)) = 3%nat
   /\ sleepsIn
        (trace_of
           (waitUntilStable (Examples.scripted Examples.stableAfterTwo "vm-b")
              (Examples.snapshot [Examples.primary]) 0%nat)) = 2%nat)
  /\ (result_of
        (waitUntilStable (Examples.scripted Examples.neverStable "vm-b")
           (Examples.snapshot [Examples.primary]) 0%nat)
      = Err StabilityTimeoutError
      /\ fetchesIn
           (trace_of
              (waitUntilStable (Examples.scripted Examples.neverStable "vm-b")
                 (Examples.snapshot [Examples.primary]) 0%nat)) = 60%nat).
Proof.
  split.
  - assert (Hunstable :
      unstableFetches (Examples.scripted Examples.stableAfterTwo "vm-b") 2 0%nat 2%nat).
    { do 2 (eapply unstable_more; [reflexivity | by eexists | cbn]).
      apply unstable_none. }
    destruct (proj1 (waitUntilStable_bounded
                       (Examples.scripted Examples.stableAfterTwo "vm-b")
                       (Examples.snapshot [Examples.primary]))
                2%nat 0%nat 2%nat 3%nat Examples.stableGroup
                ltac:(lia) Hunstable eq_refl eq_refl)
      as (_ & _ & Hfetches & Hsleeps).
    split; [exact Hfetches | exact Hsleeps].
  - assert (Hunstable :
      unstableFetches (Examples.scripted Examples.neverStable "vm-b") 60 0%nat 60%nat).
    { do 60 (eapply unstable_more; [reflexivity | by eexists | cbn]).
      apply unstable_none. }
    destruct (proj2 (waitUntilStable_bounded
                       (Examples.scripted Examples.neverStable "vm-b")
                       (Examples.snapshot [Examples.primary]))
                0%nat 60%nat Hunstable)
      as (Hresult & _ & Hfetches & _).
    split; [exact Hresult | exact Hfetches].
Defined.

(** C6 as stated fails: the group holds exactly two versions, neither
    tagged canary, and [scale] patches it without an error, since the second
    version runs the target template. *)
Lemma scale_two_untagged_versions_counterexample :
  length
    (filter
       (fun version => InstanceGroupManagerVersion.Name version <> "canary")
       [Examples.blue; Examples.green]) = 2%nat
  /\ result_of
       (scale Examples.runner (Examples.snapshot [Examples.blue; Examples.green])
          (Examples.fleet [Examples.blue; Examples.green]))
     = Ok tt
  /\ canaryTargetsIn
       (trace_of
          (scale Examples.runner (Examples.snapshot [Examples.blue; Examples.green])
             (Examples.fleet [Examples.blue; Examples.green])))
     = [4].
Proof. repeat split. Qed.

(** The hypotheses of C6 (as amended) hold of a group with two primary
    versions, on which [scale] fails with the ambiguous-primary error, and of
    a group with only a canary, on which it fails with the missing-primary
    error. *)
Lemma scale_primary_determination_witness :
  result_of
    (scale Examples.runner
       (Examples.snapshot [Examples.primary; Examples.canaryOf 2; Examples.otherPrimary])
       (Examples.fleet [Examples.primary; Examples.canaryOf 2; Examples.otherPrimary]))
  = Err (AmbiguousPrimaryError "templates/old" "templates/other")
  /\ result_of
       (scale Examples.runner (Examples.snapshot [Examples.canaryOf 2])
          (Examples.fleet [Examples.canaryOf 2]))
     = Err MissingPrimaryError.
Proof.
  split.
  - apply (proj1 (scale_primary_determination Examples.runner
                    (Examples.snapshot
                       [Examples.primary; Examples.canaryOf 2; Examples.otherPrimary])
                    (Examples.fleet
                       [Examples.primary; Examples.canaryOf 2; Examples.otherPrimary])
                    ltac:(each_carried))
             Examples.primary Examples.otherPrimary).
    + reflexivity.
    + discriminate.
  - apply (proj2 (scale_primary_determination Examples.runner
                    (Examples.snapshot [Examples.canaryOf 2])
                    (Examples.fleet [Examples.canaryOf 2])
                    ltac:(each_carried))).
    reflexivity.
Defined.

(** C7 as stated fails: with both region and zone set, fetching the group
    sends the regional request and returns what the service answers. *)
Lemma location_both_set_counterexample :
  googleComputeAPI.GetMIG (Canned.adapter Examples.stableGroup []) "project"
    (RegionOrZone.mk "region" "zone") "group" tt
  = (tt, [Net.RegionInstanceGroupManagers_Get "project" "region" "group"],
     Ok Examples.stableGroup).
Proof. reflexivity. Qed.

(** The hypotheses of C7 (as amended) hold of the location with the region
    [region] and the zone [zone]. *)
Lemma location_validation_witness :
  trace_of
    (googleComputeAPI.PatchMIG (Canned.adapter Examples.stableGroup []) "project"
       (RegionOrZone.mk "region" "zone") "group" Examples.patch4 tt)
  = [Net.RegionInstanceGroupManagers_Patch "project" "region" "group" Examples.patch4].
Proof.
  apply (proj2 (location_validation (Canned.adapter Examples.stableGroup [])
                  "project" "group" Examples.patch4 tt)
           "region" "zone" ltac:(discriminate) ltac:(discriminate)).
Defined.

(** The hypotheses of C9 hold of a group with only a canary: [scale] fails
    with the missing-primary error and has patched nothing. *)
Lemma scale_primary_error_patches_nothing_witness :
  world_of
    (scale Examples.runner (Examples.snapshot [Examples.canaryOf 2])
       (Examples.fleet [Examples.canaryOf 2]))
  = Examples.fleet [Examples.canaryOf 2]
  /\ patchesIn
       (trace_of
          (scale Examples.runner (Examples.snapshot [Examples.canaryOf 2])
             (Examples.fleet [Examples.canaryOf 2])))
     = [].
Proof.
  destruct (scale_primary_error_patches_nothing Examples.runner
              (Examples.snapshot [Examples.canaryOf 2])
              (Examples.fleet [Examples.canaryOf 2])
              MissingPrimaryError eq_refl (or_introl eq_refl))
    as (Hworld & Hpatches & _).
  split; [exact Hworld | exact Hpatches].
Defined.

(** The hypotheses of C10 hold of a group with a primary and a canary left
    over from another template: [scale] announces the canary size 1. *)
Lemma scale_stale_canary_ignored_witness :
  canaryTargetsIn
    (trace_of
       (scale Examples.runner (Examples.snapshot [Examples.primary; Examples.leftover])
          (Examples.fleet [Examples.primary; Examples.leftover])))
  = [1].
Proof.
  refine (proj1 (proj2 (proj2 (proj2
            (scale_stale_canary_ignored Examples.runner
               (Examples.snapshot [Examples.primary; Examples.leftover])
               (Examples.fleet [Examples.primary; Examples.leftover])
               Examples.leftover _ _ _ _)))) Examples.primary _ _).
  - right. by left.
  - split; [reflexivity | discriminate].
  - repeat constructor; cbn; intros H; discriminate.
  - repeat constructor; cbn; intros H; discriminate.
  - reflexivity.
  - discriminate.
Defined.

(** * Further properties *)

(** ** The adapter, method by method *)

Section AdapterMethods.

Context {W : Type}.

Implicit Types (g : googleComputeAPI.t W) (w : W).

(** X1: with a location built by [Region] (resp. [Zone]) from a non-empty
    name, fetching and patching the group send exactly one request, the
    regional (resp. zonal) one, and hand back what the service answers: the
    group or nil on success, the error of the service wrapped once, with the
    message of the fetch for both, on failure.  The world is as the service
    left it. *)
Theorem fetch_and_patch_pass_through g (projectID name : string)
    (patch : InstanceGroupManager.t) w :
  (forall region : string,
     region <> "" ->
     googleComputeAPI.GetMIG g projectID (Region region) name w
     = (let answered :=
          Service.RegionInstanceGroupManagers_Get (googleComputeAPI.computeService g)
            projectID region name w in
        (answered.1,
         [Net.RegionInstanceGroupManagers_Get projectID region name],
         wrapped answered.2 "error retrieving instance group information"))
     /\ googleComputeAPI.PatchMIG g projectID (Region region) name patch w
        = (let answered :=
             Service.RegionInstanceGroupManagers_Patch
               (googleComputeAPI.computeService g) projectID region name patch w in
           (answered.1,
            [Net.RegionInstanceGroupManagers_Patch projectID region name patch],
            wrapped answered.2 "error retrieving instance group information")))
  /\ (forall zone : string,
        zone <> "" ->
        googleComputeAPI.GetMIG g projectID (Zone zone) name w
        = (let answered :=
             Service.InstanceGroupManagers_Get (googleComputeAPI.computeService g)
               projectID zone name w in
           (answered.1,
            [Net.InstanceGroupManagers_Get projectID zone name],
            wrapped answered.2 "error retrieving instance group information"))
        /\ googleComputeAPI.PatchMIG g projectID (Zone zone) name patch w
           = (let answered :=
                Service.InstanceGroupManagers_Patch
                  (googleComputeAPI.computeService g) projectID zone name patch w in
              (answered.1,
               [Net.InstanceGroupManagers_Patch projectID zone name patch],
               wrapped answered.2 "error retrieving instance group information"))).
Proof.
  split.
  - intros region Hregion.
    unfold googleComputeAPI.GetMIG, googleComputeAPI.PatchMIG, Region.
    cbn [RegionOrZone.Region RegionOrZone.Zone].
    rewrite !(decide_True (P := region <> "")) by exact Hregion.
    unfold bind, attempt. cbn zeta.
    destruct (Service.RegionInstanceGroupManagers_Get _ _ _ _ w) as [w1 [mig | e1]];
      destruct (Service.RegionInstanceGroupManagers_Patch _ _ _ _ _ w)
        as [w2 [[] | e2]];
      split; reflexivity.
  - intros zone Hzone.
    unfold googleComputeAPI.GetMIG, googleComputeAPI.PatchMIG, Zone.
    cbn [RegionOrZone.Region RegionOrZone.Zone].
    rewrite !(decide_False (P := "" <> "")) by (intros H; by apply H).
    rewrite !(decide_True (P := zone <> "")) by exact Hzone.
    unfold bind, attempt. cbn zeta.
    destruct (Service.InstanceGroupManagers_Get _ _ _ _ w) as [w1 [mig | e1]];
      destruct (Service.InstanceGroupManagers_Patch _ _ _ _ _ w)
        as [w2 [[] | e2]];
      split; reflexivity.
Qed.

(** The listing of either scope, from what the service delivers. *)
Lemma Pages_appendInstances (ev : Net.request)
    (listing : W -> W * (list ListManagedInstancesResponse.t * option error)) w :
  Pages ev listing googleComputeAPI.appendInstances [] w
  = (let delivered := listing w in
     (delivered.1, [ev],
      Ok match delivered.2.2 with
         | None =>
             inl (concat (ListManagedInstancesResponse.ManagedInstances
                            <$> delivered.2.1))
         | Some err => inr err
         end)).
Proof.
  unfold Pages. destruct (listing w) as [w' [pages failure]].
  rewrite bind_emit. unfold try, bind. rewrite eachPage_appendInstances.
  destruct failure; reflexivity.
Qed.

(** X2: listing the instances of a regional group sends one listing
    request; when the paging ends without error the result is the instances
    of all pages, in the order of the pages, and when it ends with an error
    the result is that error wrapped and no instance, whatever pages were
    delivered before it. *)
Theorem GetMIGInstances_all_pages g (projectID region name : string) w
    (w' : W) (pages : list ListManagedInstancesResponse.t) (failure : option error) :
  region <> "" ->
  Service.RegionInstanceGroupManagers_ListManagedInstances
    (googleComputeAPI.computeService g) projectID region name w
  = (w', (pages, failure)) ->
  googleComputeAPI.GetMIGInstances g projectID (Region region) name w
  = (w',
     [Net.RegionInstanceGroupManagers_ListManagedInstances projectID region name],
     match failure with
     | None =>
         Ok (concat (ListManagedInstancesResponse.ManagedInstances <$> pages))
     | Some err => Err (Wrap err "error retrieving list of managed instances")
     end).
Proof.
  intros Hregion Hlisting.
  unfold googleComputeAPI.GetMIGInstances, Region.
  cbn [RegionOrZone.Region RegionOrZone.Zone].
  rewrite (decide_True (P := region <> "")) by exact Hregion.
  unfold bind at 1. rewrite Pages_appendInstances, Hlisting. cbn.
  destruct failure; reflexivity.
Qed.

(** X3: the health of the group is asked with one request, for the
    self-link of the group, in the region of the backend service when it has
    one and globally otherwise; the answer is handed back, an error
    wrapped. *)
Theorem GetBackendServiceGroupHealth_scope g (projectID : string)
    (backend : BackendService.t) (mig : InstanceGroupManager.t) w :
  let groupRef := ResourceGroupReference.mk (InstanceGroupManager.SelfLink mig) in
  (BackendService.Region backend <> "" ->
   googleComputeAPI.GetBackendServiceGroupHealth g projectID backend mig w
   = (let answered :=
        Service.RegionBackendServices_GetHealth (googleComputeAPI.computeService g)
          projectID (BackendService.Region backend) (BackendService.Name backend)
          groupRef w in
      (answered.1,
       [Net.RegionBackendServices_GetHealth projectID (BackendService.Region backend)
          (BackendService.Name backend) groupRef],
       wrapped answered.2 "error getting health of backend service group")))
  /\ (BackendService.Region backend = "" ->
      googleComputeAPI.GetBackendServiceGroupHealth g projectID backend mig w
      = (let answered :=
           Service.BackendServices_GetHealth (googleComputeAPI.computeService g)
             projectID (BackendService.Name backend) groupRef w in
         (answered.1,
          [Net.BackendServices_GetHealth projectID (BackendService.Name backend)
             groupRef],
          wrapped answered.2 "error getting health of backend service group"))).
Proof.
  cbn zeta. unfold googleComputeAPI.GetBackendServiceGroupHealth. split.
  - intros Hregion. rewrite decide_True by exact Hregion.
    unfold bind, attempt. cbn zeta.
    destruct (Service.RegionBackendServices_GetHealth _ _ _ _ _ w)
      as [w1 [health | e]]; reflexivity.
  - intros Hglobal. rewrite decide_False by (intros H; by apply H).
    unfold bind, attempt. cbn zeta.
    destruct (Service.BackendServices_GetHealth _ _ _ _ w)
      as [w1 [health | e]]; reflexivity.
Qed.

(** X4: the search for the backend service sends one request and ends in
    one of three ways, by what the paging delivered: it panics when some page
    holds a backend service; failing that, it returns the error of the paging,
    wrapped, when the paging ended with one, and the not-found error
    otherwise. *)
Theorem FindBackendServiceWithMIG_outcomes g (projectID : string)
    (mig : InstanceGroupManager.t) w :
  let delivered :=
    Service.BackendServices_AggregatedList (googleComputeAPI.computeService g)
      projectID w in
  googleComputeAPI.FindBackendServiceWithMIG g projectID mig w
  = (delivered.1,
     [Net.BackendServices_AggregatedList projectID],
     if noBackendService delivered.2.1 then
       match delivered.2.2 with
       | Some err => Err (Wrap err "error listing backend services in project")
       | None =>
           Err (New "could not find backend service containing the specified instance group")
       end
     else Panic).
Proof.
  cbn zeta. unfold googleComputeAPI.FindBackendServiceWithMIG, noBackendService.
  unfold bind at 1. unfold Pages.
  destruct (Service.BackendServices_AggregatedList _ _ w)
    as [w' [aggregates failure]].
  rewrite bind_emit. unfold try, bind. rewrite eachPage_findInAggregate.
  cbn [fst snd world_of trace_of result_of].
  destruct (forallb _ aggregates); [| reflexivity].
  destruct failure; reflexivity.
Qed.

End AdapterMethods.

(** ** The state machine, step by step *)

Section Steps.

Context {W : Type}.

Implicit Types (r : Runner.t W) (info : clusterInfo.t) (w : W).

(** A property of every event passes through a sequence of two
    computations. *)
Lemma trace_bind_Forall {A B} (P : Run.event -> Prop)
    (m : M W Run.event A) (f : A -> M W Run.event B) w :
  Forall P (trace_of (m w)) ->
  (forall a w', Forall P (trace_of (f a w'))) ->
  Forall P (trace_of (bind m f w)).
Proof.
  intros Hm Hf. rewrite trace_bind. apply Forall_app. split; [exact Hm |].
  destruct (result_of (m w)); [apply Hf | constructor ..].
Qed.

(** [getInfo], path by path. *)
Lemma getInfo_paths r w :
  let fetched :=
    computeAPI.GetMIG (Runner.computeAPI r) (Runner.projectID r)
      (Runner.location r) (Runner.migName r) w in
  let fetch := Run.GetMIG (Runner.projectID r) (Runner.location r) (Runner.migName r) in
  let resolve := Run.GetInstanceTemplate (Runner.projectID r) (Runner.templateName r) in
  getInfo r w =
  match fetched.2 with
  | Err e => (fetched.1, [fetch], Err e)
  | Panic => (fetched.1, [fetch], Panic)
  | Ok group =>
      let resolved :=
        computeAPI.GetInstanceTemplate (Runner.computeAPI r) (Runner.projectID r)
          (Runner.templateName r) fetched.1 in
      match resolved.2 with
      | Err e => (resolved.1, [fetch; resolve], Err e)
      | Panic => (resolved.1, [fetch; resolve], Panic)
      | Ok template =>
          let found :=
            computeAPI.FindBackendServiceWithMIG (Runner.computeAPI r)
              (Runner.projectID r) group resolved.1 in
          (found.1,
           [fetch; resolve; Run.FindBackendServiceWithMIG (Runner.projectID r) group],
           match found.2 with
           | Ok backend => Ok (clusterInfo.mk group template backend)
           | Err e => Err e
           | Panic => Panic
           end)
      end
  end.
Proof.
  cbn zeta. unfold getInfo, bind, callGetMIG, callGetInstanceTemplate,
    callFindBackendServiceWithMIG, invoke, ret.
  destruct (computeAPI.GetMIG _ _ _ _ w) as [w1 [group | e |]]; cbn; try reflexivity.
  destruct (computeAPI.GetInstanceTemplate _ _ _ w1) as [w2 [template | e |]]; cbn;
    try reflexivity.
  destruct (computeAPI.FindBackendServiceWithMIG _ _ _ w2) as [w3 [backend | e |]];
    reflexivity.
Qed.

(** X5: [getInfo] asks for the group, the template and the backend service
    in this order and stops at the first call that fails: it returns that
    error as it is and makes no further call; when all three answer, the
    snapshot holds the three answers. *)
Theorem getInfo_stops_at_first_error r w :
  let fetched :=
    computeAPI.GetMIG (Runner.computeAPI r) (Runner.projectID r)
      (Runner.location r) (Runner.migName r) w in
  let fetch := Run.GetMIG (Runner.projectID r) (Runner.location r) (Runner.migName r) in
  let resolve := Run.GetInstanceTemplate (Runner.projectID r) (Runner.templateName r) in
  (forall e,
     fetched.2 = Err e -> getInfo r w = (fetched.1, [fetch], Err e))
  /\ (forall group,
        fetched.2 = Ok group ->
        let resolved :=
          computeAPI.GetInstanceTemplate (Runner.computeAPI r) (Runner.projectID r)
            (Runner.templateName r) fetched.1 in
        let find := Run.FindBackendServiceWithMIG (Runner.projectID r) group in
        (forall e,
           resolved.2 = Err e ->
           getInfo r w = (resolved.1, [fetch; resolve], Err e))
        /\ (forall template,
              resolved.2 = Ok template ->
              let found :=
                computeAPI.FindBackendServiceWithMIG (Runner.computeAPI r)
                  (Runner.projectID r) group resolved.1 in
              (forall e,
                 found.2 = Err e ->
                 getInfo r w = (found.1, [fetch; resolve; find], Err e))
              /\ (forall backend,
                    found.2 = Ok backend ->
                    getInfo r w
                    = (found.1, [fetch; resolve; find],
                       Ok (clusterInfo.mk group template backend))))).
Proof.
  cbn zeta. rewrite getInfo_paths. cbn zeta. split.
  - by intros e ->.
  - intros group ->. split.
    + by intros e ->.
    + intros template ->. split; [by intros e -> | by intros backend ->].
Qed.

(** Where the search for the backend service never answers with one,
    [getInfo] never returns a snapshot. *)
Lemma getInfo_never r w :
  (forall group w' backend,
     (computeAPI.FindBackendServiceWithMIG (Runner.computeAPI r)
        (Runner.projectID r) group w').2 <> Ok backend) ->
  (forall info, result_of (getInfo r w) <> Ok info)
  /\ patchesIn (trace_of (getInfo r w)) = []
  /\ sleepsOf (trace_of (getInfo r w)) = []
  /\ ~ In (Run.Log "beginning rollout loop iteration #%d" [ArgD 0])
         (trace_of (getInfo r w)).
Proof.
  intros Hnever. rewrite getInfo_paths. cbn zeta.
  destruct (computeAPI.GetMIG _ _ _ _ w) as [w1 [group | e |]];
    cbn [fst snd result_of trace_of];
    [| repeat split; try discriminate; intros [H | []]; discriminate ..].
  destruct (computeAPI.GetInstanceTemplate _ _ _ w1) as [w2 [template | e |]];
    cbn [fst snd result_of trace_of];
    [| repeat split; try discriminate;
       intros [H | [H | []]]; discriminate ..].
  specialize (Hnever group w2).
  destruct (computeAPI.FindBackendServiceWithMIG _ _ _ w2) as [w3 [backend | e |]];
    cbn [fst snd result_of trace_of] in *;
    [by destruct (Hnever backend) | ..];
    (repeat split; try discriminate; intros [H | [H | [H | []]]]; discriminate).
Qed.

(** The adapter of the repository is such an adapter. *)
Lemma real_adapter_never_finds (g : googleComputeAPI.t W) (projectID : string)
    (group : InstanceGroupManager.t) w (backend : BackendService.t) :
  (computeAPI.FindBackendServiceWithMIG (googleComputeAPI_computeAPI g)
     projectID group w).2 <> Ok backend.
Proof. apply FindBackendServiceWithMIG_never_finds. Qed.

Lemma Start_stops_with_getInfo r (turns : nat) w :
  (forall info, result_of (getInfo r w) <> Ok info) ->
  Start r turns w
  = (world_of (getInfo r w),
     Run.Log "starting rollout of template '%s' to managed instance group '%s'"
       [ArgS (Runner.templateName r); ArgS (Runner.migName r)]
     :: trace_of (getInfo r w),
     match result_of (getInfo r w) with
     | Ok _ => Ok None
     | Err e => Err e
     | Panic => Panic
     end).
Proof.
  intros Hnever. unfold Start, logPrintf. rewrite bind_emit.
  rewrite world_bind, trace_bind, result_bind.
  destruct (result_of (getInfo r w)) as [info | e |];
    [by destruct (Hnever info) | by rewrite app_nil_r ..].
Qed.

(** X6: over the adapter of the repository, [Start] never returns nil: it
    ends in [getInfo], with an error or with the panic of the search for the
    backend service, before the first turn of its loop; it patches nothing
    and never sleeps. *)
Theorem Start_real_adapter_never_patches (g : googleComputeAPI.t W)
    (timeSleep : Z -> W -> W) (projectID : string) (location : RegionOrZone.t)
    (migName templateName : string) (turns : nat) w :
  let r :=
    Runner.mk W (googleComputeAPI_computeAPI g) timeSleep
      projectID location migName templateName in
  (forall done, result_of (Start r turns w) <> Ok done)
  /\ patchesIn (trace_of (Start r turns w)) = []
  /\ sleepsOf (trace_of (Start r turns w)) = []
  /\ ~ In (Run.Log "beginning rollout loop iteration #%d" [ArgD 0])
         (trace_of (Start r turns w)).
Proof.
  intros r.
  destruct (getInfo_never r w) as (Hnever & Hpatches & Hsleeps & Hline).
  { intros group w' backend. apply real_adapter_never_finds. }
  rewrite (Start_stops_with_getInfo r turns w Hnever).
  cbn [result_of trace_of world_of fst snd]. repeat split.
  - intros done. destruct (result_of (getInfo r w)) as [info | e |] eqn:Hres;
      [by destruct (Hnever info) | discriminate ..].
  - exact Hpatches.
  - exact Hsleeps.
  - intros [H | Hin]; [discriminate | by apply Hline].
Qed.

End Steps.

(** ** The stability waiter, for every fleet *)

Section WaiterInvariants.

Context {W : Type}.

Implicit Types (r : Runner.t W) (info : clusterInfo.t) (w : W).

(** The stability test calls nothing. *)
Lemma stableAndReached_pure (group : InstanceGroupManager.t) w :
  stableAndReached group w
  = (w, @nil Run.event, result_of (stableAndReached group w)).
Proof.
  unfold stableAndReached.
  destruct (InstanceGroupManager.Status group) as [[[] [[reached] |]] |]; reflexivity.
Qed.

Lemma stableAndReached_true (group : InstanceGroupManager.t) w :
  result_of (stableAndReached group w) = Ok true -> reportsStableReached group.
Proof.
  unfold stableAndReached, reportsStableReached.
  destruct (InstanceGroupManager.Status group) as [[[] [[[]] |]] |];
    cbn; intros H; try discriminate H; reflexivity.
Qed.

(** One tick of the loop, path by path. *)
Lemma waitTicks_tick r info (remaining : nat) w :
  let fetched :=
    computeAPI.GetMIG (Runner.computeAPI r) (Runner.projectID r)
      (Runner.location r) (Runner.migName r) w in
  let fetch := Run.GetMIG (Runner.projectID r) (Runner.location r) (Runner.migName r) in
  waitTicks r info (S remaining) w =
  match fetched.2 with
  | Err e => (fetched.1, [fetch], Err e)
  | Panic => (fetched.1, [fetch], Panic)
  | Ok refreshedGroup =>
      match result_of (stableAndReached refreshedGroup fetched.1) with
      | Err e => (fetched.1, [fetch], Err e)
      | Panic => (fetched.1, [fetch], Panic)
      | Ok true =>
          (fetched.1, [fetch; Run.Log "cluster is stable" []],
           Ok (clusterInfo.mk refreshedGroup
                 (clusterInfo.template info) (clusterInfo.backend info)))
      | Ok false =>
          let rest :=
            waitTicks r info remaining (Runner.sleepFunc r tickInterval fetched.1) in
          (world_of rest,
           [fetch; Run.Log "cluster is still not stable, sleeping" [];
            Run.Sleep tickInterval] ++ trace_of rest,
           result_of rest)
      end
  end.
Proof.
  cbn zeta. cbn [waitTicks]. unfold bind at 1. unfold callGetMIG, invoke.
  destruct (computeAPI.GetMIG _ _ _ _ w) as [w1 [group | e |]]; cbn [fst snd];
    [| reflexivity ..].
  unfold bind at 1. rewrite (stableAndReached_pure group w1).
  cbn [result_of snd].
  destruct (result_of (stableAndReached group w1)) as [[] | e |]; try reflexivity.
  unfold logPrintf. rewrite bind_emit. unfold bind at 1 2 3.
  unfold callSleep, invoke.
  by rewrite (run_eta (waitTicks r info remaining _)).
Qed.

(** Closes the five invariants of the waiter on a trace that is given in
    full. *)
Ltac budget_of_trace :=
  cbn; split; [lia | split; [lia | split; [repeat constructor | split; reflexivity]]].

Lemma waitTicks_invariants r info (remaining : nat) :
  forall w,
    let trace := trace_of (waitTicks r info remaining w) in
    (fetchesIn trace <= remaining)%nat
    /\ (sleepsIn trace <= fetchesIn trace)%nat
    /\ Forall (fun duration => duration = tickInterval) (sleepsOf trace)
    /\ patchesIn trace = []
    /\ length (callsIn trace) = (fetchesIn trace + sleepsIn trace)%nat.
Proof.
  induction remaining as [| remaining IH]; intros w; cbn zeta.
  - budget_of_trace.
  - rewrite waitTicks_tick. cbn zeta.
    destruct (computeAPI.GetMIG _ _ _ _ w) as [w1 [group | e |]]; cbn [fst snd];
      [| budget_of_trace ..].
    destruct (result_of (stableAndReached group w1)) as [[] | e |];
      [| | budget_of_trace ..].
    + budget_of_trace.
    + destruct (IH (Runner.sleepFunc r tickInterval w1)) as (Hf & Hs & Hd & Hp & Hc).
      cbn [trace_of fst snd].
      set (rest := trace_of (waitTicks r info remaining _)) in *.
      change (fetchesIn (_ ++ rest)) with (S (fetchesIn rest)).
      change (sleepsIn (_ ++ rest)) with (S (sleepsIn rest)).
      change (sleepsOf (_ ++ rest)) with (tickInterval :: sleepsOf rest).
      change (patchesIn (_ ++ rest)) with (patchesIn rest).
      change (length (callsIn (_ ++ rest))) with (S (S (length (callsIn rest)))).
      split; [lia | split; [lia | split; [by constructor | split; [exact Hp | lia]]]].
Qed.

(** X7: whatever the fleet answers, the waiter fetches the group at most
    60 times and never sleeps more often than it fetches; every sleep lasts one
    tick of 60 seconds; it calls nothing but the fetch and the sleep, and in
    particular patches nothing. *)
Theorem waitUntilStable_budget r info w :
  let trace := trace_of (waitUntilStable r info w) in
  (fetchesIn trace <= 60)%nat
  /\ (sleepsIn trace <= fetchesIn trace)%nat
  /\ Forall (fun duration => duration = 60 * 1000000000) (sleepsOf trace)
  /\ patchesIn trace = []
  /\ length (callsIn trace) = (fetchesIn trace + sleepsIn trace)%nat.
Proof.
  cbn zeta. unfold waitUntilStable, logPrintf. rewrite bind_emit.
  cbn [trace_of fst snd]. change (Z.to_nat maxTicks) with 60%nat.
  exact (waitTicks_invariants r info 60 w).
Qed.

Lemma waitTicks_success r info (remaining : nat) :
  forall w refreshed,
    result_of (waitTicks r info remaining w) = Ok refreshed ->
    clusterInfo.template refreshed = clusterInfo.template info
    /\ clusterInfo.backend refreshed = clusterInfo.backend info
    /\ reportsStableReached (clusterInfo.group refreshed)
    /\ fetchesIn (trace_of (waitTicks r info remaining w))
       = S (sleepsIn (trace_of (waitTicks r info remaining w))).
Proof.
  induction remaining as [| remaining IH]; intros w refreshed; [discriminate |].
  rewrite waitTicks_tick. cbn zeta.
  destruct (computeAPI.GetMIG _ _ _ _ w) as [w1 [group | e |]]; cbn [fst snd];
    [| discriminate ..].
  destruct (result_of (stableAndReached group w1)) as [[] | e |] eqn:Htest;
    [| | discriminate ..]; cbn [result_of trace_of fst snd].
  - intros [= <-]. cbn. repeat split.
    by apply (stableAndReached_true group w1).
  - intros Hrest. destruct (IH _ _ Hrest) as (Ht & Hb & Hs & Hcount).
    repeat split; [exact Ht | exact Hb | exact Hs |].
    set (rest := trace_of (waitTicks r info remaining _)) in *.
    change (fetchesIn (_ ++ rest)) with (S (fetchesIn rest)).
    change (sleepsIn (_ ++ rest)) with (S (sleepsIn rest)).
    by rewrite Hcount.
Qed.

(** X8: when the waiter returns a snapshot, its group reports stable with
    the version target reached (a group that is stable with the target not
    reached is never returned), its template and its backend service are those
    of the snapshot it was given, and the waiter has fetched once more than it
    has slept. *)
Theorem waitUntilStable_returns_stable r info w (refreshed : clusterInfo.t) :
  result_of (waitUntilStable r info w) = Ok refreshed ->
  clusterInfo.template refreshed = clusterInfo.template info
  /\ clusterInfo.backend refreshed = clusterInfo.backend info
  /\ reportsStableReached (clusterInfo.group refreshed)
  /\ fetchesIn (trace_of (waitUntilStable r info w))
     = S (sleepsIn (trace_of (waitUntilStable r info w))).
Proof.
  unfold waitUntilStable, logPrintf. rewrite bind_emit.
  cbn [result_of trace_of fst snd]. apply waitTicks_success.
Qed.

(** X9: when a fetch fails after [k < 60] fetches that reported not
    stable, the waiter returns the error of that fetch as it is, without
    sleeping again and without another fetch. *)
Theorem waitUntilStable_fetch_error r info (k : nat) w w' w'' (e : error) :
  (k < 60)%nat ->
  unstableFetches r k w w' ->
  computeAPI.GetMIG (Runner.computeAPI r) (Runner.projectID r)
    (Runner.location r) (Runner.migName r) w' = (w'', Err e) ->
  result_of (waitUntilStable r info w) = Err e
  /\ world_of (waitUntilStable r info w) = w''
  /\ fetchesIn (trace_of (waitUntilStable r info w)) = S k
  /\ sleepsIn (trace_of (waitUntilStable r info w)) = k.
Proof.
  intros Hk Hunstable Hfetch.
  unfold waitUntilStable, logPrintf. rewrite bind_emit.
  cbn [result_of trace_of world_of fst snd]. change (Z.to_nat maxTicks) with 60%nat.
  destruct (waitTicks_after_unstable r info k w w' Hunstable (S (59 - k)))
    as (Hw & Hr & Hf & Hs).
  replace (k + S (59 - k))%nat with 60%nat in * by lia.
  assert (Hstep :
    waitTicks r info (S (59 - k)) w'
    = (w'',
       [Run.GetMIG (Runner.projectID r) (Runner.location r) (Runner.migName r)],
       Err e))
    by (rewrite waitTicks_tick; cbn zeta; by rewrite Hfetch).
  rewrite Hstep in Hw, Hr, Hf, Hs.
  change (fetchesIn (?ev :: ?t)) with (fetchesIn t).
  change (sleepsIn (?ev :: ?t)) with (sleepsIn t).
  rewrite Hw, Hr, Hf, Hs. cbn.
  split; [reflexivity | split; [reflexivity | split; lia]].
Qed.

End WaiterInvariants.

(** ** The health gate, for every fleet *)

Section HealthGateSteps.

Context {W : Type}.

Implicit Types (r : Runner.t W) (info : clusterInfo.t) (w : W).

(** The loop over the instances calls nothing. *)
Lemma rangeInstances_pure info (isUnhealthy : gmap string bool)
    (instances : list ManagedInstance.t) w :
  rangeInstances info isUnhealthy instances w
  = (w, @nil Run.event, result_of (rangeInstances info isUnhealthy instances w)).
Proof.
  induction instances as [| instance rest IH]; [reflexivity |].
  cbn [rangeInstances].
  destruct (ManagedInstance.Version instance) as [version |]; cbn [deref];
    [| reflexivity].
  rewrite !bind_ret. destruct (_ && _); [reflexivity | exact IH].
Qed.

(** The gate, path by path. *)
Lemma checkBackendServiceHealth_paths r info w :
  let asked :=
    computeAPI.GetBackendServiceGroupHealth (Runner.computeAPI r) (Runner.projectID r)
      (clusterInfo.backend info) (clusterInfo.group info) w in
  let ask :=
    Run.GetBackendServiceGroupHealth (Runner.projectID r)
      (clusterInfo.backend info) (clusterInfo.group info) in
  let checking := Run.Log "checking backend service health" [] in
  checkBackendServiceHealth r info w =
  match asked.2 with
  | Err e => (asked.1, [checking; ask], Err e)
  | Panic => (asked.1, [checking; ask], Panic)
  | Ok healthResponse =>
      let listed :=
        computeAPI.GetMIGInstances (Runner.computeAPI r) (Runner.projectID r)
          (Runner.location r) (Runner.migName r) asked.1 in
      let trace :=
        [checking; ask;
         Run.Log "found %d unhealthy instances"
           [ArgD (Z.of_nat (size (unhealthyInstances healthResponse)))];
         Run.GetMIGInstances (Runner.projectID r) (Runner.location r)
           (Runner.migName r)] in
      match listed.2 with
      | Err e => (listed.1, trace, Err e)
      | Panic => (listed.1, trace, Panic)
      | Ok instances =>
          (listed.1, trace,
           result_of
             (rangeInstances info (unhealthyInstances healthResponse) instances
                listed.1))
      end
  end.
Proof.
  cbn zeta.
  unfold checkBackendServiceHealth, logPrintf, callGetBackendServiceGroupHealth,
    callGetMIGInstances, invoke, emit, bind.
  destruct (computeAPI.GetBackendServiceGroupHealth _ _ _ _ w)
    as [w1 [healthResponse | e |]]; cbn [fst snd]; [| reflexivity ..].
  destruct (computeAPI.GetMIGInstances _ _ _ _ w1) as [w2 [instances | e |]];
    cbn [fst snd]; [| reflexivity ..].
  by rewrite rangeInstances_pure.
Qed.

(** X10: the health gate only reads: it patches nothing, fetches no group
    and never sleeps.  When the health call fails it returns that error as it
    is and does not list the instances; when the listing fails it returns
    that error as it is. *)
Theorem checkBackendServiceHealth_reads_only r info w :
  let asked :=
    computeAPI.GetBackendServiceGroupHealth (Runner.computeAPI r) (Runner.projectID r)
      (clusterInfo.backend info) (clusterInfo.group info) w in
  let ask :=
    Run.GetBackendServiceGroupHealth (Runner.projectID r)
      (clusterInfo.backend info) (clusterInfo.group info) in
  let list :=
    Run.GetMIGInstances (Runner.projectID r) (Runner.location r) (Runner.migName r) in
  let run := checkBackendServiceHealth r info w in
  (patchesIn (trace_of run) = []
   /\ fetchesIn (trace_of run) = 0%nat
   /\ sleepsOf (trace_of run) = [])
  /\ (forall e,
        asked.2 = Err e ->
        result_of run = Err e /\ callsIn (trace_of run) = [ask] /\ world_of run = asked.1)
  /\ (forall healthResponse e,
        asked.2 = Ok healthResponse ->
        (computeAPI.GetMIGInstances (Runner.computeAPI r) (Runner.projectID r)
           (Runner.location r) (Runner.migName r) asked.1).2 = Err e ->
        result_of run = Err e /\ callsIn (trace_of run) = [ask; list]).
Proof.
  cbn zeta. rewrite checkBackendServiceHealth_paths. cbn zeta.
  destruct (computeAPI.GetBackendServiceGroupHealth _ _ _ _ w)
    as [w1 [healthResponse | e |]]; cbn [fst snd].
  - destruct (computeAPI.GetMIGInstances _ _ _ _ w1) as [w2 [instances | e |]];
      cbn [fst snd world_of trace_of result_of];
      (split; [by repeat split |]); (split; [intros e' [=] |]);
      intros hr e' [= <-] Hlisting; try discriminate Hlisting.
    injection Hlisting as <-. by split.
  - split; [by repeat split |]. split.
    + intros e' [= <-]. by repeat split.
    + intros hr e' [=].
  - split; [by repeat split |]. split; [intros e' [=] | intros hr e' [=]].
Qed.

(** The keys of [isUnhealthy] are the instances of the statuses in state
    UNHEALTHY. *)
Lemma dom_fold_markUnhealthy (statuses : list HealthStatus.t) :
  forall isUnhealthy : gmap string bool,
    dom (fold_left markUnhealthy statuses isUnhealthy)
    = dom isUnhealthy
      ∪ list_to_set
          (HealthStatus.Instance
             <$> filter (fun healthStatus =>
                           HealthStatus.HealthState healthStatus = "UNHEALTHY")
                   statuses).
Proof.
  induction statuses as [| healthStatus rest IH]; intros isUnhealthy;
    cbn [fold_left].
  - rewrite filter_nil. cbn. by rewrite (right_id_L ∅ (∪)).
  - rewrite IH. unfold markUnhealthy.
    destruct (decide (HealthStatus.HealthState healthStatus = "UNHEALTHY"))
      as [Hstate | Hstate].
    + rewrite filter_cons_True by exact Hstate.
      rewrite dom_insert_L, fmap_cons, list_to_set_cons.
      by rewrite (comm_L (∪) {[_]} (dom isUnhealthy)), (assoc_L (∪)).
    + by rewrite filter_cons_False by exact Hstate.
Qed.

Lemma size_unhealthyInstances (healthResponse : BackendServiceGroupHealth.t) :
  size (unhealthyInstances healthResponse)
  = length (remove_dups (unhealthyIds healthResponse)).
Proof.
  rewrite <- size_dom. unfold unhealthyInstances, unhealthyIds.
  rewrite dom_fold_markUnhealthy, dom_empty_L, (left_id_L ∅ (∪)).
  rewrite <- (size_list_to_set (C := gset string) (remove_dups _))
    by apply NoDup_remove_dups.
  f_equal. apply set_eq. intros instance.
  by rewrite !elem_of_list_to_set, elem_of_remove_dups.
Qed.

(** X11: when the health call answers, the number of unhealthy instances
    that the gate logs is the number of distinct instances with a status in
    state UNHEALTHY: an instance reported more than once counts once, and a
    status in another state counts for nothing. *)
Theorem checkBackendServiceHealth_logs_distinct r info w w1
    (healthResponse : BackendServiceGroupHealth.t) :
  computeAPI.GetBackendServiceGroupHealth (Runner.computeAPI r) (Runner.projectID r)
    (clusterInfo.backend info) (clusterInfo.group info) w = (w1, Ok healthResponse) ->
  In (Run.Log "found %d unhealthy instances"
        [ArgD (Z.of_nat (length (remove_dups (unhealthyIds healthResponse))))])
    (trace_of (checkBackendServiceHealth r info w)).
Proof.
  intros Hasked. rewrite checkBackendServiceHealth_paths. cbn zeta.
  rewrite Hasked. cbn [fst snd]. rewrite size_unhealthyInstances.
  destruct (computeAPI.GetMIGInstances _ _ _ _ w1) as [w2 [instances | e |]];
    cbn; tauto.
Qed.

End HealthGateSteps.

(** ** scale, for every snapshot *)

Section ScaleInvariants.

Context {W : Type}.

Implicit Types (r : Runner.t W) (info : clusterInfo.t) (w : W).

Lemma sleepsOf_app t1 t2 : sleepsOf (t1 ++ t2) = sleepsOf t1 ++ sleepsOf t2.
Proof. unfold sleepsOf. apply flat_map_app. Qed.

Lemma foundCanaryLines_no_call r (logs : list Run.event) :
  Forall foundCanaryLine logs ->
  fetchesIn logs = 0%nat /\ sleepsOf logs = [] /\ Forall (ownCall r) logs.
Proof.
  induction 1 as [| ev logs [n ->] _ (IH1 & IH2 & IH3)];
    [by repeat split |].
  split; [exact IH1 | split; [exact IH2 | by constructor]].
Qed.

(** A run that has only logged what the loop logs. *)
Lemma patchesOnce_quiet r w (logs : list Run.event) (res : outcome unit) :
  Forall foundCanaryLine logs ->
  res <> Ok tt ->
  patchesOnce r w (w, logs, res).
Proof.
  intros Hlines Hres.
  destruct (foundCanaryLines_silent _ Hlines) as (Hcalls & Hnone & _).
  destruct (foundCanaryLines_no_call r _ Hlines) as (Hfetch & Hsleep & _).
  unfold patchesOnce. cbn [world_of trace_of result_of fst snd].
  rewrite Hnone, Hfetch, Hsleep, Hcalls.
  split; [split; [cbn; lia | by split] |].
  split; [by intros _ | intros patch [=]].
Qed.

Lemma scale_patchesOnce r info w : patchesOnce r w (scale r info w).
Proof.
  rewrite scale_paths. cbn zeta.
  destruct (rangeVersions_quiet (InstanceTemplate.SelfLink (clusterInfo.template info))
              (InstanceGroupManager.Versions (clusterInfo.group info)) "" 0 w)
    as [_ Hlines].
  destruct (result_of (rangeVersions _ _ _ _ _)) as [[p old] | e |];
    [| by apply patchesOnce_quiet ..].
  destruct (decide (p = "")); [by apply patchesOnce_quiet |].
  destruct (foundCanaryLines_silent _ Hlines) as (Hcalls & Hnone & _).
  destruct (foundCanaryLines_no_call r _ Hlines) as (Hfetch & Hsleep & _).
  unfold patchesOnce, callsIn in *.
  destruct (InstanceGroupManager.DistributionPolicy (clusterInfo.group info))
    as [dp |]; cbn [world_of trace_of result_of fst snd];
    rewrite patchesIn_app, fetchesIn_app, sleepsOf_app, List.filter_app,
      Hnone, Hfetch, Hsleep, Hcalls.
  - split; [split; [cbn; lia | by split] |]. split; [intros [=] |].
    intros patch [= <-]. by repeat split.
  - split; [split; [cbn; lia | by split] |].
    split; [by intros _ | intros patch [=]].
Qed.

(** X12: [scale] issues at most one patch, fetches nothing and never
    sleeps.  When it issues none, the world is as before and the result is
    not nil; when it issues one, that is its only call, the world is as the
    patch call left it, and the result is nil if the call succeeded and the
    error of the call, wrapped with the message of the update, if it
    failed. *)
Theorem scale_patches_once r info w :
  let run := scale r info w in
  ((length (patchesIn (trace_of run)) <= 1)%nat
   /\ fetchesIn (trace_of run) = 0%nat
   /\ sleepsOf (trace_of run) = [])
  /\ (patchesIn (trace_of run) = [] ->
      world_of run = w /\ result_of run <> Ok tt /\ callsIn (trace_of run) = [])
  /\ (forall patch,
        patchesIn (trace_of run) = [patch] ->
        let answered :=
          computeAPI.PatchMIG (Runner.computeAPI r) (Runner.projectID r)
            (Runner.location r) (Runner.migName r) patch w in
        world_of run = answered.1
        /\ callsIn (trace_of run)
           = [Run.PatchMIG (Runner.projectID r) (Runner.location r)
                (Runner.migName r) patch]
        /\ result_of run
           = match answered.2 with
             | Ok _ => Ok tt
             | Err err =>
                 Err (Wrap err "error updating instance templates in instance group")
             | Panic => Panic
             end).
Proof. exact (scale_patchesOnce r info w). Qed.

(** The primary that the loop ends with is the one it started with or the
    template of a version that is a primary. *)
Lemma rangeVersions_primary selfLink versions :
  forall primaryTemplate oldCanarySize (w : W) primary old,
    result_of (rangeVersions selfLink versions primaryTemplate oldCanarySize w)
    = Ok (primary, old) ->
    primary = primaryTemplate
    \/ exists version,
         In version versions
         /\ isPrimary selfLink version
         /\ InstanceGroupManagerVersion.InstanceTemplate version = primary.
Proof.
  induction versions as [| version rest IH]; intros p0 old0 w p old;
    cbn [rangeVersions].
  - intros [= <- <-]. by left.
  - assert (Hlater :
      forall p1 old1,
        result_of (rangeVersions selfLink rest p1 old1 w) = Ok (p, old) ->
        p = p1
        \/ exists v, In v (version :: rest) /\ isPrimary selfLink v
                     /\ InstanceGroupManagerVersion.InstanceTemplate v = p).
    { intros p1 old1 Hrest.
      destruct (IH _ _ _ _ _ Hrest) as [-> | (v & Hin & Hv)]; [by left |].
      right. exists v. by split; [right |]. }
    destruct (decide _) as [Hrun | Hrun].
    + destruct (InstanceGroupManagerVersion.TargetSize version) as [ts |];
        cbn [deref]; [| discriminate].
      rewrite bind_ret. destruct (decide _); [| apply Hlater].
      unfold logPrintf. rewrite bind_emit. apply Hlater.
    + destruct (decide _) as [Hname | Hname]; [| apply Hlater].
      destruct (decide _); [discriminate |].
      intros Hrest. destruct (Hlater _ _ Hrest) as [-> | Hv]; [| by right].
      right. exists version. by split; [left |].
Qed.

(** X13: a patch that [scale] issues is partial: it sets the versions and
    the update policy and leaves the self-link, the target size, the
    distribution policy and the status unset.  Its versions are either the
    one version on the target template, unnamed and without size, or an
    unnamed primary without size and a canary named [canary] on the target
    template; the template of that primary is not empty, is not the target
    template and is the template of a version of the snapshot that is not
    named [canary], and the fixed size of that canary is below the target size
    of the group. *)
Theorem scale_patch_shape r info w (patch : InstanceGroupManager.t) :
  In patch (patchesIn (trace_of (scale r info w))) ->
  let selfLink := InstanceTemplate.SelfLink (clusterInfo.template info) in
  let group := clusterInfo.group info in
  (InstanceGroupManager.SelfLink patch = ""
   /\ InstanceGroupManager.TargetSize patch = 0
   /\ InstanceGroupManager.DistributionPolicy patch = None
   /\ InstanceGroupManager.Status patch = None
   /\ is_Some (InstanceGroupManager.UpdatePolicy patch))
  /\ (InstanceGroupManager.Versions patch
      = [InstanceGroupManagerVersion.mk "" selfLink None]
      \/ exists primaryTemplate size,
           InstanceGroupManager.Versions patch
           = [ InstanceGroupManagerVersion.mk "" primaryTemplate None;
               InstanceGroupManagerVersion.mk "canary" selfLink
                 (Some (FixedOrPercent.mk 0 size 0)) ]
           /\ primaryTemplate <> ""
           /\ primaryTemplate <> selfLink
           /\ size < InstanceGroupManager.TargetSize group
           /\ exists version,
                In version (InstanceGroupManager.Versions group)
                /\ InstanceGroupManagerVersion.Name version <> "canary"
                /\ InstanceGroupManagerVersion.InstanceTemplate version
                   = primaryTemplate).
Proof.
  rewrite scale_paths. cbn zeta.
  destruct (rangeVersions_quiet (InstanceTemplate.SelfLink (clusterInfo.template info))
              (InstanceGroupManager.Versions (clusterInfo.group info)) "" 0 w)
    as [_ Hlines].
  apply foundCanaryLines_silent in Hlines as (_ & Hnone & _).
  destruct (result_of (rangeVersions _ _ _ _ _)) as [[p old] | e |] eqn:Hfound;
    cbn [trace_of fst snd]; try (rewrite Hnone; intros []).
  destruct (decide (p = "")) as [Hp | Hp]; cbn [trace_of fst snd];
    [rewrite Hnone; intros [] |].
  destruct (InstanceGroupManager.DistributionPolicy (clusterInfo.group info))
    as [dp |]; cbn [trace_of fst snd];
    rewrite patchesIn_app, Hnone; cbn; [| intros []].
  intros [<- | []].
  split; [by repeat split |].
  unfold capped.
  destruct (decide (doubled old >= _)) as [Hcap | Hsplit]; cbn; [by left |].
  right. exists p, (doubled old).
  destruct (rangeVersions_primary _ _ _ _ _ _ _ Hfound)
    as [-> | (version & Hin & [Hother Hname] & Htemplate)]; [done |].
  split; [reflexivity |]. split; [exact Hp |].
  split; [by rewrite <- Htemplate |]. split; [lia |]. by exists version.
Qed.

(** What the loop does not read makes no difference to it. *)
Lemma rangeVersions_asRead selfLink versions :
  forall primaryTemplate oldCanarySize (w : W),
    rangeVersions selfLink (asRead selfLink <$> versions) primaryTemplate
      oldCanarySize w
    = rangeVersions selfLink versions primaryTemplate oldCanarySize w.
Proof.
  induction versions as [| version rest IH]; intros p old w; [reflexivity |].
  assert (Htemplate :
    InstanceGroupManagerVersion.InstanceTemplate (asRead selfLink version)
    = InstanceGroupManagerVersion.InstanceTemplate version)
    by (unfold asRead; by case_decide).
  rewrite fmap_cons. cbn [rangeVersions]. rewrite Htemplate.
  destruct (decide (InstanceGroupManagerVersion.InstanceTemplate version = selfLink))
    as [Hrun | Hrun].
  - assert (Hsize :
      InstanceGroupManagerVersion.TargetSize (asRead selfLink version)
      = InstanceGroupManagerVersion.TargetSize version)
      by (unfold asRead; by rewrite decide_True).
    rewrite Hsize.
    destruct (InstanceGroupManagerVersion.TargetSize version) as [ts |];
      cbn [deref]; [| reflexivity].
    rewrite !bind_ret. destruct (decide _); [| apply IH].
    unfold logPrintf. rewrite !bind_emit. by rewrite IH.
  - assert (Hname :
      InstanceGroupManagerVersion.Name (asRead selfLink version)
      = InstanceGroupManagerVersion.Name version)
      by (unfold asRead; by rewrite decide_False).
    rewrite Hname.
    destruct (decide _); [| apply IH].
    destruct (decide _); [reflexivity | apply IH].
Qed.

(** X18: [scale] tells the canary by its template alone and reads a target
    size only of versions on the target template: its run is the same on the
    snapshot in which the versions on the target template have lost their
    names and the other versions their target sizes. *)
Theorem scale_reads_template_first r info w :
  scale r
    (withVersions info
       (asRead (InstanceTemplate.SelfLink (clusterInfo.template info))
          <$> InstanceGroupManager.Versions (clusterInfo.group info))) w
  = scale r info w.
Proof.
  unfold scale, bind. cbn [withVersions clusterInfo.group clusterInfo.template
    InstanceGroupManager.Versions].
  rewrite rangeVersions_asRead. reflexivity.
Qed.

End ScaleInvariants.

(** ** The loop of Start, for every fleet *)

Section LoopInvariants.

Context {W : Type}.

Implicit Types (r : Runner.t W) (info : clusterInfo.t) (w : W).

(** One turn of the loop, path by path. *)
Lemma iteration_paths r info (loopIterations : Z) w :
  let line :=
    Run.Log "beginning rollout loop iteration #%d" [ArgD loopIterations] in
  let scaled := scale r info w in
  let waited := waitUntilStable r info (world_of scaled) in
  iteration r info loopIterations w =
  match result_of scaled with
  | Err e => (world_of scaled, line :: trace_of scaled, Err e)
  | Panic => (world_of scaled, line :: trace_of scaled, Panic)
  | Ok _ =>
      match result_of waited with
      | Err e =>
          (world_of waited, line :: trace_of scaled ++ trace_of waited, Err e)
      | Panic =>
          (world_of waited, line :: trace_of scaled ++ trace_of waited, Panic)
      | Ok info' =>
          let checked := checkBackendServiceHealth r info' (world_of waited) in
          (world_of checked,
           line :: trace_of scaled ++ trace_of waited ++ trace_of checked,
           match result_of checked with
           | Ok _ => Ok (info', isDone info')
           | Err e => Err e
           | Panic => Panic
           end)
      end
  end.
Proof.
  cbn zeta. unfold iteration, logPrintf. rewrite bind_emit.
  rewrite world_bind, trace_bind, result_bind.
  destruct (result_of (scale r info w)) as [[] | e |];
    rewrite ?app_nil_r; try reflexivity.
  rewrite world_bind, trace_bind, result_bind.
  destruct (result_of (waitUntilStable r info _)) as [info' | e |];
    rewrite ?app_nil_r; try reflexivity.
  rewrite world_bind, trace_bind, result_bind.
  destruct (result_of (checkBackendServiceHealth r info' _)) as [[] | e |];
    cbn [world_of trace_of result_of fst snd ret]; rewrite ?app_nil_r; reflexivity.
Qed.

(** X17: a turn of the loop goes no further than its first failing step.
    When [scale] fails, the turn returns that error having made, after its
    log line, only the calls of [scale]: no fetch and no health check.  When
    the waiter fails, the turn returns that error and the health gate is not
    consulted.  When the health gate fails, the turn returns that error. *)
Theorem iteration_stops_at_first_failure r info (loopIterations : Z) w :
  let line :=
    Run.Log "beginning rollout loop iteration #%d" [ArgD loopIterations] in
  let scaled := scale r info w in
  let waited := waitUntilStable r info (world_of scaled) in
  (forall e,
     result_of scaled = Err e ->
     iteration r info loopIterations w
     = (world_of scaled, line :: trace_of scaled, Err e))
  /\ (result_of scaled = Ok tt ->
      (forall e,
         result_of waited = Err e ->
         iteration r info loopIterations w
         = (world_of waited, line :: trace_of scaled ++ trace_of waited, Err e))
      /\ (forall info' e,
            result_of waited = Ok info' ->
            result_of (checkBackendServiceHealth r info' (world_of waited)) = Err e ->
            result_of (iteration r info loopIterations w) = Err e)).
Proof.
  cbn zeta. rewrite iteration_paths. cbn zeta. split.
  - by intros e ->.
  - intros ->. split.
    + by intros e ->.
    + intros info' e -> Hchecked. cbn [result_of snd]. by rewrite Hchecked.
Qed.

(** The patches of a turn are those of its [scale]. *)
Lemma iteration_patches r info (loopIterations : Z) w :
  (length (patchesIn (trace_of (iteration r info loopIterations w))) <= 1)%nat
  /\ (forall x,
        result_of (iteration r info loopIterations w) = Ok x ->
        length (patchesIn (trace_of (iteration r info loopIterations w))) = 1%nat).
Proof.
  rewrite iteration_paths. cbn zeta.
  destruct (scale_patchesOnce r info w) as ((Hlen & _) & Hnone & _).
  assert (Hwait : forall w', patchesIn (trace_of (waitUntilStable r info w')) = []).
  { intros w'. unfold waitUntilStable, logPrintf. rewrite bind_emit.
    cbn [trace_of fst snd]. change (Z.to_nat maxTicks) with 60%nat.
    apply (waitTicks_invariants r info 60 w'). }
  assert (Hcheck : forall info' w',
            patchesIn (trace_of (checkBackendServiceHealth r info' w')) = []).
  { intros info' w'. rewrite checkBackendServiceHealth_paths. cbn zeta.
    destruct (computeAPI.GetBackendServiceGroupHealth _ _ _ _ w') as [w1 [h | e |]];
      cbn [fst snd]; [| reflexivity ..].
    destruct (computeAPI.GetMIGInstances _ _ _ _ w1) as [w2 [l | e |]]; reflexivity. }
  destruct (result_of (scale r info w)) as [[] | e |] eqn:Hscaled;
    cbn [trace_of result_of fst snd].
  - assert (Hone : length (patchesIn (trace_of (scale r info w))) = 1%nat).
    { destruct (patchesIn (trace_of (scale r info w))) as [| patch rest] eqn:Hp.
      - by destruct (Hnone eq_refl) as (_ & Hnot & _).
      - cbn in *. lia. }
    destruct (result_of (waitUntilStable r info _)) as [info' | e |];
      cbn [trace_of result_of fst snd];
      rewrite patchesIn_cons, ?patchesIn_app, ?Hwait, ?Hcheck, ?app_nil_r;
      cbn [patchesIn flat_map app]; fold (patchesIn (trace_of (scale r info w)));
      (split; [lia | intros x Hx; try discriminate Hx; exact Hone]).
  - rewrite patchesIn_cons. cbn [patchesIn flat_map app].
    fold (patchesIn (trace_of (scale r info w))).
    split; [exact Hlen | discriminate].
  - rewrite patchesIn_cons. cbn [patchesIn flat_map app].
    fold (patchesIn (trace_of (scale r info w))).
    split; [exact Hlen | discriminate].
Qed.

(** A turn of the loop, from the run of its iteration. *)
Lemma loop_unfold r (turns : nat) info (loopIterations : Z) w :
  let turn := iteration r info loopIterations w in
  loop r (S turns) info loopIterations w =
  match result_of turn with
  | Err e => (world_of turn, trace_of turn, Err e)
  | Panic => (world_of turn, trace_of turn, Panic)
  | Ok (info', true) =>
      (world_of turn, trace_of turn ++ [Run.Log "rollout complete" []], Ok (Some tt))
  | Ok (info', false) =>
      let rest := loop r turns info' (loopIterations + 1) (world_of turn) in
      (world_of rest, trace_of turn ++ trace_of rest, result_of rest)
  end.
Proof.
  cbn zeta. destruct (result_of (iteration r info loopIterations w))
    as [[info' done] | e |] eqn:Hturn.
  - rewrite (loop_turn r turns info loopIterations w info' done Hturn).
    by destruct done.
  - cbn [loop]. rewrite (run_eta (bind _ _ w)).
    rewrite world_bind, trace_bind, result_bind, Hturn. by rewrite app_nil_r.
  - cbn [loop]. rewrite (run_eta (bind _ _ w)).
    rewrite world_bind, trace_bind, result_bind, Hturn. by rewrite app_nil_r.
Qed.

Lemma loop_patches r (turns : nat) :
  forall info (loopIterations : Z) w,
    (length (patchesIn (trace_of (loop r turns info loopIterations w))) <= turns)%nat
    /\ (result_of (loop r turns info loopIterations w) = Ok (Some tt) ->
        (1 <= length (patchesIn (trace_of (loop r turns info loopIterations w))))%nat).
Proof.
  induction turns as [| turns IH]; intros info it w.
  - cbn. split; [lia | discriminate].
  - rewrite loop_unfold. cbn zeta.
    destruct (iteration_patches r info it w) as [Hlen Hone].
    destruct (result_of (iteration r info it w)) as [[info' []] | e |];
      cbn [trace_of result_of fst snd].
    + rewrite patchesIn_app, length_app, (Hone _ eq_refl). cbn. split; lia.
    + destruct (IH info' (it + 1) (world_of (iteration r info it w))) as [IHlen IHone].
      rewrite patchesIn_app, length_app, (Hone _ eq_refl). split; [lia | lia].
    + split; [lia | discriminate].
    + split; [lia | discriminate].
Qed.

(** X16: [Start] patches at most once per turn of its loop, and it returns
    nil only after at least one patch: a rollout is never reported complete
    without the group having been patched in this run. *)
Theorem Start_patches_per_turn r (turns : nat) w :
  (length (patchesIn (trace_of (Start r turns w))) <= turns)%nat
  /\ (result_of (Start r turns w) = Ok (Some tt) ->
      (1 <= length (patchesIn (trace_of (Start r turns w))))%nat).
Proof.
  unfold Start, logPrintf. rewrite bind_emit.
  cbn [trace_of result_of fst snd]. rewrite patchesIn_cons.
  cbn [patchesIn flat_map app].
  fold (patchesIn (trace_of ((let* info := getInfo r in loop r turns info 0) w))).
  rewrite trace_bind, result_bind, patchesIn_app.
  assert (Hinfo : patchesIn (trace_of (getInfo r w)) = []).
  { rewrite getInfo_paths. cbn zeta.
    destruct (computeAPI.GetMIG _ _ _ _ w) as [w1 [group | e |]]; cbn [fst snd];
      [| reflexivity ..].
    destruct (computeAPI.GetInstanceTemplate _ _ _ w1) as [w2 [template | e |]];
      cbn [fst snd]; [| reflexivity ..].
    destruct (computeAPI.FindBackendServiceWithMIG _ _ _ w2) as [w3 [b | e |]];
      reflexivity. }
  rewrite Hinfo. cbn [app].
  destruct (result_of (getInfo r w)) as [info | e |];
    [apply loop_patches | cbn; split; [lia | discriminate] ..].
Qed.

End LoopInvariants.

(** ** What a run touches *)

Section OwnGroup.

Context {W : Type}.

Implicit Types (r : Runner.t W) (info : clusterInfo.t) (w : W).

Lemma scale_own r info w : Forall (ownCall r) (trace_of (scale r info w)).
Proof.
  rewrite scale_paths. cbn zeta.
  destruct (rangeVersions_quiet (InstanceTemplate.SelfLink (clusterInfo.template info))
              (InstanceGroupManager.Versions (clusterInfo.group info)) "" 0 w)
    as [_ Hlines].
  destruct (foundCanaryLines_no_call r _ Hlines) as (_ & _ & Hown).
  destruct (result_of (rangeVersions _ _ _ _ _)) as [[p old] | e |];
    [| exact Hown ..].
  destruct (decide (p = "")); [exact Hown |].
  destruct (InstanceGroupManager.DistributionPolicy _);
    cbn [trace_of fst snd]; apply Forall_app; (split; [exact Hown |]);
    repeat constructor.
Qed.

Lemma waitTicks_own r info (remaining : nat) :
  forall w, Forall (ownCall r) (trace_of (waitTicks r info remaining w)).
Proof.
  induction remaining as [| remaining IH]; intros w; [constructor |].
  rewrite waitTicks_tick. cbn zeta.
  destruct (computeAPI.GetMIG _ _ _ _ w) as [w1 [group | e |]]; cbn [fst snd];
    [| repeat constructor ..].
  destruct (result_of (stableAndReached group w1)) as [[] | e |];
    cbn [trace_of fst snd]; [repeat constructor | | repeat constructor ..].
  apply Forall_app. split; [repeat constructor | apply IH].
Qed.

Lemma waitUntilStable_own r info w :
  Forall (ownCall r) (trace_of (waitUntilStable r info w)).
Proof.
  unfold waitUntilStable, logPrintf. rewrite bind_emit. cbn [trace_of fst snd].
  constructor; [exact I | apply waitTicks_own].
Qed.

Lemma checkBackendServiceHealth_own r info w :
  Forall (ownCall r) (trace_of (checkBackendServiceHealth r info w)).
Proof.
  rewrite checkBackendServiceHealth_paths. cbn zeta.
  destruct (computeAPI.GetBackendServiceGroupHealth _ _ _ _ w) as [w1 [h | e |]];
    cbn [fst snd]; [| repeat constructor ..].
  destruct (computeAPI.GetMIGInstances _ _ _ _ w1) as [w2 [l | e |]];
    repeat constructor.
Qed.

Lemma getInfo_own r w : Forall (ownCall r) (trace_of (getInfo r w)).
Proof.
  rewrite getInfo_paths. cbn zeta.
  destruct (computeAPI.GetMIG _ _ _ _ w) as [w1 [group | e |]]; cbn [fst snd];
    [| repeat constructor ..].
  destruct (computeAPI.GetInstanceTemplate _ _ _ w1) as [w2 [template | e |]];
    cbn [fst snd]; [| repeat constructor ..].
  repeat constructor.
Qed.

Lemma iteration_own r info (loopIterations : Z) w :
  Forall (ownCall r) (trace_of (iteration r info loopIterations w)).
Proof.
  rewrite iteration_paths. cbn zeta.
  pose proof (scale_own r info w) as Hscaled.
  pose proof (waitUntilStable_own r info (world_of (scale r info w))) as Hwaited.
  destruct (result_of (scale r info w)) as [[] | e |];
    [| by constructor ..].
  destruct (result_of (waitUntilStable r info _)) as [info' | e |];
    cbn [trace_of fst snd]; constructor; try exact I;
    repeat (apply Forall_app; split); try assumption.
  apply checkBackendServiceHealth_own.
Qed.

Lemma loop_own r (turns : nat) :
  forall info (loopIterations : Z) w,
    Forall (ownCall r) (trace_of (loop r turns info loopIterations w)).
Proof.
  induction turns as [| turns IH]; intros info it w; [constructor |].
  rewrite loop_unfold. cbn zeta.
  pose proof (iteration_own r info it w) as Hturn.
  destruct (result_of (iteration r info it w)) as [[info' []] | e |];
    cbn [trace_of fst snd]; try exact Hturn;
    apply Forall_app; (split; [exact Hturn |]); [repeat constructor | apply IH].
Qed.

Lemma Start_own r (turns : nat) w :
  Forall (ownCall r) (trace_of (Start r turns w)).
Proof.
  unfold Start, logPrintf. rewrite bind_emit. cbn [trace_of fst snd].
  constructor; [exact I |].
  apply trace_bind_Forall; [apply getInfo_own | intros info w'; apply loop_own].
Qed.

(** X15: a run of [Start] only ever addresses the group it was built for:
    every fetch, listing and patch it makes carries the project, the location
    and the group name of the runner, and the template and the backend service
    are looked up in that project. *)
Theorem Start_touches_own_group_only r (turns : nat) w (ev : Run.event) :
  In ev (trace_of (Start r turns w)) ->
  match ev with
  | Run.GetMIG projectID location name
  | Run.GetMIGInstances projectID location name
  | Run.PatchMIG projectID location name _ =>
      projectID = Runner.projectID r
      /\ location = Runner.location r
      /\ name = Runner.migName r
  | Run.GetInstanceTemplate projectID name =>
      projectID = Runner.projectID r /\ name = Runner.templateName r
  | Run.FindBackendServiceWithMIG projectID _
  | Run.GetBackendServiceGroupHealth projectID _ _ =>
      projectID = Runner.projectID r
  | Run.Log _ _ | Run.Sleep _ => True
  end.
Proof.
  intros Hin.
  pose proof (Start_own r turns w) as Hown.
  rewrite Forall_forall in Hown. apply list_elem_of_In in Hin.
  specialize (Hown ev Hin). by destruct ev.
Qed.

(** X14: on a group whose versions all run the target template (each
    carrying its size), [scale] fails with the missing-primary error and
    calls nothing, so that a loop of [Start] entered with such a snapshot
    fails with that error in its first turn without a patch, also when the
    done-check holds of the snapshot. *)
Theorem scale_on_completed_rollout r info w :
  let selfLink := InstanceTemplate.SelfLink (clusterInfo.template info) in
  let versions := InstanceGroupManager.Versions (clusterInfo.group info) in
  Forall (runsTemplate selfLink) versions ->
  sized selfLink versions ->
  (result_of (scale r info w) = Err MissingPrimaryError
   /\ world_of (scale r info w) = w
   /\ callsIn (trace_of (scale r info w)) = [])
  /\ (forall (turns : nat) (loopIterations : Z),
        result_of (loop r (S turns) info loopIterations w) = Err MissingPrimaryError
        /\ callsIn (trace_of (loop r (S turns) info loopIterations w)) = [])
  /\ (length versions = 1%nat -> isDone info = true).
Proof.
  intros selfLink versions Hall Hsized.
  assert (Hnone : filter (isPrimary selfLink) versions = []).
  { clear Hsized. induction Hall as [| version rest Hrun _ IH]; [reflexivity |].
    rewrite filter_cons_False by (intros [Hother _]; by apply Hother). exact IH. }
  assert (Hscale :
    scale r info w
    = (w, trace_of (rangeVersions selfLink versions "" 0 w), Err MissingPrimaryError)).
  { rewrite scale_paths. cbn zeta. fold selfLink versions.
    rewrite (rangeVersions_result _ _ Hsized), Hnone. cbn [fmap list_fmap settle].
    by rewrite decide_True. }
  destruct (rangeVersions_quiet selfLink versions "" 0 w) as [_ Hlines].
  apply foundCanaryLines_silent in Hlines as (Hcalls & _ & _).
  split; [| split].
  - rewrite Hscale. by repeat split.
  - intros turns it. rewrite loop_unfold. cbn zeta.
    rewrite iteration_paths. cbn zeta. rewrite Hscale.
    cbn [world_of trace_of result_of fst snd]. split; [reflexivity |].
    unfold callsIn in *. cbn [List.filter isCall]. exact Hcalls.
  - intros Hone. unfold isDone. cbn zeta. fold versions.
    destruct versions as [| version [| other rest]]; try discriminate Hone.
    apply Forall_inv in Hall. cbn.
    rewrite (bool_decide_eq_true_2 (1%nat = 1%nat)) by reflexivity.
    by rewrite bool_decide_eq_true_2.
Qed.

End OwnGroup.

(** ** The start command *)

(** X19: the start command fails with the wrapped error of the
    initialization, having done nothing, when the service cannot be created.
    Otherwise it runs [Start] for the region of the command, so that every
    call it makes is regional; with an empty region it fails at the first
    fetch with the wrapped location error; and whatever the service answers it
    never returns nil and never patches. *)
Theorem StartCmd_Run_outcomes (W : Type) (c : StartCmd.t)
    (timeSleep : Z -> W -> W) (turns : nat) (w : W) :
  (forall err,
     StartCmd.Run c (inr err) timeSleep turns w
     = (w, [], Err (Wrap err "error initializing Google Compute API client")))
  /\ (forall computeService : Service.t W,
        let run := StartCmd.Run c (inl computeService) timeSleep turns w in
        (forall done, result_of run <> Ok done)
        /\ patchesIn (trace_of run) = []
        /\ (forall projectID location name,
              In (Run.GetMIG projectID location name) (trace_of run) ->
              location = RegionOrZone.mk (StartCmd.Region c) "")
        /\ (StartCmd.Region c = "" ->
            run
            = (w,
               [Run.Log "starting rollout of template '%s' to managed instance group '%s'"
                  [ArgS (StartCmd.Template c); ArgS (StartCmd.InstanceGroup c)];
                Run.GetMIG (StartCmd.ProjectID c) (RegionOrZone.mk "" "")
                  (StartCmd.InstanceGroup c)],
               Err (Wrap LocationError "error retrieving instance group information")))).
Proof.
  split; [reflexivity |].
  intros computeService run.
  set (r := Runner.mk W (googleComputeAPI_computeAPI (googleComputeAPI.mk computeService))
              timeSleep (StartCmd.ProjectID c) (Region (StartCmd.Region c))
              (StartCmd.InstanceGroup c) (StartCmd.Template c)).
  change run with (Start r turns w).
  destruct (getInfo_never r w) as (Hnever & Hpatches & _ & _).
  { intros group w' backend. apply real_adapter_never_finds. }
  split; [| split; [| split]].
  - rewrite (Start_stops_with_getInfo r turns w Hnever). cbn [result_of snd].
    intros done. destruct (result_of (getInfo r w)) as [info | e |];
      [by destruct (Hnever info) | discriminate ..].
  - rewrite (Start_stops_with_getInfo r turns w Hnever). exact Hpatches.
  - intros projectID location name Hin.
    pose proof (Start_own r turns w) as Hown.
    rewrite Forall_forall in Hown. apply list_elem_of_In in Hin.
    by destruct (Hown _ Hin) as (_ & -> & _).
  - intros Hempty. rewrite (Start_stops_with_getInfo r turns w Hnever).
    rewrite getInfo_paths. cbn zeta. unfold r. rewrite Hempty. reflexivity.
Qed.

(** ** The further properties at concrete fleets *)

(** The hypotheses of X1 hold of the region [region] and of the zone
    [zone]. *)
Lemma fetch_and_patch_pass_through_witness :
  googleComputeAPI.GetMIG (Canned.adapter Examples.stableGroup []) "project"
    (Region "region") "group" tt
  = (tt, [Net.RegionInstanceGroupManagers_Get "project" "region" "group"],
     Ok Examples.stableGroup)
  /\ googleComputeAPI.PatchMIG (Canned.adapter Examples.stableGroup []) "project"
       (Zone "zone") "group" Examples.patch4 tt
     = (tt, [Net.InstanceGroupManagers_Patch "project" "zone" "group" Examples.patch4],
        Ok tt).
Proof.
  split.
  - exact (proj1 (proj1 (fetch_and_patch_pass_through
                           (Canned.adapter Examples.stableGroup [])
                           "project" "group" Examples.patch4 tt)
                    "region" ltac:(discriminate))).
  - exact (proj2 (proj2 (fetch_and_patch_pass_through
                           (Canned.adapter Examples.stableGroup [])
                           "project" "group" Examples.patch4 tt)
                    "zone" ltac:(discriminate))).
Defined.

(** The hypotheses of X2 hold of a listing in two pages, and of the same
    listing that fails after them. *)
Lemma GetMIGInstances_all_pages_witness :
  let pages :=
    [ ListManagedInstancesResponse.mk [Fixed.vmA];
      ListManagedInstancesResponse.mk [Fixed.vmB] ] in
  result_of
    (googleComputeAPI.GetMIGInstances (Fixed.paging pages None) "project"
       (Region "region") "group" tt)
  = Ok [Fixed.vmA; Fixed.vmB]
  /\ result_of
       (googleComputeAPI.GetMIGInstances
          (Fixed.paging pages (Some Fixed.unavailable)) "project"
          (Region "region") "group" tt)
     = Err (Wrap Fixed.unavailable "error retrieving list of managed instances").
Proof.
  cbn zeta. split.
  - rewrite (GetMIGInstances_all_pages
               (Fixed.paging
                  [ ListManagedInstancesResponse.mk [Fixed.vmA];
                    ListManagedInstancesResponse.mk [Fixed.vmB] ] None)
               "project" "region" "group" tt tt _ None
               ltac:(discriminate) eq_refl).
    reflexivity.
  - rewrite (GetMIGInstances_all_pages
               (Fixed.paging
                  [ ListManagedInstancesResponse.mk [Fixed.vmA];
                    ListManagedInstancesResponse.mk [Fixed.vmB] ]
                  (Some Fixed.unavailable))
               "project" "region" "group" tt tt _ (Some Fixed.unavailable)
               ltac:(discriminate) eq_refl).
    reflexivity.
Defined.

(** The hypotheses of X3 hold of a backend service of the region [us] and
    of a global one. *)
Lemma GetBackendServiceGroupHealth_scope_witness :
  trace_of
    (googleComputeAPI.GetBackendServiceGroupHealth
       (Canned.adapter Examples.stableGroup []) "project" Fixed.regionalBackend
       Examples.stableGroup tt)
  = [Net.RegionBackendServices_GetHealth "project" "us" "backend"
       (ResourceGroupReference.mk "group-link")]
  /\ trace_of
       (googleComputeAPI.GetBackendServiceGroupHealth
          (Canned.adapter Examples.stableGroup []) "project" Fixed.backend
          Examples.stableGroup tt)
     = [Net.BackendServices_GetHealth "project" "backend"
          (ResourceGroupReference.mk "group-link")].
Proof.
  split.
  - rewrite (proj1 (GetBackendServiceGroupHealth_scope
                      (Canned.adapter Examples.stableGroup []) "project"
                      Fixed.regionalBackend Examples.stableGroup tt)
               ltac:(discriminate)).
    reflexivity.
  - rewrite (proj2 (GetBackendServiceGroupHealth_scope
                      (Canned.adapter Examples.stableGroup []) "project"
                      Fixed.backend Examples.stableGroup tt)
               eq_refl).
    reflexivity.
Defined.

(** The hypotheses of X5 hold of a fleet whose fetch fails, of one whose
    template is missing, of one without backend service and of one that
    answers all three calls. *)
Lemma getInfo_stops_at_first_error_witness :
  let fetch := Run.GetMIG "project" (Region "region") "group" in
  let resolve := Run.GetInstanceTemplate "project" "templates/new" in
  let find := Run.FindBackendServiceWithMIG "project" Examples.stableGroup in
  let others := Ok [] in
  getInfo (Fixed.runner (Err Fixed.unavailable) others (Ok tt) (Ok Fixed.template)
             (Ok Fixed.backend) (Ok Fixed.health)) tt
  = (tt, [fetch], Err Fixed.unavailable)
  /\ getInfo (Fixed.runner (Ok Examples.stableGroup) others (Ok tt)
                (Err Fixed.unavailable) (Ok Fixed.backend) (Ok Fixed.health)) tt
     = (tt, [fetch; resolve], Err Fixed.unavailable)
  /\ getInfo (Fixed.runner (Ok Examples.stableGroup) others (Ok tt)
                (Ok Fixed.template) (Err Fixed.unavailable) (Ok Fixed.health)) tt
     = (tt, [fetch; resolve; find], Err Fixed.unavailable)
  /\ getInfo (Fixed.runner (Ok Examples.stableGroup) others (Ok tt)
                (Ok Fixed.template) (Ok Fixed.backend) (Ok Fixed.health)) tt
     = (tt, [fetch; resolve; find],
        Ok (clusterInfo.mk Examples.stableGroup Fixed.template Fixed.backend)).
Proof.
  cbn zeta. repeat apply conj.
  - exact (proj1 (getInfo_stops_at_first_error
                    (Fixed.runner (Err Fixed.unavailable) (Ok []) (Ok tt)
                       (Ok Fixed.template) (Ok Fixed.backend) (Ok Fixed.health)) tt)
             Fixed.unavailable eq_refl).
  - exact (proj1 (proj2 (getInfo_stops_at_first_error
                           (Fixed.runner (Ok Examples.stableGroup) (Ok []) (Ok tt)
                              (Err Fixed.unavailable) (Ok Fixed.backend)
                              (Ok Fixed.health)) tt)
                    Examples.stableGroup eq_refl)
             Fixed.unavailable eq_refl).
  - exact (proj1 (proj2 (proj2 (getInfo_stops_at_first_error
                                  (Fixed.runner (Ok Examples.stableGroup) (Ok []) (Ok tt)
                                     (Ok Fixed.template) (Err Fixed.unavailable)
                                     (Ok Fixed.health)) tt)
                           Examples.stableGroup eq_refl)
                    Fixed.template eq_refl)
             Fixed.unavailable eq_refl).
  - exact (proj2 (proj2 (proj2 (getInfo_stops_at_first_error
                                  (Fixed.runner (Ok Examples.stableGroup) (Ok []) (Ok tt)
                                     (Ok Fixed.template) (Ok Fixed.backend)
                                     (Ok Fixed.health)) tt)
                           Examples.stableGroup eq_refl)
                    Fixed.template eq_refl)
             Fixed.backend eq_refl).
Defined.

(** The hypothesis of X8 holds of the fleet that is stable at the third
    fetch. *)
Lemma waitUntilStable_returns_stable_witness :
  reportsStableReached Examples.stableGroup
  /\ fetchesIn
       (trace_of
          (waitUntilStable (Examples.scripted Examples.stableAfterTwo "vm-b")
             (Examples.snapshot [Examples.primary]) 0%nat))
     = 3%nat.
Proof.
  destruct (waitUntilStable_returns_stable
              (Examples.scripted Examples.stableAfterTwo "vm-b")
              (Examples.snapshot [Examples.primary]) 0%nat
              (clusterInfo.mk Examples.stableGroup
                 (clusterInfo.template (Examples.snapshot [Examples.primary]))
                 (clusterInfo.backend (Examples.snapshot [Examples.primary])))
              eq_refl)
    as (_ & _ & Hstable & Hfetches).
  split; [exact Hstable | exact Hfetches].
Defined.

(** The hypotheses of X9 hold of the fleet whose third fetch fails. *)
Lemma waitUntilStable_fetch_error_witness :
  result_of
    (waitUntilStable
       (Scripted.runner Fixed.failsAfterTwo (Ok Fixed.health) (Ok Examples.listing)
          "templates/new")
       (Examples.snapshot [Examples.primary]) 0%nat)
  = Err Fixed.unavailable
  /\ sleepsIn
       (trace_of
          (waitUntilStable
             (Scripted.runner Fixed.failsAfterTwo (Ok Fixed.health)
                (Ok Examples.listing) "templates/new")
             (Examples.snapshot [Examples.primary]) 0%nat))
     = 2%nat.
Proof.
  assert (Hunstable :
    unstableFetches
      (Scripted.runner Fixed.failsAfterTwo (Ok Fixed.health) (Ok Examples.listing)
         "templates/new") 2 0%nat 2%nat).
  { do 2 (eapply unstable_more; [reflexivity | by eexists | cbn]).
    apply unstable_none. }
  destruct (waitUntilStable_fetch_error
              (Scripted.runner Fixed.failsAfterTwo (Ok Fixed.health)
                 (Ok Examples.listing) "templates/new")
              (Examples.snapshot [Examples.primary])
              2%nat 0%nat 2%nat 3%nat Fixed.unavailable
              ltac:(lia) Hunstable eq_refl)
    as (Hresult & _ & _ & Hsleeps).
  split; [exact Hresult | exact Hsleeps].
Defined.

(** The hypotheses of X10 hold of a fleet whose health call fails and of
    one whose listing fails. *)
Lemma checkBackendServiceHealth_reads_only_witness :
  callsIn
    (trace_of
       (checkBackendServiceHealth
          (Fixed.runner (Ok Examples.stableGroup) (Ok Examples.listing) (Ok tt)
             (Ok Fixed.template) (Ok Fixed.backend) (Err Fixed.unavailable))
          (Examples.snapshot [Examples.primary]) tt))
  = [Run.GetBackendServiceGroupHealth "project"
       (clusterInfo.backend (Examples.snapshot [Examples.primary]))
       (clusterInfo.group (Examples.snapshot [Examples.primary]))]
  /\ result_of
       (checkBackendServiceHealth
          (Fixed.runner (Ok Examples.stableGroup) (Err Fixed.unavailable) (Ok tt)
             (Ok Fixed.template) (Ok Fixed.backend) (Ok Fixed.health))
          (Examples.snapshot [Examples.primary]) tt)
     = Err Fixed.unavailable.
Proof.
  split.
  - exact (proj1 (proj2 (proj1 (proj2 (checkBackendServiceHealth_reads_only
               (Fixed.runner (Ok Examples.stableGroup) (Ok Examples.listing) (Ok tt)
                  (Ok Fixed.template) (Ok Fixed.backend) (Err Fixed.unavailable))
               (Examples.snapshot [Examples.primary]) tt))
             Fixed.unavailable eq_refl))).
  - exact (proj1 (proj2 (proj2 (checkBackendServiceHealth_reads_only
               (Fixed.runner (Ok Examples.stableGroup) (Err Fixed.unavailable) (Ok tt)
                  (Ok Fixed.template) (Ok Fixed.backend) (Ok Fixed.health))
               (Examples.snapshot [Examples.primary]) tt))
             Fixed.health Fixed.unavailable eq_refl eq_refl)).
Defined.

(** The hypothesis of X11 holds of a health record with four statuses,
    three unhealthy, for two distinct instances: the gate logs 2. *)
Lemma checkBackendServiceHealth_logs_distinct_witness :
  In (Run.Log "found %d unhealthy instances" [ArgD 2])
    (trace_of
       (checkBackendServiceHealth
          (Fixed.runner (Ok Examples.stableGroup) (Ok Examples.listing) (Ok tt)
             (Ok Fixed.template) (Ok Fixed.backend) (Ok Fixed.health))
          (Examples.snapshot [Examples.primary]) tt)).
Proof.
  exact (checkBackendServiceHealth_logs_distinct
           (Fixed.runner (Ok Examples.stableGroup) (Ok Examples.listing) (Ok tt)
              (Ok Fixed.template) (Ok Fixed.backend) (Ok Fixed.health))
           (Examples.snapshot [Examples.primary]) tt tt Fixed.health eq_refl).
Defined.

(** The hypotheses of X12 hold of a group with only a canary, which
    [scale] does not patch, and of a group with a canary of 2, whose patch the
    fleet refuses. *)
Lemma scale_patches_once_witness :
  world_of
    (scale Examples.runner (Examples.snapshot [Examples.canaryOf 2])
       (Examples.fleet [Examples.canaryOf 2]))
  = Examples.fleet [Examples.canaryOf 2]
  /\ result_of
       (scale
          (Fixed.runner (Ok Examples.stableGroup) (Ok Examples.listing)
             (Err Fixed.unavailable) (Ok Fixed.template) (Ok Fixed.backend)
             (Ok Fixed.health))
          (Examples.snapshot [Examples.primary; Examples.canaryOf 2]) tt)
     = Err (Wrap Fixed.unavailable
              "error updating instance templates in instance group").
Proof.
  split.
  - exact (proj1 (proj1 (proj2 (scale_patches_once Examples.runner
               (Examples.snapshot [Examples.canaryOf 2])
               (Examples.fleet [Examples.canaryOf 2]))) eq_refl)).
  - exact (proj2 (proj2 (proj2 (proj2 (scale_patches_once
               (Fixed.runner (Ok Examples.stableGroup) (Ok Examples.listing)
                  (Err Fixed.unavailable) (Ok Fixed.template) (Ok Fixed.backend)
                  (Ok Fixed.health))
               (Examples.snapshot [Examples.primary; Examples.canaryOf 2]) tt))
             Examples.patch4 eq_refl))).
Defined.

(** The hypothesis of X13 holds of the patch that doubles a canary of 2 in
    a group of 10. *)
Lemma scale_patch_shape_witness :
  InstanceGroupManager.SelfLink Examples.patch4 = ""
  /\ InstanceGroupManager.TargetSize Examples.patch4 = 0.
Proof.
  destruct (scale_patch_shape Examples.runner
              (Examples.snapshot [Examples.primary; Examples.canaryOf 2])
              (Examples.fleet [Examples.primary; Examples.canaryOf 2])
              Examples.patch4 (or_introl eq_refl))
    as ((Hlink & Hsize & _) & _).
  split; [exact Hlink | exact Hsize].
Defined.

(** The hypotheses of X14 hold of a group of 10 whose one version runs the
    target template. *)
Lemma scale_on_completed_rollout_witness :
  result_of
    (loop Examples.runner 3 (Examples.snapshot [Fixed.completed]) 0
       (Examples.fleet [Fixed.completed]))
  = Err MissingPrimaryError
  /\ isDone (Examples.snapshot [Fixed.completed]) = true.
Proof.
  destruct (scale_on_completed_rollout Examples.runner
              (Examples.snapshot [Fixed.completed])
              (Examples.fleet [Fixed.completed])
              ltac:(repeat constructor) ltac:(each_carried))
    as (_ & Hloop & Hdone).
  split; [exact (proj1 (Hloop 2%nat 0)) | exact (Hdone eq_refl)].
Defined.

(** The hypothesis of X15 holds of the first patch of a rollout over the
    simulated fleet. *)
Lemma Start_touches_own_group_only_witness :
  "project" = Runner.projectID Examples.runner
  /\ Region "region" = Runner.location Examples.runner
  /\ "group" = Runner.migName Examples.runner.
Proof.
  refine (Start_touches_own_group_only Examples.runner 1
            (Simulated.fleet [Examples.primary] 4 Examples.zones)
            (Run.PatchMIG "project" (Region "region") "group"
               (patchOf
                  [ InstanceGroupManagerVersion.mk "" "templates/old" None;
                    InstanceGroupManagerVersion.mk "canary" "templates/new"
                      (Some (FixedOrPercent.mk 0 1 0)) ]
                  3 0)) _).
  do 6 right. left. reflexivity.
Defined.

(** The hypothesis of X16 holds of the rollout of the simulated group of
    10, which completes in five turns. *)
Lemma Start_patches_per_turn_witness :
  (1 <= length
          (patchesIn
             (trace_of (Start Examples.runner 5 (Examples.fleet [Examples.primary])))))%nat.
Proof.
  exact (proj2 (Start_patches_per_turn Examples.runner 5
                  (Examples.fleet [Examples.primary])) eq_refl).
Defined.

(** The hypotheses of X17 hold of a turn whose [scale] fails (a group with
    only a canary), of one whose waiter times out and of one whose health gate
    fails. *)
Lemma iteration_stops_at_first_failure_witness :
  fetchesIn
    (trace_of
       (iteration Examples.runner (Examples.snapshot [Examples.canaryOf 2]) 0
          (Examples.fleet [Examples.canaryOf 2]))) = 0%nat
  /\ result_of
       (iteration (Examples.scripted Examples.neverStable "vm-a")
          (Examples.snapshot [Examples.primary; Examples.canaryOf 2]) 0 0%nat)
     = Err StabilityTimeoutError
  /\ result_of
       (iteration (Examples.scripted Examples.stableAfterTwo "vm-a")
          (Examples.snapshot [Examples.primary; Examples.canaryOf 2]) 0 0%nat)
     = Err (UnhealthyCanaryError "vm-a").
Proof.
  split; [| split].
  - rewrite (proj1 (iteration_stops_at_first_failure Examples.runner
                      (Examples.snapshot [Examples.canaryOf 2]) 0
                      (Examples.fleet [Examples.canaryOf 2]))
               MissingPrimaryError eq_refl).
    reflexivity.
  - rewrite (proj1 (proj2 (iteration_stops_at_first_failure
                             (Examples.scripted Examples.neverStable "vm-a")
                             (Examples.snapshot [Examples.primary; Examples.canaryOf 2])
                             0 0%nat) eq_refl)
               StabilityTimeoutError eq_refl).
    reflexivity.
  - exact (proj2 (proj2 (iteration_stops_at_first_failure
                           (Examples.scripted Examples.stableAfterTwo "vm-a")
                           (Examples.snapshot [Examples.primary; Examples.canaryOf 2])
                           0 0%nat) eq_refl)
             (clusterInfo.mk Examples.stableGroup
                (clusterInfo.template
                   (Examples.snapshot [Examples.primary; Examples.canaryOf 2]))
                (clusterInfo.backend
                   (Examples.snapshot [Examples.primary; Examples.canaryOf 2])))
             (UnhealthyCanaryError "vm-a") eq_refl eq_refl).
Defined.

(** The hypotheses of X19 hold of the command for the region [region] and
    of the command with an empty region. *)
Lemma StartCmd_Run_outcomes_witness :
  RegionOrZone.mk "region" "" = RegionOrZone.mk "region" ""
  /\ result_of
       (StartCmd.Run (Fixed.command "") (inl (Canned.service Examples.stableGroup []))
          (fun _ w => w) 3 tt)
     = Err (Wrap LocationError "error retrieving instance group information").
Proof.
  split.
  - refine (proj1 (proj2 (proj2 (proj2 (StartCmd_Run_outcomes unit
              (Fixed.command "region") (fun _ w => w) 3 tt)
              (Canned.service Examples.stableGroup []))))
              "project" (RegionOrZone.mk "region" "") "group" _).
    right. left. reflexivity.
  - rewrite (proj2 (proj2 (proj2 (proj2 (StartCmd_Run_outcomes unit
               (Fixed.command "") (fun _ w => w) 3 tt)
               (Canned.service Examples.stableGroup []))))
               eq_refl).
    reflexivity.
Defined.
